(** * Commit farm daemon: schedule generator and execution loop

    A shallow embedding of [commit_farm.py].  The daemon draws, once per
    calendar day, a random set of future timestamps inside a configured
    window, persists them in [state.json], sleeps until each of them in
    bounded increments and performs one commit per timestamp.

    Layout of the development:
    - [PyDatetime]  the part of Python's [datetime] the program uses;
    - [Json]        the values [json.load] returns and [json.dump] accepts;
    - [Effects]     the calls the program makes to the outside world and
                    the state/exception monad that threads them;
    - [Farm]        the functions of [commit_farm.py];
    - the properties of the schedule generator, of the state handling and
      of the loop. *)

From Stdlib Require Import ZArith Lia List Bool Ascii String Sorting.Sorted.
From stdpp Require Import base decidable option list strings gmap sorting.

Local Open Scope string_scope.
Local Open Scope list_scope.
Local Open Scope Z_scope.

(** ** Python's [datetime] *)

Module PyDatetime.

(** A naive [datetime] object: the seven fields Python stores. *)
Record datetime : Type := mkDatetime {
  year : Z; month : Z; day : Z;
  hour : Z; minute : Z; second : Z; microsecond : Z
}.

Definition is_leap (y : Z) : bool :=
  (y mod 4 =? 0) && (negb (y mod 100 =? 0) || (y mod 400 =? 0)).

Definition days_in_month (y m : Z) : Z :=
  if m =? 2 then (if is_leap y then 29 else 28)
  else if (m =? 4) || (m =? 6) || (m =? 9) || (m =? 11) then 30
  else 31.

Definition MINYEAR : Z := 1.
Definition MAXYEAR : Z := 9999.

(** The range checks of the [datetime] constructor. *)
Definition valid (d : datetime) : Prop :=
  MINYEAR <= year d <= MAXYEAR /\ 1 <= month d <= 12 /\
  1 <= day d <= days_in_month (year d) (month d) /\
  0 <= hour d < 24 /\ 0 <= minute d < 60 /\ 0 <= second d < 60 /\
  0 <= microsecond d < 1000000.

Definition in_range (lo x hi : Z) : bool := (lo <=? x) && (x <=? hi).

Definition validb (d : datetime) : bool :=
  in_range MINYEAR (year d) MAXYEAR && in_range 1 (month d) 12 &&
  in_range 1 (day d) (days_in_month (year d) (month d)) &&
  in_range 0 (hour d) 23 && in_range 0 (minute d) 59 &&
  in_range 0 (second d) 59 && in_range 0 (microsecond d) 999999.

(** Comparison of naive datetimes: lexicographic on the seven fields. *)
Fixpoint lex_compare (a b : list Z) : comparison :=
  match a, b with
  | x :: a', y :: b' =>
      match x ?= y with Eq => lex_compare a' b' | c => c end
  | [], [] => Eq
  | [], _ :: _ => Lt
  | _ :: _, [] => Gt
  end.

Definition fields (d : datetime) : list Z :=
  [year d; month d; day d; hour d; minute d; second d; microsecond d].

Definition compare (a b : datetime) : comparison :=
  lex_compare (fields a) (fields b).

Definition ltb (a b : datetime) : bool :=
  match compare a b with Lt => true | _ => false end.
Definition leb (a b : datetime) : bool :=
  match compare a b with Gt => false | _ => true end.
Definition gtb (a b : datetime) : bool := ltb b a.

Definition lt (a b : datetime) : Prop := ltb a b = true.
Definition le (a b : datetime) : Prop := leb a b = true.

(** [dt.replace(hour=h, minute=0, second=0, microsecond=0)];
    [None] is the [ValueError] for an hour outside 0..23. *)
Definition replace_hour (d : datetime) (h : Z) : option datetime :=
  if in_range 0 h 23
  then Some (mkDatetime (year d) (month d) (day d) h 0 0 0)
  else None.

(** Calendar successor and predecessor of the date part. *)
Definition next_day (d : datetime) : datetime :=
  if day d <? days_in_month (year d) (month d)
  then mkDatetime (year d) (month d) (day d + 1)
                  (hour d) (minute d) (second d) (microsecond d)
  else if month d <? 12
  then mkDatetime (year d) (month d + 1) 1
                  (hour d) (minute d) (second d) (microsecond d)
  else mkDatetime (year d + 1) 1 1
                  (hour d) (minute d) (second d) (microsecond d).

Definition prev_day (d : datetime) : datetime :=
  if 1 <? day d
  then mkDatetime (year d) (month d) (day d - 1)
                  (hour d) (minute d) (second d) (microsecond d)
  else if 1 <? month d
  then mkDatetime (year d) (month d - 1) (days_in_month (year d) (month d - 1))
                  (hour d) (minute d) (second d) (microsecond d)
  else mkDatetime (year d - 1) 12 31
                  (hour d) (minute d) (second d) (microsecond d).

Definition shift_days (d : datetime) (n : Z) : datetime :=
  match n with
  | Z0 => d
  | Zpos p => Pos.iter next_day d p
  | Zneg p => Pos.iter prev_day d p
  end.

Definition US_PER_SECOND : Z := 1000000.
Definition US_PER_DAY : Z := 86400 * US_PER_SECOND.

(** Microseconds since midnight. *)
Definition time_of_day_us (d : datetime) : Z :=
  ((hour d * 60 + minute d) * 60 + second d) * US_PER_SECOND + microsecond d.

(** [d + timedelta(microseconds=us)].  The time of day is carried into
    the date; [None] is the [OverflowError] of a result outside
    [MINYEAR..MAXYEAR]. *)
Definition add_us (d : datetime) (us : Z) : option datetime :=
  let total := time_of_day_us d + us in
  let days := total / US_PER_DAY in
  let rest := total mod US_PER_DAY in
  let secs := rest / US_PER_SECOND in
  let d' := shift_days d days in
  if in_range MINYEAR (year d') MAXYEAR
  then Some (mkDatetime (year d') (month d') (day d')
                        (secs / 3600) ((secs mod 3600) / 60) (secs mod 60)
                        (rest mod US_PER_SECOND))
  else None.

Definition add_seconds (d : datetime) (s : Z) : option datetime :=
  add_us d (s * US_PER_SECOND).
Definition add_days (d : datetime) (n : Z) : option datetime :=
  add_us d (n * US_PER_DAY).

(** Proleptic Gregorian ordinal of the date part ([date.toordinal]). *)
Definition days_before_year (y : Z) : Z :=
  let p := y - 1 in p * 365 + p / 4 - p / 100 + p / 400.

Fixpoint days_before_month_aux (y : Z) (m : nat) : Z :=
  match m with
  | O => 0
  | S k => days_before_month_aux y k + days_in_month y (Z.of_nat m)
  end.
Definition days_before_month (y m : Z) : Z :=
  days_before_month_aux y (Z.to_nat (m - 1)).

Definition toordinal (d : datetime) : Z :=
  days_before_year (year d) + days_before_month (year d) (month d) + day d.

(** [(a - b)] as a number of microseconds (a [timedelta]). *)
Definition sub_us (a b : datetime) : Z :=
  (toordinal a - toordinal b) * US_PER_DAY + (time_of_day_us a - time_of_day_us b).

(** *** Text forms *)

Definition digit (n : Z) : ascii := ascii_of_nat (48 + Z.to_nat (n mod 10)).

Definition digit_val (c : ascii) : option Z :=
  let n := Z.of_nat (nat_of_ascii c) in
  if in_range 48 n 57 then Some (n - 48) else None.

Definition pad2 (n : Z) : list ascii := [digit (n / 10); digit n].
Definition pad4 (n : Z) : list ascii :=
  [digit (n / 1000); digit (n / 100); digit (n / 10); digit n].
Definition pad6 (n : Z) : list ascii :=
  [digit (n / 100000); digit (n / 10000); digit (n / 1000);
   digit (n / 100); digit (n / 10); digit n].

Definition date_chars (d : datetime) : list ascii :=
  pad4 (year d) ++ "-"%char :: pad2 (month d) ++ "-"%char :: pad2 (day d).

(** [d.strftime("%Y-%m-%d")]. *)
Definition strftime_date (d : datetime) : string :=
  string_of_list_ascii (date_chars d).

(** [d.isoformat()]: [YYYY-MM-DDTHH:MM:SS], followed by [.ffffff] when
    the microsecond field is not zero. *)
Definition isoformat (d : datetime) : string :=
  string_of_list_ascii
    (date_chars d ++ "T"%char :: pad2 (hour d) ++ ":"%char :: pad2 (minute d)
       ++ ":"%char :: pad2 (second d)
       ++ (if microsecond d =? 0 then [] else "."%char :: pad6 (microsecond d))).

Fixpoint number (cs : list ascii) (acc : Z) : option Z :=
  match cs with
  | [] => Some acc
  | c :: cs' =>
      match digit_val c with
      | Some v => number cs' (acc * 10 + v)
      | None => None
      end
  end.

(** The fraction of a second: exactly three or six digits. *)
Definition parse_fraction (cs : list ascii) : option Z :=
  match cs with
  | [_; _; _] => option_map (Z.mul 1000) (number cs 0)
  | [_; _; _; _; _; _] => number cs 0
  | _ => None
  end.

(** The time part [HH[:MM[:SS[.fff[fff]]]]] as (hour, minute, second,
    microsecond).  A trailing UTC offset is not accepted, see
    [fromisoformat]. *)
Definition parse_time (cs : list ascii) : option (Z * Z * Z * Z) :=
  match cs with
  | h1 :: h2 :: rest =>
      match number [h1; h2] 0, rest with
      | Some h, [] => Some (h, 0, 0, 0)
      | Some h, ":"%char :: m1 :: m2 :: rest' =>
          match number [m1; m2] 0, rest' with
          | Some m, [] => Some (h, m, 0, 0)
          | Some m, ":"%char :: s1 :: s2 :: rest'' =>
              match number [s1; s2] 0, rest'' with
              | Some s, [] => Some (h, m, s, 0)
              | Some s, "."%char :: frac =>
                  option_map (fun f => (h, m, s, f)) (parse_fraction frac)
              | _, _ => None
              end
          | _, _ => None
          end
      | _, _ => None
      end
  | _ => None
  end.

(** The fields written in [YYYY-MM-DD[*HH[:MM[:SS[.fff[fff]]]]]], where
    [*] is any single character. *)
Definition parse_fields (cs : list ascii) : option datetime :=
  match cs with
  | y1 :: y2 :: y3 :: y4 :: "-"%char :: m1 :: m2 :: "-"%char :: d1 :: d2 :: rest =>
      match number [y1; y2; y3; y4] 0, number [m1; m2] 0, number [d1; d2] 0 with
      | Some y, Some m, Some d =>
          match rest with
          | [] => Some (mkDatetime y m d 0 0 0 0)
          | _sep :: cs' =>
              match parse_time cs' with
              | Some (h, mi, s, us) => Some (mkDatetime y m d h mi s us)
              | None => None
              end
          end
      | _, _, _ => None
      end
  | _ => None
  end.

(** [datetime.fromisoformat(s)] for a string that denotes a naive
    datetime, in the format of the library documentation.  [None]
    covers a string outside the format or with a field out of range
    ([ValueError]), and a string with a UTC offset: its value is an
    aware datetime, and the program only ever compares the result with
    the naive [datetime.now()], which raises [TypeError]. *)
Definition fromisoformat (s : string) : option datetime :=
  match parse_fields (list_ascii_of_string s) with
  | Some dt => if validb dt then Some dt else None
  | None => None
  end.

End PyDatetime.

(** ** JSON values *)

Module Json.

#[local] Unset Elimination Schemes.

(** What [json.load] returns and [json.dump] accepts.  A Python [dict]
    is a finite map on its string keys. *)
Inductive json : Type :=
| JNull
| JBool (b : bool)
| JInt (n : Z)
| JReal (literal : string)
| JStr (s : string)
| JArr (items : list json)
| JObj (members : gmap string json).

(** The literal [{}]. *)
Definition empty_dict : json := JObj ∅.

End Json.

Export PyDatetime Json.

(** ** Exceptions and outcomes *)

(** The subclasses of [Exception] the program can meet. *)
Inductive exn : Type :=
| ValueError | TypeError | AttributeError | OverflowError
| OSError | FileNotFoundError.

(** The answer of a library call that may raise. *)
Inductive result (A : Type) : Type :=
| Returned (a : A)
| Raised (e : exn).
Arguments Returned {A} a.
Arguments Raised {A} e.

(** How a computation of the program ends: it returns, raises an
    [Exception], or leaves through [sys.exit] ([SystemExit] is not an
    [Exception], so that [except Exception] lets it through). *)
Inductive outcome (A : Type) : Type :=
| Ok (a : A)
| Raise (e : exn)
| Exit (code : Z).
Arguments Ok {A} a.
Arguments Raise {A} e.
Arguments Exit {A} code.

(** ** The outside world *)

(** Paths are kept as the expressions the program builds them with. *)
Inductive path : Type :=
| ScriptFile (name : string)        (* os.path.join(get_script_dir(), name) *)
| Dir (p : string)                  (* a directory given by the configuration *)
| RepoFile (repo name : string)     (* os.path.join(repo, name) *)
| RepoFileDir (repo name : string). (* os.path.dirname(os.path.join(repo, name)) *)

Record completed : Type := mkCompleted {
  returncode : Z; stdout : string; stderr : string
}.

(** The dictionary [read_config] builds from the environment, before
    validation. *)
Record config : Type := mkConfig {
  repo_path : string;
  work_start_hour : Z;
  work_end_hour : Z;
  min_commits : Z;
  max_commits : Z;
  commit_file : string;
  commit_message_template : string;
  git_push : bool;
  git_user_name : string;
  git_user_email : string
}.

(** The lines the program prints through [log]. *)
Inductive message : Type :=
| MsgRepoPathNotSet
| MsgRepoPathMissing (p : string)
| MsgHourOutOfRange (key : string) (h : Z)
| MsgEndNotAfterStart
| MsgCommitsNotPositive
| MsgMinGreaterThanMax
| MsgGitFailed (args : list string) (err : string)
| MsgGitNotFound
| MsgNotAGitRepo (p : string)
| MsgWriteStateFailed (e : exn)
| MsgNoChanges
| MsgCommitFailed
| MsgCommitCreated
| MsgPushFailed (err : string)
| MsgPushed
| MsgImmediateDone
| MsgNewSchedule (date : string) (n : nat)
| MsgResuming (date : json) (n : nat)
| MsgNoCommitsLeft
| MsgNextCommit (nxt : datetime) (in_seconds : Z)
| MsgShuttingDown
| MsgFatal (e : exn).

(** The calls that leave the program, indexed by the type of their
    answer.  A call that may raise answers with a [result].  Durations
    are in microseconds, the resolution of [timedelta]. *)
Inductive call : Type -> Type :=
| DatetimeNow : call datetime
| TimeSleep (us : Z) : call unit
| RandInt (a b : Z) : call Z
| RandSample (n k : Z) : call (list Z)
| RandChoice (n : nat) : call nat
| Environ : call (result config)
| IsFile (p : path) : call bool
| IsDir (p : path) : call bool
| PathExists (p : path) : call bool
| MakeDirs (p : path) : call (result unit)
| JsonLoad (p : path) : call (result json)
| JsonDump (p : path) (v : json) : call (result unit)
| WriteText (p : path) (text : string) : call (result unit)
| AppendText (p : path) (text : string) : call (result unit)
| SubprocessRun (args : list string) (cwd : string) : call (result completed)
| Print (at_time : datetime) (m : message) : call unit.

(** The outside world answers every call, moves to its next state, and
    tells whether SIGINT or SIGTERM reached the process during the call. *)
Class External (X : Type) : Type :=
  respond : forall T : Type, call T -> X -> T * bool * X.
Arguments respond {X _ T} c x.

Inductive event : Type :=
| Ev (T : Type) (c : call T) (answer : T) (signal : bool).
Arguments Ev {T} c answer signal.

(** What the library documentation promises about an answer. *)
Definition lawful (e : event) : Prop :=
  match e with
  | Ev DatetimeNow d _ => valid d
  | Ev (RandInt a b) v _ => a <= v <= b
  | Ev (RandSample n k) l _ =>
      length l = Z.to_nat k /\ NoDup l /\ Forall (fun o => 0 <= o < n) l
  | Ev (RandChoice n) i _ => (i < n)%nat
  | _ => True
  end.

(** ** The state and exception monad of the program *)

Record world (X : Type) : Type := mkWorld {
  ext : X;                       (* the outside world *)
  handler_installed : bool;      (* a GracefulKiller has been created *)
  should_terminate : bool;       (* killer.should_terminate *)
  trace : list event             (* the calls made so far, newest first *)
}.
Arguments mkWorld {X} ext handler_installed should_terminate trace.
Arguments ext {X} w.
Arguments handler_installed {X} w.
Arguments should_terminate {X} w.
Arguments trace {X} w.

(** A computation of the program: it may read and change the world and
    either returns or raises. *)
Definition prog (X A : Type) : Type := world X -> outcome A * world X.

Section Monad.
Context {X : Type} {E : External X}.

Local Abbreviation M := (prog X).

Definition ret {A} (a : A) : M A := fun w => (Ok a, w).

Definition bind {A B} (m : M A) (k : A -> M B) : M B :=
  fun w =>
    match m w with
    | (Ok a, w') => k a w'
    | (Raise e, w') => (Raise e, w')
    | (Exit code, w') => (Exit code, w')
    end.

Definition raise {A} (e : exn) : M A := fun w => (Raise e, w).

(** [try: m  except Exception as e: h e]. *)
Definition try_except {A} (m : M A) (h : exn -> M A) : M A :=
  fun w =>
    match m w with
    | (Raise e, w') => h e w'
    | r => r
    end.

(** A call to the outside.  A signal that arrives during the call runs
    [GracefulKiller._handler], which sets the flag; the flag is never
    cleared.  (A signal that arrives before the handler is installed
    ends the process by its default action: such runs are not
    represented.) *)
Definition perform {T} (c : call T) : M T :=
  fun w =>
    let '(a, sig, x') := respond c (ext w) in
    (Ok a,
     mkWorld x' (handler_installed w)
             (should_terminate w || (handler_installed w && sig))
             (Ev c a sig :: trace w)).

Definition lift {A} (r : result A) : M A :=
  match r with Returned a => ret a | Raised e => raise e end.

Definition perform_raising {T} (c : call (result T)) : M T :=
  bind (perform c) lift.

Definition or_raise {A} (e : exn) (o : option A) : M A :=
  match o with Some a => ret a | None => raise e end.

End Monad.

Notation "'let*' x ':=' m 'in' k" := (bind m (fun x => k))
  (at level 10, x pattern, m at level 100, k at level 200).
Notation "m ';;' k" := (bind m (fun _ => k))
  (at level 100, k at level 200, right associativity).

(** ** The program *)

Definition STATE_FILE_NAME : string := "state.json".
Definition DEFAULT_COMMIT_FILE : string := "farm_activity.md".

Definition newline : string := String (ascii_of_nat 10) EmptyString.

Definition time_chars (d : datetime) : list ascii :=
  pad2 (hour d) ++ ":"%char :: pad2 (minute d) ++ ":"%char :: pad2 (second d).

(** [d.strftime("%Y-%m-%d %H:%M:%S")]. *)
Definition strftime_datetime (d : datetime) : string :=
  string_of_list_ascii (date_chars d ++ " "%char :: time_chars d).

(** [d.isoformat(timespec='seconds')]. *)
Definition isoformat_seconds (d : datetime) : string :=
  string_of_list_ascii (date_chars d ++ "T"%char :: time_chars d).

Definition lower_char (c : ascii) : ascii :=
  let n := nat_of_ascii c in
  if (65 <=? n)%nat && (n <=? 90)%nat then ascii_of_nat (n + 32) else c.

(** [s.lower()], on ASCII text. *)
Definition lower (s : string) : string :=
  string_of_list_ascii (map lower_char (list_ascii_of_string s)).

(** [needle in hay]. *)
Definition contains (needle hay : string) : bool :=
  match String.index 0 needle hay with Some _ => true | None => false end.

Definition is_space (c : ascii) : bool :=
  let n := nat_of_ascii c in
  (n =? 32)%nat || ((9 <=? n)%nat && (n <=? 13)%nat).

(** [not s.strip()]. *)
Definition is_blank (s : string) : bool :=
  forallb is_space (list_ascii_of_string s).

(** [d.get(k)]: [None] for a missing key; a value that is not a dict has
    no [get]. *)
Definition py_get (d : json) (k : string) : result json :=
  match d with
  | JObj m => Returned (default JNull (m !! k))
  | _ => Raised AttributeError
  end.

(** [d[k] = v]. *)
Definition py_setitem (d : json) (k : string) (v : json) : result json :=
  match d with
  | JObj m => Returned (JObj (<[k := v]> m))
  | _ => Raised TypeError
  end.

(** [v != s] for a string [s]. *)
Definition differs_from (v : json) (s : string) : bool :=
  match v with
  | JStr s' => negb (String.eqb s' s)
  | _ => true
  end.

(** [{"date": date, "scheduled_times": times}]. *)
Definition state_record (date : string) (times : list string) : json :=
  JObj (<["date" := JStr date]> (<["scheduled_times" := JArr (JStr <$> times)]> ∅)).

Record loop_vars : Type := mkVars {
  state : json;
  scheduled_times : list string
}.

(** How an iteration of the main [while] ends. *)
Inductive control : Type :=
| Next (v : loop_vars)      (* falls through, or [continue] *)
| Stop.                     (* [break] *)

Definition SLEEP_IDLE_CAP : Z := 60 * US_PER_SECOND.
Definition SLEEP_EVENT_CAP : Z := 30 * US_PER_SECOND.
Definition SLEEP_FLOOR : Z := 30 * US_PER_SECOND.
Definition PAUSE : Z := 2 * US_PER_SECOND.

Definition phrases : list string :=
  ["Automated maintenance"; "Routine update"; "Sync notes"; "Housekeeping";
   "Keep-alive"; "Log entry"; "Notes refresh"].

Section Farm.
Context {X : Type} {E : External X}.

Local Abbreviation M := (prog X).

(** [killer = GracefulKiller()]. *)
Definition GracefulKiller : M unit :=
  fun w => (Ok tt, mkWorld (ext w) true false (trace w)).

Definition killer_should_terminate : M bool :=
  fun w => (Ok (should_terminate w), w).

Definition datetime_now : M datetime := perform DatetimeNow.

Definition log (m : message) : M unit :=
  let* timestamp := datetime_now in
  perform (Print timestamp m).

Definition sys_exit {A} (code : Z) : M A := fun w => (Exit code, w).

(** [Environ] answers with the dictionary built from [.env] and the
    environment, defaults applied and the numbers converted by [int]
    (a [ValueError] when one is not a number).  Reading [.env] fails
    soft inside [load_env_from_dotenv] and is part of that answer: the
    test whether [.env] is a file and the warning printed when reading
    it raises have no event of their own. *)
Definition read_config : M config :=
  let* config := perform_raising Environ in
  if String.eqb (repo_path config) "" then
    log MsgRepoPathNotSet;; sys_exit 1
  else
  let* isdir := perform (IsDir (Dir (repo_path config))) in
  if negb isdir then
    log (MsgRepoPathMissing (repo_path config));; sys_exit 1
  else if (work_start_hour config <? 0) || (23 <? work_start_hour config) then
    log (MsgHourOutOfRange "work_start_hour" (work_start_hour config));; sys_exit 1
  else if (work_end_hour config <? 0) || (23 <? work_end_hour config) then
    log (MsgHourOutOfRange "work_end_hour" (work_end_hour config));; sys_exit 1
  else if work_end_hour config <=? work_start_hour config then
    log MsgEndNotAfterStart;; sys_exit 1
  else if (min_commits config <? 1) || (max_commits config <? 1) then
    log MsgCommitsNotPositive;; sys_exit 1
  else if max_commits config <? min_commits config then
    log MsgMinGreaterThanMax;; sys_exit 1
  else ret config.

Definition run_git_command (args : list string) (cwd : string) (allow_fail : bool)
  : M completed :=
  let* r := perform (SubprocessRun ("git" :: args) cwd) in
  match r with
  | Returned proc =>
      (if negb (returncode proc =? 0) && negb allow_fail
       then log (MsgGitFailed args (stderr proc))
       else ret tt);;
      ret proc
  | Raised FileNotFoundError => log MsgGitNotFound;; sys_exit 1
  | Raised e => raise e
  end.

Definition ensure_git_repo (repo : string) : M unit :=
  let* isdir := perform (IsDir (RepoFile repo ".git")) in
  if negb isdir then log (MsgNotAGitRepo repo);; sys_exit 1 else ret tt.

Definition maybe_set_git_identity (repo name email : string) : M unit :=
  if String.eqb name "" || String.eqb email "" then ret tt else
  let* got_name := run_git_command ["config"; "--get"; "user.name"] repo true in
  let* got_email := run_git_command ["config"; "--get"; "user.email"] repo true in
  (if negb (returncode got_name =? 0) || is_blank (stdout got_name)
   then run_git_command ["config"; "user.name"; name] repo true;; ret tt
   else ret tt);;
  (if negb (returncode got_email =? 0) || is_blank (stdout got_email)
   then run_git_command ["config"; "user.email"; email] repo true;; ret tt
   else ret tt).

Definition state_file_path : path := ScriptFile STATE_FILE_NAME.

Definition read_state : M json :=
  let* isfile := perform (IsFile state_file_path) in
  if negb isfile then ret empty_dict
  else try_except (perform_raising (JsonLoad state_file_path))
                  (fun _ => ret empty_dict).

Definition write_state (state : json) : M unit :=
  try_except (perform_raising (JsonDump state_file_path state))
             (fun exc => log (MsgWriteStateFailed exc)).

Definition today_str (dt : option datetime) : M string :=
  let* dt := match dt with
             | None => datetime_now
             | Some d => ret d
             end in
  ret (strftime_date dt).

(** [random.randint(a, b)]: an empty range is a [ValueError]. *)
Definition random_randint (a b : Z) : M Z :=
  if a <=? b then perform (RandInt a b) else raise ValueError.

(** [random.sample(range(n), k)]: a sample that is negative or larger
    than the population is a [ValueError]. *)
Definition random_sample_range (n k : Z) : M (list Z) :=
  if (0 <=? k) && (k <=? Z.max 0 n) then perform (RandSample n k)
  else raise ValueError.

(** The [for offset in offsets] loop of the generator. *)
Fixpoint future_times (day_start now : datetime) (offsets : list Z)
  : result (list string) :=
  match offsets with
  | [] => Returned []
  | offset :: rest =>
      match add_seconds day_start offset with
      | None => Raised OverflowError
      | Some scheduled_time =>
          match future_times day_start now rest with
          | Raised e => Raised e
          | Returned times =>
              if leb scheduled_time now then Returned times
              else Returned (isoformat scheduled_time :: times)
          end
      end
  end.

Definition generate_schedule_for_today
    (start_hour end_hour min_commits max_commits : Z) : M (list string) :=
  let* now := datetime_now in
  let* day_start := or_raise ValueError (replace_hour now start_hour) in
  let* day_end := or_raise ValueError (replace_hour now end_hour) in
  if gtb now day_end then ret []
  else
    let total_seconds := Z.quot (sub_us day_end day_start) US_PER_SECOND in
    if total_seconds <=? 0 then ret []
    else
      let* commit_count := random_randint min_commits max_commits in
      let commit_count := Z.min commit_count (Z.max 1 total_seconds) in
      let* sample := random_sample_range total_seconds commit_count in
      let offsets := merge_sort Z.le sample in
      lift (future_times day_start now offsets).

Fixpoint next_scheduled_time (scheduled_iso_times : list string)
  : M (option datetime) :=
  match scheduled_iso_times with
  | [] => ret None
  | iso_ts :: rest =>
      match fromisoformat iso_ts with
      | Some scheduled_dt =>
          let* now := datetime_now in
          if gtb scheduled_dt now then ret (Some scheduled_dt)
          else next_scheduled_time rest
      | None => next_scheduled_time rest
      end
  end.

Definition append_activity_line (repo commit_file : string) : M unit :=
  let file_path := RepoFile repo commit_file in
  perform_raising (MakeDirs (RepoFileDir repo commit_file));;
  let* now := datetime_now in
  let timestamp := strftime_datetime now in
  let* i := perform (RandChoice (length phrases)) in
  let phrase := default "" (phrases !! i) in
  let* present := perform (PathExists file_path) in
  (if negb present
   then perform_raising (WriteText file_path ("# Activity Log" +:+ newline +:+ newline))
   else ret tt);;
  perform_raising
    (AppendText file_path ("- " +:+ timestamp +:+ " — " +:+ phrase +:+ newline)).

Definition perform_commit (repo commit_file template : string) (push : bool)
  : M unit :=
  run_git_command ["add"; commit_file] repo false;;
  let* now := datetime_now in
  let commit_message := template +:+ " (" +:+ isoformat_seconds now +:+ ")" in
  let* committed := run_git_command ["commit"; "-m"; commit_message] repo true in
  if negb (returncode committed =? 0) then
    if contains "nothing to commit" (lower (stderr committed))
    then log MsgNoChanges
    else log MsgCommitFailed
  else
    log MsgCommitCreated;;
    if push then
      let* pushed := run_git_command ["push"] repo true in
      if negb (returncode pushed =? 0)
      then log (MsgPushFailed (stderr pushed))
      else log MsgPushed
    else ret tt.

Definition refresh_schedule (config : config) : M (list string) :=
  generate_schedule_for_today (work_start_hour config) (work_end_hour config)
                              (min_commits config) (max_commits config).

(** [[t for t in scheduled_times if datetime.fromisoformat(t) > now]]:
    an entry that is not a string is a [TypeError], a string outside the
    format a [ValueError]. *)
Fixpoint purge (scheduled_times : list json) (now : datetime)
  : result (list string) :=
  match scheduled_times with
  | [] => Returned []
  | JStr t :: rest =>
      match fromisoformat t with
      | None => Raised ValueError
      | Some dt =>
          match purge rest now with
          | Raised e => Raised e
          | Returned kept => if gtb dt now then Returned (t :: kept) else Returned kept
          end
      end
  | _ :: _ => Raised TypeError
  end.

(** The stored date is not today: a new schedule replaces the state
    (the [if state_date != today_str()] block). *)
Definition reschedule (config : config) : M loop_vars :=
  let* scheduled_times := refresh_schedule config in
  let* today := today_str None in
  let state := state_record today scheduled_times in
  write_state state;;
  log (MsgNewSchedule today (length scheduled_times));;
  ret (mkVars state scheduled_times).

(** "Initialize or refresh state": from [state = read_state()] to the
    entry of the main loop. *)
Definition initialize (config : config) : M loop_vars :=
  let* state := read_state in
  let* state_date := lift (py_get state "date") in
  let* stored := lift (py_get state "scheduled_times") in
  let scheduled_times := match stored with JArr l => l | _ => [] end in
  let* today := today_str None in
  if differs_from state_date today then reschedule config
  else
    let* now := datetime_now in
    let* scheduled_times := lift (purge scheduled_times now) in
    let* state := lift (py_setitem state "scheduled_times"
                                   (JArr (JStr <$> scheduled_times))) in
    write_state state;;
    log (MsgResuming state_date (length scheduled_times));;
    ret (mkVars state scheduled_times).

Definition startup (config : config) : M loop_vars :=
  GracefulKiller;;
  initialize config.

(** [while slept < total and not killer.should_terminate:
       step = min(cap, total - slept); time.sleep(step); slept += step].
    [None] when the fuel runs out before the loop ends. *)
Fixpoint sleep_loop (fuel : nat) (cap total slept : Z) : M (option unit) :=
  match fuel with
  | O => ret None
  | S fuel' =>
      let* killed := killer_should_terminate in
      if (slept <? total) && negb killed then
        let step := Z.min cap (total - slept) in
        perform (TimeSleep step);;
        sleep_loop fuel' cap total (slept + step)
      else ret (Some tt)
  end.

(** Iterations that are enough for [sleep_loop cap total 0]. *)
Definition sleep_fuel (cap total : Z) : nat := Z.to_nat (total / cap) + 2.

Definition sleep_in_chunks (cap total : Z) : M (option unit) :=
  sleep_loop (sleep_fuel cap total) cap total 0.

(** [scheduled_times = [t for t in scheduled_times if t != nxt.isoformat()]]. *)
Definition consume (scheduled_times : list string) (nxt : datetime) : list string :=
  filter (fun t => t <> isoformat nxt) scheduled_times.

(** Inside the loop, the day has changed: a new schedule replaces the
    state (the [if today_str(now) != state.get("date")] block). *)
Definition roll_over (config : config) (now : datetime) : M loop_vars :=
  let* scheduled_times := refresh_schedule config in
  let state := state_record (strftime_date now) scheduled_times in
  write_state state;;
  log (MsgNewSchedule (strftime_date now) (length scheduled_times));;
  ret (mkVars state scheduled_times).

(** Nothing is left for today: sleep until the start of tomorrow's
    window (the [if nxt is None] block, up to its [continue]). *)
Definition idle_sleep (config : config) (now : datetime) : M (option unit) :=
  let* tomorrow := or_raise OverflowError (add_days now 1) in
  let* next_day := or_raise ValueError
                     (replace_hour tomorrow (work_start_hour config)) in
  let sleep_seconds := Z.max SLEEP_FLOOR (sub_us next_day now) in
  log MsgNoCommitsLeft;;
  sleep_in_chunks SLEEP_IDLE_CAP sleep_seconds.

(** Sleep until the next scheduled commit. *)
Definition event_sleep (now nxt : datetime) : M (option unit) :=
  let delta := sub_us nxt now in
  if 0 <? delta then
    log (MsgNextCommit nxt (Z.quot delta US_PER_SECOND));;
    sleep_in_chunks SLEEP_EVENT_CAP delta
  else ret (Some tt).

(** The commit of the scheduled time [nxt], from [append_activity_line]
    to the pause that ends the iteration. *)
Definition fire (config : config) (v : loop_vars) (nxt : datetime) : M loop_vars :=
  append_activity_line (repo_path config) (commit_file config);;
  perform_commit (repo_path config) (commit_file config)
                 (commit_message_template config) (git_push config);;
  let scheduled_times := consume (scheduled_times v) nxt in
  let* state := lift (py_setitem (state v) "scheduled_times"
                                 (JArr (JStr <$> scheduled_times))) in
  write_state state;;
  perform (TimeSleep PAUSE);;
  ret (mkVars state scheduled_times).

(** The iteration from [nxt = next_scheduled_time(scheduled_times)] on. *)
Definition proceed (config : config) (now : datetime) (v : loop_vars)
  : M (option control) :=
  let* nxt := next_scheduled_time (scheduled_times v) in
  match nxt with
  | None =>
      let* slept := idle_sleep config now in
      ret (option_map (fun _ => Next v) slept)
  | Some nxt =>
      let* slept := event_sleep now nxt in
      match slept with
      | None => ret None
      | Some _ =>
          let* killed := killer_should_terminate in
          if killed then ret (Some Stop)
          else
            let* v := fire config v nxt in
            ret (Some (Next v))
      end
  end.

(** The body of [while not killer.should_terminate]. *)
Definition iteration (config : config) (v : loop_vars) : M (option control) :=
  let* now := datetime_now in
  let* state_date := lift (py_get (state v) "date") in
  let* v := if differs_from state_date (strftime_date now)
            then roll_over config now
            else ret v in
  proceed config now v.

(** At most [fuel] iterations of the main loop; [None] when it is still
    running after them. *)
Fixpoint main_loop (fuel : nat) (config : config) (v : loop_vars)
  : M (option unit) :=
  match fuel with
  | O => ret None
  | S fuel' =>
      let* killed := killer_should_terminate in
      if killed then ret (Some tt)
      else
        let* c := iteration config v in
        match c with
        | None => ret None
        | Some Stop => ret (Some tt)
        | Some (Next v') => main_loop fuel' config v'
        end
  end.

Definition daemon (fuel : nat) (config : config) : M (option unit) :=
  let* v := startup config in
  let* finished := main_loop fuel config v in
  match finished with
  | None => ret None
  | Some _ => log MsgShuttingDown;; ret (Some tt)
  end.

(** The checks [main] makes before anything else. *)
Definition prelude : M config :=
  let* config := read_config in
  ensure_git_repo (repo_path config);;
  maybe_set_git_identity (repo_path config) (git_user_name config)
                         (git_user_email config);;
  ret config.

(** [main()] from the return of [parser.parse_args()] on; [now] is the
    value of the flag [--now].  What [argparse] itself does with a
    command line, the exit with status 2 on an argument it does not
    know and the exit with status 0 after [--help], comes before the
    first call of [prelude]. *)
Definition main (fuel : nat) (now : bool) : M (option unit) :=
  let* config := prelude in
  if now then
    append_activity_line (repo_path config) (commit_file config);;
    perform_commit (repo_path config) (commit_file config)
                   (commit_message_template config) (git_push config);;
    log MsgImmediateDone;;
    ret (Some tt)
  else daemon fuel config.

(** [try: main()  except Exception as exc: log(...); sys.exit(1)]. *)
Definition script (fuel : nat) (now : bool) : M (option unit) :=
  try_except (main fuel now) (fun exc => log (MsgFatal exc);; sys_exit 1).

End Farm.

(** The exit status of the process. *)
Definition exit_status {A} (r : outcome A) : Z :=
  match r with
  | Ok _ => 0
  | Exit code => code
  | Raise _ => 1
  end.

(** ** A simulated outside world

    A small deterministic world to run the program in: a clock that
    advances only while the program sleeps, one state file, a repository
    that is writable or not, a scripted [git], scripted random draws and
    an optional termination request. *)

Module Sim.

Record sim : Type := mkSim {
  clock : datetime;
  state_file : option (result json);   (* [None]: no such file *)
  repo_writable : bool;
  git : list string -> result completed;
  draw : Z;                            (* what [randint] aims at *)
  pool : list Z;                       (* where [sample] takes its offsets *)
  signal_in : option nat;              (* sleeps left before a SIGTERM *)
  environ : result config
}.

Definition set_clock (s : sim) (d : datetime) : sim :=
  mkSim d (state_file s) (repo_writable s) (git s) (draw s) (pool s)
        (signal_in s) (environ s).
Definition set_state_file (s : sim) (f : option (result json)) : sim :=
  mkSim (clock s) f (repo_writable s) (git s) (draw s) (pool s)
        (signal_in s) (environ s).
Definition set_signal_in (s : sim) (n : option nat) : sim :=
  mkSim (clock s) (state_file s) (repo_writable s) (git s) (draw s) (pool s)
        n (environ s).

Definition write (s : sim) : result unit * bool * sim :=
  (if repo_writable s then Returned tt else Raised OSError, false, s).

Definition sim_respond (T : Type) (c : call T) (s : sim) : T * bool * sim :=
  match c in call T return T * bool * sim with
  | DatetimeNow => (clock s, false, s)
  | TimeSleep us =>
      let s' := set_clock s (default (clock s) (add_us (clock s) us)) in
      match signal_in s with
      | Some O => (tt, true, set_signal_in s' None)
      | Some (S n) => (tt, false, set_signal_in s' (Some n))
      | None => (tt, false, s')
      end
  | RandInt a b => (Z.max a (Z.min b (draw s)), false, s)
  | RandSample n k => (take (Z.to_nat k) (pool s), false, s)
  | RandChoice n => (O, false, s)
  | Environ => (environ s, false, s)
  | IsFile p => (bool_decide (is_Some (state_file s)), false, s)
  | IsDir p => (true, false, s)
  | PathExists p => (true, false, s)
  | MakeDirs p => write s
  | JsonLoad p => (default (Raised FileNotFoundError) (state_file s), false, s)
  | JsonDump p v => (Returned tt, false, set_state_file s (Some (Returned v)))
  | WriteText p text => write s
  | AppendText p text => write s
  | SubprocessRun args cwd => (git s (tail args), false, s)
  | Print at_time m => (tt, false, s)
  end.

#[global] Instance sim_external : External sim := sim_respond.

(** The world at the start of the process. *)
Definition boot (s : sim) : world sim := mkWorld s false false [].

(** A [git] that always succeeds, and one whose [commit] fails. *)
Definition git_ok (args : list string) : result completed :=
  Returned (mkCompleted 0 "" "").
Definition git_rejects_commit (args : list string) : result completed :=
  match args with
  | "commit" :: _ => Returned (mkCompleted 1 "" "error: cannot lock ref")
  | _ => Returned (mkCompleted 0 "" "")
  end.

Definition farm_config (min max : Z) : config :=
  mkConfig "/srv/farm" 10 22 min max DEFAULT_COMMIT_FILE
           "chore: update activity log" true "" "".

End Sim.

(** ** Vocabulary of the properties *)

(** A number that orders valid datetimes as [compare] does. *)
Definition stamp (d : datetime) : Z :=
  (((((year d * 13 + month d) * 32 + day d) * 24 + hour d) * 60 + minute d) * 60
   + second d) * US_PER_SECOND + microsecond d.

(** The boundary of today's window at the hour [h]. *)
Definition window_start (now : datetime) (h : Z) : datetime :=
  mkDatetime (year now) (month now) (day now) h 0 0 0.

(** [day_start + offset] is after [now]. *)
Definition later_than (now day_start : datetime) (offset : Z) : Prop :=
  stamp now < stamp day_start + offset * US_PER_SECOND.

#[global] Instance later_than_dec now day_start offset :
  Decision (later_than now day_start offset) := Z_lt_dec _ _.

(** The bounds [read_config] enforces on the window and on the number of
    commits. *)
Definition valid_window (start_hour end_hour min_commits max_commits : Z) : Prop :=
  0 <= start_hour /\ start_hour < end_hour /\ end_hour <= 23 /\
  1 <= min_commits /\ min_commits <= max_commits.

Definition outcome_of {A} (r : result A) : outcome A :=
  match r with Returned a => Ok a | Raised e => Raise e end.

Section Runs.
Context {X : Type} {E : External X}.

(** The answer to a call made in the world [w], whether a signal
    arrives during it, and the world after it. *)
Definition answer {T} (c : call T) (w : world X) : T :=
  fst (fst (respond c (ext w))).
Definition signalled {T} (c : call T) (w : world X) : bool :=
  snd (fst (respond c (ext w))).
Definition after {T} (c : call T) (w : world X) : world X :=
  mkWorld (snd (respond c (ext w))) (handler_installed w)
          (should_terminate w || (handler_installed w && signalled c w))
          (Ev c (answer c w) (signalled c w) :: trace w).
End Runs.

Definition signal_of (e : event) : bool :=
  match e with Ev _ _ s => s end.

(** The calls made between the worlds [w] and [w'], newest first. *)
Definition events_since {X} (w w' : world X) : list event :=
  take (length (trace w') - length (trace w)) (trace w').

(** A call that neither sleeps nor writes the state file. *)
Definition plain (e : event) : Prop :=
  match e with
  | Ev (TimeSleep _) _ _ | Ev (JsonDump _ _) _ _ => False
  | _ => True
  end.

Section Specs.
Context {X : Type} {E : External X}.

(** [emits P Q m]: every call [m] makes satisfies [P]; the flag
    [should_terminate] is set exactly by the signals that arrive during
    these calls; and a value [m] returns satisfies [Q]. *)
Definition emits (P : event -> Prop) {A} (Q : A -> Prop) (m : prog X A) : Prop :=
  forall w, exists evs,
    trace (snd (m w)) = evs ++ trace w /\
    Forall P evs /\
    handler_installed (snd (m w)) = handler_installed w /\
    should_terminate (snd (m w))
      = should_terminate w || (handler_installed w && existsb signal_of evs) /\
    forall a, fst (m w) = Ok a -> Q a.
End Specs.

(** The state record of the schedule [times]: a dict that holds a date
    string under ["date"] and the list of [times] under
    ["scheduled_times"]. *)
Definition is_state_record (st : json) (times : list string) : Prop :=
  exists (m : gmap string json) (date : string),
    st = JObj m /\ m !! "date" = Some (JStr date) /\
    m !! "scheduled_times" = Some (JArr (JStr <$> times)).

(** The loop variables agree: [state] is the record of [scheduled_times]. *)
Definition well_formed (v : loop_vars) : Prop :=
  is_state_record (state v) (scheduled_times v).

(** Iterations the loop of [sleep_loop] needs when [rest] remains. *)
Definition sleep_need (cap rest : Z) : Z :=
  if rest <=? 0 then 1 else rest / cap + 2.

(** A sleep during which a signal arrived is not [calm]. *)
Definition calm (e : event) : Prop :=
  match e with
  | Ev (TimeSleep _) _ true => False
  | _ => True
  end.

Definition no_sleep (e : event) : Prop :=
  match e with
  | Ev (TimeSleep _) _ _ => False
  | _ => True
  end.

(** Every sleep lasts at most [cap] microseconds. *)
Definition sleeps_at_most (cap : Z) (e : event) : Prop :=
  match e with
  | Ev (TimeSleep d) _ _ => 0 < d <= cap
  | _ => True
  end.

Section Cancellation.
Context {X : Type} {E : External X}.

(** [cancellable m]: once the handler is installed, a sleep of [m]
    during which a signal arrives is the last call [m] makes. *)
Definition cancellable {A} (m : prog X A) : Prop :=
  forall w, handler_installed w = true ->
    exists evs,
      trace (snd (m w)) = evs ++ trace w /\
      handler_installed (snd (m w)) = true /\
      should_terminate (snd (m w)) = should_terminate w || existsb signal_of evs /\
      Forall calm (tail evs).

(** [idle_when_flagged m]: [m] does nothing once the flag is set. *)
Definition idle_when_flagged {A} (m : prog X A) : Prop :=
  forall w, should_terminate w = true -> snd (m w) = w.
End Cancellation.

(** A write of the state file passes the record of some list of times
    to [json.dump], on the path of [state.json]. *)
Definition dumps_state_record (e : event) : Prop :=
  match e with
  | Ev (JsonDump p st) _ _ =>
      p = state_file_path /\ exists times, is_state_record st times
  | _ => True
  end.

(** The state held by the loop carries a date other than the day of [now]. *)
Definition stale (now : datetime) (v : loop_vars) : Prop :=
  exists d, py_get (state v) "date" = Returned d /\
            differs_from d (strftime_date now) = true.

(** [st] is the dict [{"date": date, "scheduled_times": times}]: it holds
    these two keys and no other. *)
Definition fresh_record (st : json) (date : string) (times : list string) : Prop :=
  exists m : gmap string json,
    st = JObj m /\
    m !! "date" = Some (JStr date) /\
    m !! "scheduled_times" = Some (JArr (JStr <$> times)) /\
    forall k, is_Some (m !! k) -> k = "date" \/ k = "scheduled_times".

(** [t] is a timestamp of the day of [now], inside the window from the
    hour [sh] to the hour [eh] and later than [now]. *)
Definition ahead_today (now : datetime) (sh eh : Z) (t : string) : Prop :=
  exists dt, fromisoformat t = Some dt /\
             le (window_start now sh) dt /\ lt dt (window_start now eh) /\ lt now dt.

(** The clock reads [now]. *)
Definition reads (now : datetime) (e : event) : Prop :=
  match e with
  | Ev DatetimeNow d _ => d = now
  | _ => True
  end.

(** An entry that is not a timestamp, or not one after [now]. *)
Definition not_due (now : datetime) (s : string) : Prop :=
  forall dt, fromisoformat s = Some dt -> ~ lt now dt.

(** The entries that are timestamps are in ascending order of time. *)
Definition precedes (s s' : string) : Prop :=
  forall dt dt', fromisoformat s = Some dt -> fromisoformat s' = Some dt' -> le dt dt'.
Definition ascending (l : list string) : Prop := StronglySorted precedes l.

(** A call of the commit step ended with an exception: a directory or
    file operation failed, or [git] could not be started. *)
Definition call_raised (e : event) : Prop :=
  match e with
  | Ev (MakeDirs _) (Raised _) _
  | Ev (WriteText _ _) (Raised _) _
  | Ev (AppendText _ _) (Raised _) _
  | Ev (SubprocessRun _ _) (Raised _) _ => True
  | _ => False
  end.

(** What the commit step prints about a [git] command that ended with a
    non-zero exit status: the line of [run_git_command] for [git add],
    one of the two lines of [perform_commit] for [git commit], the
    warning for [git push]. *)
Definition failure_message (args : list string) (proc : completed) : message :=
  match args with
  | cmd :: _ =>
      if String.eqb cmd "commit" then
        if contains "nothing to commit" (lower (stderr proc))
        then MsgNoChanges else MsgCommitFailed
      else if String.eqb cmd "push" then MsgPushFailed (stderr proc)
      else MsgGitFailed args (stderr proc)
  | [] => MsgGitFailed args (stderr proc)
  end.

(** The call ran [git args], which ended as [proc] with a non-zero exit
    status. *)
Definition git_failed (args : list string) (proc : completed) (e : event) : Prop :=
  match e with
  | Ev (SubprocessRun cmd _) (Returned p) _ =>
      cmd = "git" :: args /\ p = proc /\ returncode proc <> 0
  | _ => False
  end.

(** The call printed the message [msg]. *)
Definition printed (msg : message) (e : event) : Prop :=
  match e with
  | Ev (Print _ m) _ _ => m = msg
  | _ => False
  end.

(** Every [git] command among [evs] that ended with a non-zero exit
    status has its message printed among [evs]. *)
Definition failures_logged (evs : list event) : Prop :=
  forall args proc,
    Exists (git_failed args proc) evs ->
    Exists (printed (failure_message args proc)) evs.

Section Returns.
Context {X : Type} {E : External X}.

(** [reports m]: [m] prints the message of every [git] command of its
    own that ended with a non-zero exit status. *)
Definition reports {A} (m : prog X A) : Prop :=
  forall w, exists evs,
    trace (snd (m w)) = evs ++ trace w /\ failures_logged evs.

(** [returns_unless_raised Q m]: [m] returns a value that satisfies [Q],
    unless one of its calls raised. *)
Definition returns_unless_raised {A} (Q : A -> Prop) (m : prog X A) : Prop :=
  forall w, exists evs,
    trace (snd (m w)) = evs ++ trace w /\
    ((exists a, fst (m w) = Ok a /\ Q a) \/ Exists call_raised evs).
End Returns.

#[global] Instance datetime_eq_dec : EqDecision datetime.
Proof. solve_decision. Defined.

#[global] Instance valid_dec d : Decision (valid d).
Proof. unfold valid. apply _. Defined.

#[global] Instance lawful_dec e : Decision (lawful e).
Proof. destruct e as [T c a s]; destruct c; simpl; apply _. Defined.

#[global] Instance reads_dec now e : Decision (reads now e).
Proof. destruct e as [T c a s]; destruct c; simpl; apply _. Defined.

#[global] Instance call_raised_dec e : Decision (call_raised e).
Proof. destruct e as [T c a s]; destruct c; try destruct a; simpl; apply _. Defined.

(** The activity line was appended. *)
Definition appended (e : event) : bool :=
  match e with
  | Ev (AppendText _ _) (Returned _) _ => true
  | _ => false
  end.

(** The times stored in a state under ["scheduled_times"]. *)
Definition stored_times (st : option (result json)) : option (list json) :=
  match st with
  | Some (Returned (JObj m)) =>
      match m !! "scheduled_times" with
      | Some (JArr l) => Some l
      | _ => None
      end
  | _ => None
  end.

Definition stored_keys (st : option (result json)) : list string :=
  match st with
  | Some (Returned (JObj m)) => elements (dom m)
  | _ => []
  end.

Module Scenario.
Import Sim.

Definition at_time (h mi s : Z) : datetime := mkDatetime 2024 1 1 h mi s 0.

(** A day on which everything works: no state file yet, a writable
    repository, a [git] that succeeds, no signal. *)
Definition quiet_day (now : datetime) (min max : Z) (pool : list Z) : sim :=
  mkSim now None true git_ok max pool None (Returned (farm_config min max)).

(** The same day with a state file. *)
Definition resumed_day (now : datetime) (stored : json) : sim :=
  mkSim now (Some (Returned stored)) true git_ok 1 [0] None
        (Returned (farm_config 1 1)).

Definition stored_state (date : string) (times : list string) : json :=
  JObj (<["date" := JStr date]> (<["scheduled_times" := JArr (JStr <$> times)]> ∅)).

(** A repository in which nothing can be written. *)
Definition read_only_repo (now : datetime) : sim :=
  mkSim now None false git_ok 1 [0] None (Returned (farm_config 1 1)).

(** A [git] whose [commit] fails, and a SIGTERM during the second sleep. *)
Definition failing_git (now : datetime) (stored : json) : sim :=
  mkSim now (Some (Returned stored)) true git_rejects_commit 1 [0] None
        (Returned (farm_config 1 1)).
Definition interrupted (now : datetime) (stored : json) : sim :=
  mkSim now (Some (Returned stored)) true git_ok 1 [0] (Some 1%nat)
        (Returned (farm_config 1 1)).

(** A world in which the handler is installed. *)
Definition running (s : sim) : world sim := mkWorld s true false [].
End Scenario.

(** A scripted outside world: the answers to the calls, in the order in
    which the program makes them, each with the signal that arrives
    during the call.  A call that finds no answer of its type gets a
    default one. *)
Module Replay.

Inductive reply : Type :=
| RTime (d : datetime)
| RUnit
| RInt (n : Z)
| RSample (l : list Z)
| RIndex (i : nat)
| REnviron (r : result config)
| RBool (b : bool)
| RDone (r : result unit)
| RJson (r : result json)
| RProc (r : result completed).

Definition answers : Type := list (reply * bool).

Definition midnight : datetime := mkDatetime 2024 1 1 0 0 0 0.

Definition read (T : Type) (c : call T) (r : reply) : T :=
  match c in call T return T with
  | DatetimeNow => match r with RTime d => d | _ => midnight end
  | TimeSleep _ => tt
  | RandInt a _ => match r with RInt n => n | _ => a end
  | RandSample _ _ => match r with RSample l => l | _ => [] end
  | RandChoice _ => match r with RIndex i => i | _ => O end
  | Environ => match r with REnviron e => e | _ => Raised OSError end
  | IsFile _ | IsDir _ | PathExists _ =>
      match r with RBool b => b | _ => false end
  | MakeDirs _ | JsonDump _ _ | WriteText _ _ | AppendText _ _ =>
      match r with RDone d => d | _ => Returned tt end
  | JsonLoad _ => match r with RJson j => j | _ => Raised OSError end
  | SubprocessRun _ _ => match r with RProc p => p | _ => Raised OSError end
  | Print _ _ => tt
  end.

Definition replay_respond (T : Type) (c : call T) (s : answers) : T * bool * answers :=
  match s with
  | [] => (read T c RUnit, false, [])
  | (r, sig) :: rest => (read T c r, sig, rest)
  end.

#[export] Instance replay_external : External answers := replay_respond.

(** The world at the start of the process, answering with [rs] and
    without a signal. *)
Definition replaying (rs : list reply) : world answers :=
  mkWorld ((fun r => (r, false)) <$> rs) false false [].
End Replay.
(** A call [maybe_set_git_identity] may make: [git config ...] in the
    repository, or the clock and [print] of a log line. *)
Definition configures (repo : string) (e : event) : Prop :=
  match e with
  | Ev (SubprocessRun ("git" :: "config" :: _) cwd) _ _ => cwd = repo
  | Ev DatetimeNow _ _ | Ev (Print _ _) _ _ => True
  | _ => False
  end.

(** The time a call sleeps, in microseconds, and the time the calls
    [evs] sleep in total. *)
Definition slept_us (e : event) : Z :=
  match e with
  | Ev (TimeSleep d) _ _ => d
  | _ => 0
  end.
Definition total_slept (evs : list event) : Z :=
  foldr (fun e acc => slept_us e + acc) 0 evs.

#[global] Instance lt_dec a b : Decision (lt a b).
Proof. unfold lt. apply _. Defined.

(** The entry is a timestamp strictly after [now]. *)
Definition due_after (now : datetime) (s : string) : Prop :=
  match fromisoformat s with
  | Some dt => lt now dt
  | None => False
  end.

#[global] Instance due_after_dec now s : Decision (due_after now s).
Proof. unfold due_after. destruct (fromisoformat s); apply _. Defined.

(** The list a stored record holds under ["scheduled_times"]; a record
    without the key, or with another value than a list under it, counts
    as holding the empty list. *)
Definition listed_times (m : gmap string json) : list json :=
  match m !! "scheduled_times" with
  | Some (JArr l) => l
  | _ => []
  end.

(** A draw of the random source. *)
Definition draws (e : event) : Prop :=
  match e with
  | Ev (RandInt _ _) _ _ | Ev (RandSample _ _) _ _ | Ev (RandChoice _) _ _ => True
  | _ => False
  end.

Section Exits.
Context {X : Type} {E : External X}.

(** [exits_one m]: when [m] leaves through [sys.exit], the status is 1. *)
Definition exits_one {A} (m : prog X A) : Prop :=
  forall w c, fst (m w) = Exit c -> c = 1.
End Exits.

(** [git push] was run. *)
Definition pushes (e : event) : Prop :=
  match e with
  | Ev (SubprocessRun ("git" :: "push" :: _) _) _ _ => True
  | _ => False
  end.

(** [git commit] was run and ended with the exit status 0. *)
Definition committed (e : event) : Prop :=
  match e with
  | Ev (SubprocessRun ("git" :: "commit" :: _) _) (Returned proc) _ =>
      returncode proc = 0
  | _ => False
  end.

(** A call of an iteration that commits nothing: the clock, a log line,
    a sleep. *)
Definition waits (e : event) : Prop :=
  match e with
  | Ev DatetimeNow _ _ | Ev (Print _ _) _ _ | Ev (TimeSleep _) _ _ => True
  | _ => False
  end.

(** The calls of one commit cycle: an append to a file, [git add] and
    [git commit]. *)
Definition cycle_call (e : event) : Prop :=
  match e with
  | Ev (AppendText _ _) _ _ => True
  | Ev (SubprocessRun ("git" :: "add" :: _) _) _ _ => True
  | Ev (SubprocessRun ("git" :: "commit" :: _) _) _ _ => True
  | _ => False
  end.

(** A call the run with [--now] may make: anything but a sleep, a draw
    of a schedule, and a read or write of the state file. *)
Definition immediate (e : event) : Prop :=
  match e with
  | Ev (TimeSleep _) _ _ | Ev (RandInt _ _) _ _ | Ev (RandSample _ _) _ _
  | Ev (IsFile _) _ _ | Ev (JsonLoad _) _ _ | Ev (JsonDump _ _) _ _ => False
  | _ => True
  end.

(** ** [load_env_from_dotenv]

    The text of [.env] is taken as characters below 256; [os.environ]
    is a finite map from names to values.  What the file gives is an
    input: whether it is a regular file, the lines its iteration yields,
    and the exception that [open] or the reading raises after them, if
    any. *)

(** [c.isspace()]. *)
Definition py_isspace (c : ascii) : bool :=
  let n := nat_of_ascii c in
  ((9 <=? n)%nat && (n <=? 13)%nat) || ((28 <=? n)%nat && (n <=? 32)%nat)
  || (n =? 133)%nat || (n =? 160)%nat.

Definition double_quote : ascii := ascii_of_nat 34.
Definition single_quote : ascii := "'"%char.

Fixpoint lstrip (p : ascii -> bool) (l : list ascii) : list ascii :=
  match l with
  | c :: rest => if p c then lstrip p rest else l
  | [] => []
  end.

Definition rstrip (p : ascii -> bool) (l : list ascii) : list ascii :=
  rev (lstrip p (rev l)).

(** [s.strip()] with [p := py_isspace], [s.strip(chars)] with [p] the
    membership in [chars]. *)
Definition strip (p : ascii -> bool) (l : list ascii) : list ascii :=
  rstrip p (lstrip p l).

(** [s.split("=", 1)]; [None] when [s] holds no ["="]. *)
Fixpoint split_equals (l : list ascii) : option (list ascii * list ascii) :=
  match l with
  | [] => None
  | c :: rest =>
      if Ascii.eqb c "="%char then Some ([], rest)
      else match split_equals rest with
           | Some (key, value) => Some (c :: key, value)
           | None => None
           end
  end.

(** The body of the loop over the lines, up to the test
    [if key and value]: the name and the value a line assigns. *)
Definition dotenv_assignment (line : list ascii) : option (list ascii * list ascii) :=
  let stripped := strip py_isspace line in
  match stripped with
  | [] => None
  | c :: _ =>
      if Ascii.eqb c "#"%char then None
      else
        match split_equals stripped with
        | None => None
        | Some (key, value) =>
            let key := strip py_isspace key in
            let value := strip (Ascii.eqb single_quote)
                           (strip (Ascii.eqb double_quote) (strip py_isspace value)) in
            match key, value with
            | [], _ | _, [] => None
            | _, _ => Some (key, value)
            end
        end
  end.

Definition has_nul (s : string) : bool :=
  existsb (fun c => (nat_of_ascii c =? 0)%nat) (list_ascii_of_string s).

(** [os.environ[key] = value]: a NUL character in the name or in the
    value is a [ValueError]. *)
Definition setenv (environ : gmap string string) (key value : string)
  : result (gmap string string) :=
  if has_nul key || has_nul value then Raised ValueError
  else Returned (<[key := value]> environ).

Definition load_line (environ : gmap string string) (line : string)
  : result (gmap string string) :=
  match dotenv_assignment (list_ascii_of_string line) with
  | Some (key, value) =>
      let key := string_of_list_ascii key in
      let value := string_of_list_ascii value in
      match environ !! key with
      | Some _ => Returned environ
      | None => setenv environ key value
      end
  | None => Returned environ
  end.

(** The loop over the lines: the environment when it ends, and the
    exception that ended it, if any. *)
Fixpoint load_lines (lines : list string) (environ : gmap string string)
  : gmap string string * option exn :=
  match lines with
  | [] => (environ, None)
  | line :: rest =>
      match load_line environ line with
      | Returned environ' => load_lines rest environ'
      | Raised e => (environ, Some e)
      end
  end.

(** The environment afterwards, and the exception the warning reports. *)
Definition load_env_from_dotenv (isfile : bool) (lines : list string)
    (failure : option exn) (environ : gmap string string)
  : gmap string string * option exn :=
  if negb isfile then (environ, None)
  else match load_lines lines environ with
       | (environ', None) => (environ', failure)
       | ended => ended
       end.

(** The first and the last character of [l] are not in the set [p]. *)
Definition trimmed (p : ascii -> bool) (l : list ascii) : Prop :=
  (exists c, head l = Some c /\ p c = false) /\
  (exists c, last l = Some c /\ p c = false).

(** The line assigns a value to the name [key]. *)
Definition assigns (key : string) (line : string) : Prop :=
  exists k v, dotenv_assignment (list_ascii_of_string line) = Some (k, v) /\
              string_of_list_ascii k = key.

(** ** Facts about datetimes *)

Section DatetimeFacts.

Lemma days_in_month_bounds y m : 28 <= days_in_month y m <= 31.
Proof.
  unfold days_in_month.
  destruct (m =? 2); [destruct (is_leap y); lia|].
  destruct ((m =? 4) || (m =? 6) || (m =? 9) || (m =? 11)); lia.
Qed.

Lemma in_range_true lo x hi : in_range lo x hi = true <-> lo <= x <= hi.
Proof. unfold in_range. rewrite andb_true_iff, !Z.leb_le. tauto. Qed.

Lemma validb_valid d : validb d = true <-> valid d.
Proof.
  unfold validb, valid. rewrite !andb_true_iff, !in_range_true. lia.
Qed.

Lemma compare_stamp a b :
  valid a -> valid b -> compare a b = (stamp a ?= stamp b).
Proof.
  intros Ha Hb.
  pose proof (days_in_month_bounds (year a) (month a)).
  pose proof (days_in_month_bounds (year b) (month b)).
  unfold valid, MINYEAR, MAXYEAR in Ha, Hb.
  unfold compare, fields, lex_compare, stamp, US_PER_SECOND.
  symmetry.
  repeat match goal with
         | |- context [?x ?= ?y] =>
             lazymatch x with
             | year _ => idtac | month _ => idtac | day _ => idtac
             | hour _ => idtac | minute _ => idtac | second _ => idtac
             | microsecond _ => idtac
             end;
             destruct (Z.compare_spec x y)
         end;
    first [ apply Z.compare_eq_iff | apply Z.compare_lt_iff | apply Z.compare_gt_iff ];
    lia.
Qed.

Lemma ltb_stamp a b : valid a -> valid b -> ltb a b = true <-> stamp a < stamp b.
Proof.
  intros Ha Hb. unfold ltb. rewrite compare_stamp by done.
  destruct (Z.compare_spec (stamp a) (stamp b)); split; (done || lia).
Qed.

Lemma leb_stamp a b : valid a -> valid b -> leb a b = true <-> stamp a <= stamp b.
Proof.
  intros Ha Hb. unfold leb. rewrite compare_stamp by done.
  destruct (Z.compare_spec (stamp a) (stamp b)); split; (done || lia).
Qed.

Lemma gtb_stamp a b : valid a -> valid b -> gtb a b = true <-> stamp b < stamp a.
Proof. intros. unfold gtb. by apply ltb_stamp. Qed.

Lemma stamp_inj a b : valid a -> valid b -> stamp a = stamp b -> a = b.
Proof.
  intros Ha Hb Hs.
  pose proof (compare_stamp a b Ha Hb) as Hc.
  rewrite Hs, Z.compare_refl in Hc.
  destruct a, b. unfold compare, fields, lex_compare in Hc. simpl in Hc.
  repeat match type of Hc with
         | context [?x ?= ?y] => destruct (Z.compare_spec x y); try discriminate
         end.
  congruence.
Qed.

Lemma replace_hour_spec d h :
  valid d -> 0 <= h <= 23 ->
  exists d', replace_hour d h = Some d' /\ valid d' /\
    d' = mkDatetime (year d) (month d) (day d) h 0 0 0.
Proof.
  intros Hd Hh. unfold replace_hour.
  rewrite (proj2 (in_range_true 0 h 23)) by lia.
  eexists; split; [done|]. split; [|done].
  unfold valid in *; simpl; lia.
Qed.

(** Adding seconds that stay within the day leaves the date alone. *)
Lemma add_seconds_same_day d s :
  valid d -> microsecond d = 0 ->
  0 <= (hour d * 60 + minute d) * 60 + second d + s < 86400 ->
  exists d', add_seconds d s = Some d' /\ valid d' /\
    year d' = year d /\ month d' = month d /\ day d' = day d /\
    microsecond d' = 0 /\
    stamp d' = stamp d + s * US_PER_SECOND.
Proof.
  intros Hd Hus Hs.
  unfold add_seconds, add_us, time_of_day_us. rewrite Hus.
  set (secs := (hour d * 60 + minute d) * 60 + second d + s) in *.
  replace (((hour d * 60 + minute d) * 60 + second d) * US_PER_SECOND + 0
           + s * US_PER_SECOND) with (secs * US_PER_SECOND)
    by (unfold secs; lia).
  assert (Hdiv : secs * US_PER_SECOND / US_PER_DAY = 0).
  { apply Z.div_small. unfold US_PER_DAY, US_PER_SECOND. lia. }
  assert (Hmod : (secs * US_PER_SECOND) mod US_PER_DAY = secs * US_PER_SECOND).
  { apply Z.mod_small. unfold US_PER_DAY, US_PER_SECOND. lia. }
  rewrite Hdiv, Hmod. simpl shift_days.
  assert (Hy : in_range MINYEAR (year d) MAXYEAR = true).
  { apply in_range_true. unfold valid in Hd. lia. }
  rewrite Hy.
  assert (Hq : secs * US_PER_SECOND / US_PER_SECOND = secs).
  { apply Z.div_mul. unfold US_PER_SECOND. lia. }
  assert (Hr : (secs * US_PER_SECOND) mod US_PER_SECOND = 0).
  { apply Z.mod_mul. unfold US_PER_SECOND. lia. }
  rewrite Hq, Hr.
  eexists; split; [done|].
  unfold valid, stamp in *; simpl.
  assert (Hsecs : secs = (hour d * 60 + minute d) * 60 + second d + s) by done.
  clearbody secs. clear Hdiv Hmod Hq Hr Hy.
  unfold US_PER_SECOND, MINYEAR, MAXYEAR in *.
  assert (Hsplit : secs / 3600 * 3600 + secs mod 3600 / 60 * 60 + secs mod 60 = secs
                   /\ 0 <= secs / 3600 < 24 /\ 0 <= secs mod 3600 / 60 < 60
                   /\ 0 <= secs mod 60 < 60)
    by (Z.div_mod_to_equations; lia).
  revert Hsplit.
  generalize (secs / 3600) (secs mod 3600 / 60) (secs mod 60).
  intros h m x (Hsum & Hh & Hm & Hx).
  repeat split; try lia.
Qed.

Lemma sub_us_same_date a b :
  year a = year b -> month a = month b -> day a = day b ->
  sub_us a b = time_of_day_us a - time_of_day_us b.
Proof.
  intros Hy Hm Hd. unfold sub_us, toordinal. rewrite Hy, Hm, Hd. lia.
Qed.

(** *** The text form determines the datetime *)

Lemma digit_val_digit n : digit_val (digit n) = Some (n mod 10).
Proof.
  unfold digit_val, digit.
  pose proof (Z.mod_pos_bound n 10 ltac:(lia)).
  rewrite nat_ascii_embedding by lia.
  rewrite (proj2 (in_range_true 48 _ 57)) by lia.
  f_equal. lia.
Qed.

Lemma number_pad2 n : 0 <= n < 100 -> number (pad2 n) 0 = Some n.
Proof.
  intros Hn. unfold pad2, number. rewrite !digit_val_digit. f_equal.
  rewrite (Z.mod_small (n / 10)) by (split; [apply Z.div_pos | apply Z.div_lt_upper_bound]; lia).
  pose proof (Z.div_mod n 10 ltac:(lia)). lia.
Qed.

Lemma number_pad4 n : 0 <= n < 10000 -> number (pad4 n) 0 = Some n.
Proof.
  intros Hn. unfold pad4, number. rewrite !digit_val_digit. f_equal.
  Z.div_mod_to_equations. lia.
Qed.

Lemma number_pad6 n : 0 <= n < 1000000 -> number (pad6 n) 0 = Some n.
Proof.
  intros Hn. unfold pad6, number. rewrite !digit_val_digit. f_equal.
  Z.div_mod_to_equations. lia.
Qed.

Lemma fromisoformat_valid s d : fromisoformat s = Some d -> valid d.
Proof.
  unfold fromisoformat. destruct (parse_fields _) as [dt|]; [|done].
  destruct (validb dt) eqn:Hv; [|done].
  intros [= <-]. by apply validb_valid.
Qed.

Lemma fromisoformat_isoformat d : valid d -> fromisoformat (isoformat d) = Some d.
Proof.
  intros Hd.
  pose proof (days_in_month_bounds (year d) (month d)) as Hdim.
  pose proof Hd as Hv. apply validb_valid in Hv.
  unfold valid, MINYEAR, MAXYEAR in Hd.
  pose proof (number_pad4 (year d) ltac:(lia)) as Hy.
  pose proof (number_pad2 (month d) ltac:(lia)) as Hm.
  pose proof (number_pad2 (day d) ltac:(lia)) as Hday.
  pose proof (number_pad2 (hour d) ltac:(lia)) as Hh.
  pose proof (number_pad2 (minute d) ltac:(lia)) as Hmi.
  pose proof (number_pad2 (second d) ltac:(lia)) as Hs.
  pose proof (number_pad6 (microsecond d) ltac:(lia)) as Hus.
  unfold pad2, pad4, pad6 in *.
  unfold fromisoformat, isoformat.
  rewrite list_ascii_of_string_of_list_ascii.
  unfold parse_fields, date_chars, pad2, pad4. cbn [app].
  rewrite Hy, Hm, Hday.
  unfold parse_time. rewrite Hh, Hmi, Hs.
  clear Hy Hm Hday Hh Hmi Hs Hd Hdim.
  destruct d as [y m dd h mi sec us].
  cbn [year month day hour minute second microsecond] in *.
  destruct (us =? 0) eqn:Hz.
  - apply Z.eqb_eq in Hz. subst us. cbv beta iota. by rewrite Hv.
  - unfold pad6, parse_fraction. rewrite Hus. cbn [option_map]. by rewrite Hv.
Qed.

Lemma isoformat_inj a b : valid a -> valid b -> isoformat a = isoformat b -> a = b.
Proof.
  intros Ha Hb Heq.
  apply fromisoformat_isoformat in Ha, Hb. congruence.
Qed.
End DatetimeFacts.

(** ** Runs of the program *)

Section RunFacts.
Context {X : Type} {E : External X}.

Lemma perform_run {T} (c : call T) w : perform c w = (Ok (answer c w), after c w).
Proof.
  unfold perform, after, answer, signalled.
  by destruct (respond c (ext w)) as [[a s] x].
Qed.

Lemma bind_perform {T B} (c : call T) (k : T -> prog X B) w :
  bind (perform c) k w = k (answer c w) (after c w).
Proof. unfold bind. by rewrite perform_run. Qed.

Lemma bind_ret {A B} (a : A) (k : A -> prog X B) w : bind (ret a) k w = k a w.
Proof. done. Qed.

Lemma bind_raise {A B} e (k : A -> prog X B) w :
  bind (raise e) k w = (Raise e, w).
Proof. done. Qed.

Lemma lift_run {A} (r : result A) (w : world X) : lift r w = (outcome_of r, w).
Proof. by destruct r. Qed.

Lemma events_since_app (w w' : world X) evs :
  trace w' = evs ++ trace w -> events_since w w' = evs.
Proof.
  intros H. unfold events_since. rewrite H, length_app.
  replace (length evs + length (trace w) - length (trace w))%nat with (length evs) by lia.
  by rewrite take_app_length.
Qed.

Lemma trace_after {T} (c : call T) w :
  trace (after c w) = Ev c (answer c w) (signalled c w) :: trace w.
Proof. done. Qed.
End RunFacts.

Section Generator.
Context {X : Type} {E : External X}.

(** What one run of the generator does, case by case. *)
Lemma generate_schedule_run sh eh mn mx (w : world X) :
  0 <= sh -> sh < eh -> eh <= 23 -> 1 <= mn -> mn <= mx ->
  let r := generate_schedule_for_today sh eh mn mx w in
  let now := answer DatetimeNow w in
  let day_start := window_start now sh in
  let day_end := window_start now eh in
  let span := (eh - sh) * 3600 in
  Forall lawful (events_since w (snd r)) ->
  valid now /\
  replace_hour now sh = Some day_start /\
  replace_hour now eh = Some day_end /\
  ((gtb now day_end = true /\ fst r = Ok []) \/
   (gtb now day_end = false /\
    exists c sample,
      mn <= c <= mx /\
      Z.of_nat (length sample) = Z.min c span /\
      NoDup sample /\ Forall (fun o => 0 <= o < span) sample /\
      fst r = outcome_of (future_times day_start now (merge_sort Z.le sample)))).
Proof.
  intros Hsh Hlt Heh Hmn Hmx r now day_start day_end span.
  subst r. unfold generate_schedule_for_today, datetime_now.
  rewrite bind_perform. fold now.
  unfold replace_hour.
  rewrite (proj2 (in_range_true 0 sh 23)), (proj2 (in_range_true 0 eh 23)) by lia.
  cbn [or_raise]. rewrite !bind_ret. fold (window_start now sh) (window_start now eh).
  fold day_start day_end.
  assert (Hspan : Z.quot (sub_us day_end day_start) US_PER_SECOND = span).
  { rewrite sub_us_same_date by done.
    unfold time_of_day_us, day_end, day_start, window_start, US_PER_SECOND; simpl.
    replace (((eh * 60 + 0) * 60 + 0) * 1000000 + 0 - (((sh * 60 + 0) * 60 + 0) * 1000000 + 0))
      with (span * 1000000) by (unfold span; lia).
    by rewrite Z.quot_mul. }
  rewrite Hspan.
  destruct (gtb now day_end) eqn:Hgt.
  { cbn [ret fst snd]. intros Hl.
    rewrite (events_since_app w _ [Ev DatetimeNow now (signalled DatetimeNow w)])
      in Hl by done.
    apply Forall_cons in Hl as [Hnow _]. auto 10. }
  destruct (span <=? 0) eqn:Hs0; [apply Z.leb_le in Hs0; unfold span in Hs0; lia|].
  unfold random_randint. rewrite (proj2 (Z.leb_le mn mx)) by lia.
  rewrite bind_perform.
  set (w1 := after DatetimeNow w).
  set (c := answer (RandInt mn mx) w1).
  set (w2 := after (RandInt mn mx) w1).
  unfold random_sample_range.
  destruct ((0 <=? Z.min c (Z.max 1 span)) && (Z.min c (Z.max 1 span) <=? Z.max 0 span))
    eqn:Hk.
  - rewrite bind_perform.
    set (k := Z.min c (Z.max 1 span)) in *.
    set (sample := answer (RandSample span k) w2).
    set (w3 := after (RandSample span k) w2).
    rewrite lift_run. cbn [fst snd]. intros Hl.
    rewrite (events_since_app w w3
               [Ev (RandSample span k) sample (signalled (RandSample span k) w2);
                Ev (RandInt mn mx) c (signalled (RandInt mn mx) w1);
                Ev DatetimeNow now (signalled DatetimeNow w)]) in Hl by done.
    apply Forall_cons in Hl as [Hsample Hl].
    apply Forall_cons in Hl as [Hrand Hl].
    apply Forall_cons in Hl as [Hnow _].
    change (valid now) in Hnow.
    change (mn <= c <= mx) in Hrand.
    change (length sample = Z.to_nat k /\ NoDup sample
            /\ Forall (fun o => 0 <= o < span) sample) in Hsample.
    destruct Hsample as (Hlen & Hnd & Hrange).
    split; [done|]. do 2 (split; [done|]). right. split; [done|].
    exists c, sample.
    split; [lia|]. split; [rewrite Hlen; unfold k, span in *; lia|].
    by do 2 (split; [done|]).
  - cbn [raise bind fst snd]. intros Hl. exfalso.
    rewrite (events_since_app w w2
               [Ev (RandInt mn mx) c (signalled (RandInt mn mx) w1);
                Ev DatetimeNow now (signalled DatetimeNow w)]) in Hl by done.
    apply Forall_cons in Hl as [Hrand _].
    change (mn <= c <= mx) in Hrand.
    apply andb_false_iff in Hk. unfold span in *.
    destruct Hk as [Hk|Hk]; apply Z.leb_gt in Hk; lia.
Qed.


(** The loop over the offsets keeps, in order, the offsets that fall
    after [now], each as the ISO text of [day_start + offset]. *)
Lemma future_times_spec day_start now offsets span :
  valid day_start -> valid now ->
  minute day_start = 0 -> second day_start = 0 -> microsecond day_start = 0 ->
  hour day_start * 3600 + span <= 86400 ->
  Forall (fun o => 0 <= o < span) offsets ->
  exists dts,
    future_times day_start now offsets = Returned (isoformat <$> dts) /\
    Forall2 (fun dt o => valid dt /\ add_seconds day_start o = Some dt /\
                         stamp dt = stamp day_start + o * US_PER_SECOND)
            dts (filter (later_than now day_start) offsets).
Proof.
  intros Hds Hnow Hmi Hse Hus Hhour Hall.
  induction Hall as [|o offsets Ho Hall IH].
  { exists []. split; [done|]. constructor. }
  destruct IH as (dts & Hft & Hrel).
  destruct (add_seconds_same_day day_start o) as (dt & Hadd & Hvalid & _ & _ & _ & _ & Hstamp);
    [done|done| |].
  { unfold valid in Hds. lia. }
  cbn [future_times]. rewrite Hadd, Hft.
  rewrite filter_cons.
  destruct (leb dt now) eqn:Hle.
  - exists dts. split; [done|].
    apply leb_stamp in Hle; [|done..].
    rewrite decide_False; [done|]. unfold later_than. lia.
  - exists (dt :: dts). split; [done|].
    assert (later_than now day_start o).
    { unfold later_than.
      destruct (Z_lt_ge_dec (stamp now) (stamp day_start + o * US_PER_SECOND)) as [|Hge];
        [done|].
      assert (leb dt now = true) by (apply leb_stamp; [done..|lia]).
      congruence. }
    rewrite decide_True by done.
    constructor; [done|done].
Qed.

Lemma StronglySorted_filter_lt (P : Z -> Prop) `{!forall x, Decision (P x)} l :
  StronglySorted Z.lt l -> StronglySorted Z.lt (filter P l).
Proof.
  induction 1 as [|x l Hs IH Hx]; [constructor|].
  rewrite filter_cons. destruct (decide (P x)); [|done].
  constructor; [done|].
  apply Forall_forall. intros y Hy%list_elem_of_filter.
  rewrite Forall_forall in Hx. apply Hx. tauto.
Qed.

Lemma sorted_offsets_strict (l : list Z) :
  NoDup l -> StronglySorted Z.lt (merge_sort Z.le l).
Proof.
  intros Hnd.
  assert (Hs : StronglySorted Z.le (merge_sort Z.le l))
    by apply (StronglySorted_merge_sort Z.le).
  assert (Hnd' : NoDup (merge_sort Z.le l))
    by (by rewrite merge_sort_Permutation).
  induction Hs as [|x k Hs IH Hx]; [constructor|].
  apply NoDup_cons in Hnd' as [Hnot Hnd'].
  constructor; [by apply IH|].
  rewrite Forall_forall in Hx |- *. intros y Hy.
  specialize (Hx y Hy).
  assert (x <> y) by (intros ->; done). lia.
Qed.

Lemma stamps_sorted ds (dts : list datetime) (offsets : list Z) :
  Forall2 (fun dt o => valid dt /\ add_seconds ds o = Some dt /\
                       stamp dt = stamp ds + o * US_PER_SECOND) dts offsets ->
  StronglySorted Z.lt offsets ->
  StronglySorted lt dts.
Proof.
  induction 1 as [|dt o dts offsets (Hv & _ & Hst) Hrel IH]; [constructor|].
  intros Hs. apply StronglySorted_inv in Hs as [Hs Hall].
  constructor; [by apply IH|].
  clear IH Hs.
  induction Hrel as [|dt' o' dts offsets (Hv' & _ & Hst') Hrel IH]; [constructor|].
  apply Forall_cons in Hall as [Hlt Hall].
  constructor; [|by apply IH].
  apply ltb_stamp; [done..|]. unfold US_PER_SECOND in *. lia.
Qed.

Lemma window_start_valid now h : valid now -> 0 <= h <= 23 -> valid (window_start now h).
Proof. unfold valid, window_start; simpl. lia. Qed.

Lemma stamp_window_start now h :
  stamp (window_start now h)
  = (((year now * 13 + month now) * 32 + day now) * 24 + h) * 3600 * US_PER_SECOND.
Proof. unfold stamp, window_start, US_PER_SECOND; simpl. lia. Qed.

(** A run of the generator on a valid configuration, with the facts
    the properties below share. *)
Lemma generate_schedule_spec sh eh mn mx (w : world X) :
  valid_window sh eh mn mx ->
  let r := generate_schedule_for_today sh eh mn mx w in
  let now := answer DatetimeNow w in
  let day_start := window_start now sh in
  Forall lawful (events_since w (snd r)) ->
  valid now /\
  exists (dts : list datetime) (offsets : list Z),
    fst r = Ok (isoformat <$> dts) /\
    Forall2 (fun dt o => valid dt /\ add_seconds day_start o = Some dt /\
                         stamp dt = stamp day_start + o * US_PER_SECOND)
            dts (filter (later_than now day_start) offsets) /\
    StronglySorted Z.lt offsets /\
    Forall (fun o => 0 <= o < (eh - sh) * 3600) offsets /\
    Z.of_nat (length offsets) <= mx /\
    (gtb now (window_start now eh) = false -> 1 <= Z.of_nat (length offsets)).
Proof.
  intros (Hsh & Hlt & Heh & Hmn & Hmx) r now day_start Hl.
  destruct (generate_schedule_run sh eh mn mx w Hsh Hlt Heh Hmn Hmx Hl)
    as (Hnow & _ & _ & Hcases).
  fold r now day_start in Hcases. split; [done|].
  destruct Hcases as [[Hgt Hr] | (Hgt & c & sample & Hc & Hlen & Hnd & Hrange & Hr)].
  - exists [], []. rewrite Hr, Hgt. repeat split; try done; try constructor. simpl; lia.
  - assert (Hperm : merge_sort Z.le sample ≡ₚ sample) by apply merge_sort_Permutation.
    destruct (future_times_spec day_start now (merge_sort Z.le sample) ((eh - sh) * 3600))
      as (dts & Hft & Hrel); try done.
    + apply window_start_valid; [done|lia].
    + unfold day_start, window_start; simpl. lia.
    + by rewrite Hperm.
    + assert (Hlen' : length (merge_sort Z.le sample) = length sample)
        by (by rewrite Hperm).
      assert (Hrange' : Forall (fun o => 0 <= o < (eh - sh) * 3600) (merge_sort Z.le sample))
        by (by rewrite Hperm).
      exists dts, (merge_sort Z.le sample).
      rewrite Hr, Hft, Hlen'.
      split; [done|]. split; [done|].
      split; [by apply sorted_offsets_strict|].
      split; [done|]. lia.
Qed.

(** C1 (amended).  On a valid configuration the generator returns; every
    timestamp it returns is the ISO text of a time of today's window
    [day_start <= t < day_end] that is strictly later than [now]; there
    are at most [max_commits] of them; and there is at least one when
    [now] is before the start of the window. *)
Theorem generator_bounds sh eh mn mx (w : world X) :
  valid_window sh eh mn mx ->
  let r := generate_schedule_for_today sh eh mn mx w in
  let now := answer DatetimeNow w in
  Forall lawful (events_since w (snd r)) ->
  exists day_start day_end times,
    replace_hour now sh = Some day_start /\
    replace_hour now eh = Some day_end /\
    fst r = Ok times /\
    (forall t, t ∈ times ->
       exists dt, t = isoformat dt /\ fromisoformat t = Some dt /\
                  le day_start dt /\ lt dt day_end /\ lt now dt) /\
    Z.of_nat (length times) <= mx /\
    (lt now day_start -> (1 <= length times)%nat).
Proof.
  intros Hw r now Hl.
  pose proof Hw as (Hsh & Hlt & Heh & Hmn & Hmx).
  destruct (generate_schedule_spec sh eh mn mx w Hw Hl)
    as (Hnow & dts & offsets & Hr & Hrel & Hsorted & Hrange & Hmax & Hmin).
  fold r now in Hr, Hrel, Hmin, Hnow.
  assert (Hvs : valid (window_start now sh)) by (apply window_start_valid; [done|lia]).
  assert (Hve : valid (window_start now eh)) by (apply window_start_valid; [done|lia]).
  pose proof (stamp_window_start now sh) as Hss.
  pose proof (stamp_window_start now eh) as Hse.
  exists (window_start now sh), (window_start now eh), (isoformat <$> dts).
  unfold replace_hour.
  rewrite (proj2 (in_range_true 0 sh 23)), (proj2 (in_range_true 0 eh 23)) by lia.
  do 3 (split; [done|]).
  pose proof (Forall2_length _ _ _ Hrel) as Hlen.
  rewrite length_fmap.
  split; [|split].
  - intros t (dt & -> & Hin)%list_elem_of_fmap.
    destruct (proj1 (list_elem_of_lookup _ _) Hin) as [i Hi].
    destruct (Forall2_lookup_l _ _ _ _ _ Hrel Hi) as (o & Ho & Hv & _ & Hst).
    apply list_elem_of_lookup_2, list_elem_of_filter in Ho as [Hlater Ho].
    rewrite Forall_forall in Hrange. specialize (Hrange o Ho).
    exists dt. split; [done|]. split; [by apply fromisoformat_isoformat|].
    unfold later_than in Hlater. unfold le, lt.
    rewrite leb_stamp, !ltb_stamp by done.
    unfold US_PER_SECOND in *. lia.
  - pose proof (length_filter (later_than now (window_start now sh)) offsets). lia.
  - intros Hbefore. apply ltb_stamp in Hbefore; [|done..].
    assert (Hall : filter (later_than now (window_start now sh)) offsets = offsets).
    { clear -Hrange Hbefore. induction Hrange as [|o l Ho _ IH]; [done|].
      rewrite filter_cons, decide_True, IH; [done|].
      unfold later_than, US_PER_SECOND. lia. }
    rewrite Hall in Hlen.
    assert (gtb now (window_start now eh) = false).
    { destruct (gtb now (window_start now eh)) eqn:Hg; [|done].
      apply gtb_stamp in Hg; [|done..]. unfold US_PER_SECOND in *. lia. }
    specialize (Hmin ltac:(done)). lia.
Qed.

(** C7.  The timestamps of one schedule are in strictly ascending order
    of time, and pairwise distinct. *)
Theorem schedule_sorted_distinct sh eh mn mx (w : world X) :
  valid_window sh eh mn mx ->
  let r := generate_schedule_for_today sh eh mn mx w in
  Forall lawful (events_since w (snd r)) ->
  exists dts,
    fst r = Ok (isoformat <$> dts) /\
    Forall (fun dt => fromisoformat (isoformat dt) = Some dt) dts /\
    StronglySorted lt dts /\
    NoDup (isoformat <$> dts).
Proof.
  intros Hw r Hl.
  destruct (generate_schedule_spec sh eh mn mx w Hw Hl)
    as (Hnow & dts & offsets & Hr & Hrel & Hsorted & _).
  exists dts. split; [done|].
  assert (Hvalid : Forall valid dts).
  { clear -Hrel. induction Hrel as [|? ? ? ? (? & _)]; by constructor. }
  assert (Hs : StronglySorted lt dts).
  { eapply stamps_sorted; [done|]. by apply StronglySorted_filter_lt. }
  split; [|split; [done|]].
  { eapply Forall_impl; [done|]. intros dt. apply fromisoformat_isoformat. }
  clear -Hvalid Hs.
  induction Hs as [|dt dts Hs IH Hall]; [constructor|].
  apply Forall_cons in Hvalid as [Hv Hvalid].
  rewrite fmap_cons. apply NoDup_cons. split; [|by apply IH].
  intros (dt' & Heq & Hin)%list_elem_of_fmap.
  rewrite Forall_forall in Hall, Hvalid.
  apply isoformat_inj in Heq; [|done|by apply Hvalid]. subst dt'.
  specialize (Hall dt Hin). apply ltb_stamp in Hall; [lia|done..].
Qed.
End Generator.

(** ** The calls of the program and the state it keeps *)

Section EmitsFacts.
Context {X : Type} {E : External X}.
Implicit Types (P : event -> Prop) (w : world X).
Local Abbreviation emits := (emits (X:=X)).

Lemma emits_ret P {A} (Q : A -> Prop) a : Q a -> emits P Q (ret a).
Proof.
  intros Ha w. exists []. simpl. rewrite andb_false_r, orb_false_r.
  repeat split; try done. by intros ? [= <-].
Qed.

Lemma emits_raise P {A} (Q : A -> Prop) e : emits P Q (raise e).
Proof.
  intros w. exists []. simpl. rewrite andb_false_r, orb_false_r.
  repeat split; done.
Qed.

Lemma emits_exit P {A} (Q : A -> Prop) code : emits P Q (sys_exit code).
Proof.
  intros w. exists []. simpl. rewrite andb_false_r, orb_false_r.
  repeat split; done.
Qed.

Lemma emits_perform P {T} (Q : T -> Prop) (c : call T) :
  (forall a s, P (Ev c a s)) -> (forall a, Q a) -> emits P Q (perform c).
Proof.
  intros HP HQ w. rewrite perform_run.
  exists [Ev c (answer c w) (signalled c w)]. simpl.
  rewrite orb_false_r. repeat split; auto.
Qed.

Lemma emits_bind P {A B} (Q1 : A -> Prop) (Q2 : B -> Prop) m (k : A -> prog X B) :
  emits P Q1 m -> (forall a, Q1 a -> emits P Q2 (k a)) -> emits P Q2 (bind m k).
Proof.
  intros Hm Hk w. unfold bind.
  destruct (Hm w) as (evs1 & Ht1 & HP1 & Hh1 & Hs1 & HQ1).
  destruct (m w) as [[a|e|code] w1]; simpl in *.
  - destruct (Hk a (HQ1 a eq_refl) w1) as (evs2 & Ht2 & HP2 & Hh2 & Hs2 & HQ2).
    exists (evs2 ++ evs1). rewrite Ht2, Ht1, Hh2, Hh1, Hs2, Hs1, Hh1, existsb_app.
    rewrite <- app_assoc. split; [done|]. split; [by apply Forall_app|].
    split; [done|]. split; [|done].
    destruct (should_terminate w), (handler_installed w),
      (existsb signal_of evs1), (existsb signal_of evs2); done.
  - exists evs1. repeat split; done.
  - exists evs1. repeat split; done.
Qed.

Lemma emits_weaken P {A} (Q Q' : A -> Prop) m :
  emits P Q m -> (forall a, Q a -> Q' a) -> emits P Q' m.
Proof.
  intros Hm HQ w. destruct (Hm w) as (evs & ? & ? & ? & ? & ?).
  exists evs. repeat split; auto.
Qed.

Lemma emits_try_except P {A} (Q : A -> Prop) m (h : exn -> prog X A) :
  emits P Q m -> (forall e, emits P Q (h e)) -> emits P Q (try_except m h).
Proof.
  intros Hm Hh w. unfold try_except.
  destruct (Hm w) as (evs1 & Ht1 & HP1 & Hh1 & Hs1 & HQ1).
  destruct (m w) as [[a|e|code] w1]; simpl in *.
  - exists evs1. repeat split; done.
  - destruct (Hh e w1) as (evs2 & Ht2 & HP2 & Hh2 & Hs2 & HQ2).
    exists (evs2 ++ evs1). rewrite Ht2, Ht1, Hh2, Hh1, Hs2, Hs1, Hh1, existsb_app.
    rewrite <- app_assoc. split; [done|]. split; [by apply Forall_app|].
    split; [done|]. split; [|done].
    destruct (should_terminate w), (handler_installed w),
      (existsb signal_of evs1), (existsb signal_of evs2); done.
  - exists evs1. repeat split; done.
Qed.

Lemma emits_lift P {A} (Q : A -> Prop) (r : result A) :
  (forall a, r = Returned a -> Q a) -> emits P Q (lift r).
Proof. destruct r; intros H; [apply emits_ret; auto | apply emits_raise]. Qed.

Lemma emits_or_raise P {A} (Q : A -> Prop) e (o : option A) :
  (forall a, o = Some a -> Q a) -> emits P Q (or_raise e o).
Proof. destruct o; intros H; [apply emits_ret; auto | apply emits_raise]. Qed.

Lemma emits_flag P : emits P (fun _ => True) killer_should_terminate.
Proof.
  intros w. exists []. simpl. rewrite andb_false_r, orb_false_r.
  repeat split; done.
Qed.
End EmitsFacts.

Ltac emits_bind := apply (emits_bind _ (fun _ => True)); [|intros ? _].
Tactic Notation "emits_bind" "as" ident(x) :=
  apply (emits_bind _ (fun _ => True)); [|intros x _].
Ltac emits_plain H :=
  apply emits_perform; [intros; apply H; exact I | done].

Section ProgramEmits.
Context {X : Type} {E : External X}.
Local Abbreviation emits := (emits (X:=X)).
Local Abbreviation anything := (fun _ => True).

(** [P] is the property of the calls, [Inv] the invariant of the state
    and of the pending times, [bound] a bound on the sleeps. *)
Variable P : event -> Prop.
Variable Inv : json -> list string -> Prop.
Variable bound : Z.
Hypothesis P_plain : forall e, plain e -> P e.
Hypothesis P_dump : forall st times a s,
    Inv st times -> P (Ev (JsonDump state_file_path st) a s).
Hypothesis P_sleep : forall d a s,
    0 < d <= bound -> P (Ev (TimeSleep d) a s).
Hypothesis Inv_record : forall date times, Inv (state_record date times) times.
Hypothesis Inv_setitem : forall st times times' st',
    Inv st times ->
    py_setitem st "scheduled_times" (JArr (JStr <$> times')) = Returned st' ->
    Inv st' times'.
Hypothesis Inv_resume : forall st date times st',
    py_get st "date" = Returned (JStr date) ->
    py_setitem st "scheduled_times" (JArr (JStr <$> times)) = Returned st' ->
    Inv st' times.

Definition inv_vars (v : loop_vars) : Prop := Inv (state v) (scheduled_times v).
Definition inv_next (c : option control) : Prop :=
  match c with
  | Some (Next v) => inv_vars v
  | Some Stop => True
  | None => False
  end.

Lemma log_emits m : emits P anything (log m).
Proof. unfold log, datetime_now. emits_bind; emits_plain P_plain. Qed.

Lemma run_git_command_emits args cwd allow_fail :
  emits P anything (run_git_command args cwd allow_fail).
Proof.
  unfold run_git_command. emits_bind; [emits_plain P_plain|].
  destruct a as [proc|[]]; try apply emits_raise.
  - emits_bind; [|by apply emits_ret].
    destruct (_ && _); [apply log_emits | by apply emits_ret].
  - emits_bind; [apply log_emits | apply emits_exit].
Qed.

Lemma append_activity_line_emits repo file :
  emits P anything (append_activity_line repo file).
Proof.
  unfold append_activity_line, perform_raising, datetime_now.
  emits_bind; [emits_bind; [emits_plain P_plain | by apply emits_lift]|].
  emits_bind; [emits_plain P_plain|].
  emits_bind; [emits_plain P_plain|].
  emits_bind; [emits_plain P_plain|].
  emits_bind.
  - destruct (negb _); [|by apply emits_ret].
    emits_bind; [emits_plain P_plain | by apply emits_lift].
  - emits_bind; [emits_plain P_plain | by apply emits_lift].
Qed.

Lemma perform_commit_emits repo file template push :
  emits P anything (perform_commit repo file template push).
Proof.
  unfold perform_commit, datetime_now.
  emits_bind; [apply run_git_command_emits|].
  emits_bind; [emits_plain P_plain|].
  emits_bind; [apply run_git_command_emits|].
  destruct (negb _).
  - destruct (contains _ _); apply log_emits.
  - emits_bind; [apply log_emits|].
    destruct push; [|by apply emits_ret].
    emits_bind; [apply run_git_command_emits|].
    destruct (negb _); apply log_emits.
Qed.

Lemma write_state_emits st times :
  Inv st times -> emits P anything (write_state st).
Proof.
  intros Hst. unfold write_state, perform_raising.
  apply emits_try_except; [|intros; apply log_emits].
  emits_bind; [|by apply emits_lift].
  apply emits_perform; [|done]. intros. by eapply P_dump.
Qed.

Lemma read_state_emits : emits P anything read_state.
Proof.
  unfold read_state, perform_raising.
  emits_bind; [emits_plain P_plain|].
  destruct (negb _); [by apply emits_ret|].
  apply emits_try_except; [|intros; by apply emits_ret].
  emits_bind; [emits_plain P_plain | by apply emits_lift].
Qed.

Lemma today_str_emits dt : emits P anything (today_str dt).
Proof.
  unfold today_str, datetime_now. emits_bind; [|by apply emits_ret].
  destruct dt; [by apply emits_ret | emits_plain P_plain].
Qed.

Lemma generate_schedule_emits sh eh mn mx :
  emits P anything (generate_schedule_for_today sh eh mn mx).
Proof.
  unfold generate_schedule_for_today, datetime_now, random_randint,
    random_sample_range.
  emits_bind; [emits_plain P_plain|].
  emits_bind; [by apply emits_or_raise|].
  emits_bind; [by apply emits_or_raise|].
  destruct (gtb _ _); [by apply emits_ret|].
  destruct (_ <=? 0); [by apply emits_ret|].
  emits_bind; [destruct (_ <=? _); [emits_plain P_plain | apply emits_raise]|].
  emits_bind; [destruct (_ && _); [emits_plain P_plain | apply emits_raise]|].
  by apply emits_lift.
Qed.

Lemma next_scheduled_time_emits l : emits P anything (next_scheduled_time l).
Proof.
  induction l as [|s l IH]; [by apply emits_ret|].
  cbn [next_scheduled_time]. destruct (fromisoformat s); [|done].
  unfold datetime_now. emits_bind; [emits_plain P_plain|].
  destruct (gtb _ _); [by apply emits_ret | done].
Qed.

Lemma roll_over_emits config now : emits P inv_vars (roll_over config now).
Proof.
  unfold roll_over, refresh_schedule.
  emits_bind; [apply generate_schedule_emits|].
  emits_bind; [eapply write_state_emits, Inv_record|].
  emits_bind; [apply log_emits|].
  apply emits_ret. apply Inv_record.
Qed.

Lemma differs_from_false v s : differs_from v s = false -> v = JStr s.
Proof.
  destruct v; try done. simpl. intros H%negb_false_iff.
  by apply String.eqb_eq in H as ->.
Qed.

Lemma initialize_emits config : emits P inv_vars (initialize config).
Proof.
  unfold initialize, refresh_schedule, datetime_now.
  emits_bind as st; [apply read_state_emits|].
  apply (emits_bind _ (fun d => py_get st "date" = Returned d));
    [by apply emits_lift | intros date Hdate].
  emits_bind; [by apply emits_lift|].
  emits_bind as today; [apply today_str_emits|].
  destruct (differs_from _ _) eqn:Hdiff.
  - unfold reschedule, refresh_schedule.
    emits_bind; [apply generate_schedule_emits|].
    emits_bind; [apply today_str_emits|].
    emits_bind; [eapply write_state_emits, Inv_record|].
    emits_bind; [apply log_emits|].
    apply emits_ret. apply Inv_record.
  - apply differs_from_false in Hdiff as ->.
    emits_bind; [emits_plain P_plain|].
    emits_bind as times; [by apply emits_lift|].
    destruct (py_setitem st _ _) as [st'|] eqn:Hset; [|apply emits_raise].
    cbn [lift].
    apply (emits_bind _ (fun x => x = st')); [by apply emits_ret | intros ? ->].
    emits_bind; [by eapply write_state_emits, Inv_resume|].
    emits_bind; [apply log_emits|].
    apply emits_ret. by eapply Inv_resume.
Qed.

Lemma sleep_loop_emits fuel cap total slept :
  0 < cap <= bound ->
  sleep_need cap (total - slept) <= Z.of_nat fuel ->
  emits P (fun r => r = Some tt) (sleep_loop fuel cap total slept).
Proof.
  intros Hcap. revert slept.
  induction fuel as [|fuel IH]; intros slept Hfuel.
  { unfold sleep_need in Hfuel. destruct (_ <=? 0) eqn:Hr; [lia|].
    apply Z.leb_gt in Hr.
    assert (0 <= (total - slept) / cap) by (apply Z.div_pos; lia). lia. }
  cbn [sleep_loop]. emits_bind; [apply emits_flag|].
  destruct (slept <? total) eqn:Hlt; [|by apply emits_ret].
  destruct a; [by apply emits_ret|]. cbn [negb andb].
  apply Z.ltb_lt in Hlt.
  emits_bind; [apply emits_perform; [|done]; intros; apply P_sleep; lia|].
  apply IH.
  unfold sleep_need in *.
  destruct (total - slept <=? 0) eqn:Hr; [apply Z.leb_le in Hr; lia|].
  destruct (Z.min_spec cap (total - slept)) as [[Hm ->]|[Hm ->]].
  - replace (total - (slept + cap)) with (total - slept + (-1) * cap) by lia.
    assert ((total - slept + (-1) * cap) / cap = (total - slept) / cap - 1) as Hd.
    { rewrite Z.div_add by lia. lia. }
    destruct (total - slept + -1 * cap <=? 0) eqn:Hr'.
    + assert (1 <= (total - slept) / cap)
        by (apply Z.div_le_lower_bound; lia). lia.
    + rewrite Hd. lia.
  - replace (total - (slept + (total - slept))) with 0 by lia. simpl.
    assert (0 <= (total - slept) / cap) by (apply Z.div_pos; lia). lia.
Qed.

Lemma sleep_in_chunks_emits cap total :
  0 < cap <= bound ->
  emits P (fun r => r = Some tt) (sleep_in_chunks cap total).
Proof.
  intros Hcap. apply sleep_loop_emits; [done|].
  unfold sleep_need, sleep_fuel. rewrite Z.sub_0_r.
  destruct (total <=? 0) eqn:Hr; [lia|]. apply Z.leb_gt in Hr.
  assert (0 <= total / cap) by (apply Z.div_pos; lia). lia.
Qed.

Lemma idle_sleep_emits config now :
  SLEEP_IDLE_CAP <= bound ->
  emits P (fun r => r = Some tt) (idle_sleep config now).
Proof.
  intros Hb. unfold idle_sleep.
  emits_bind; [by apply emits_or_raise|].
  emits_bind; [by apply emits_or_raise|].
  emits_bind; [apply log_emits|].
  apply sleep_in_chunks_emits. unfold SLEEP_IDLE_CAP, US_PER_SECOND in *. lia.
Qed.

Lemma event_sleep_emits now nxt :
  SLEEP_EVENT_CAP <= bound ->
  emits P (fun r => r = Some tt) (event_sleep now nxt).
Proof.
  intros Hb. unfold event_sleep. destruct (0 <? _); [|by apply emits_ret].
  emits_bind; [apply log_emits|].
  apply sleep_in_chunks_emits.
  unfold SLEEP_EVENT_CAP, US_PER_SECOND in *. lia.
Qed.

Lemma fire_emits config v nxt :
  PAUSE <= bound -> inv_vars v -> emits P inv_vars (fire config v nxt).
Proof.
  intros Hb Hv. unfold fire.
  emits_bind; [apply append_activity_line_emits|].
  emits_bind; [apply perform_commit_emits|].
  destruct (py_setitem (state v) _ _) as [st'|] eqn:Hset; [|apply emits_raise].
  cbn [lift].
  apply (emits_bind _ (fun st => st = st')); [by apply emits_ret | intros ? ->].
  emits_bind; [by eapply write_state_emits, Inv_setitem|].
  emits_bind.
  - apply emits_perform; [|done]. intros. apply P_sleep.
    unfold PAUSE, US_PER_SECOND in *. lia.
  - apply emits_ret. by eapply Inv_setitem.
Qed.

Lemma iteration_emits config v :
  SLEEP_IDLE_CAP <= bound ->
  inv_vars v -> emits P inv_next (iteration config v).
Proof.
  intros Hb Hv. unfold iteration, proceed, datetime_now.
  assert (PAUSE <= bound /\ SLEEP_EVENT_CAP <= bound) as [Hb1 Hb2]
    by (unfold PAUSE, SLEEP_EVENT_CAP, SLEEP_IDLE_CAP, US_PER_SECOND in *; lia).
  emits_bind; [emits_plain P_plain|].
  emits_bind; [by apply emits_lift|].
  apply (emits_bind _ inv_vars).
  { destruct (differs_from _ _); [apply roll_over_emits | by apply emits_ret]. }
  intros v' Hv'.
  emits_bind; [apply next_scheduled_time_emits|].
  destruct a1 as [nxt|].
  - eapply emits_bind; [by apply event_sleep_emits|].
    intros ? ->. cbv beta iota.
    emits_bind; [apply emits_flag|].
    destruct a1; [by apply emits_ret|].
    eapply emits_bind; [by apply fire_emits|].
    intros v'' Hv''. by apply emits_ret.
  - eapply emits_bind; [by apply idle_sleep_emits|].
    intros ? ->. by apply emits_ret.
Qed.
End ProgramEmits.

Section CancellationFacts.
Context {X : Type} {E : External X}.
Local Abbreviation emits := (emits (X:=X)).
Local Abbreviation cancellable := (cancellable (X:=X)).
Local Abbreviation idle_when_flagged := (idle_when_flagged (X:=X)).

Lemma quiet_is_calm evs : Forall no_sleep evs -> Forall calm evs.
Proof.
  intros H. eapply Forall_impl; [exact H|].
  intros [T c a s]; by destruct c.
Qed.

Lemma silent_is_calm evs : existsb signal_of evs = false -> Forall calm evs.
Proof.
  induction evs as [|[T c a s] evs IH]; [constructor|].
  simpl. intros [-> Hs]%orb_false_iff. constructor; [by destruct c | auto].
Qed.

Lemma calm_tail_app evs2 evs1 :
  Forall calm (tail evs2) -> Forall calm evs1 -> Forall calm (tail (evs2 ++ evs1)).
Proof.
  destruct evs2 as [|e evs2]; simpl; intros H2 H1.
  - destruct evs1; [done|]. by apply Forall_cons in H1 as [_ ?].
  - by apply Forall_app.
Qed.

Lemma cancellable_quiet {A} (Q : A -> Prop) (m : prog X A) :
  emits no_sleep Q m -> cancellable m.
Proof.
  intros Hm w Hw. destruct (Hm w) as (evs & Ht & HP & Hh & Hs & _).
  exists evs. rewrite Hh, Hs, Hw. repeat split; try done.
  apply quiet_is_calm in HP. destruct evs; [done|].
  by apply Forall_cons in HP as [_ ?].
Qed.

Lemma cancellable_bind_quiet {A B} (Q : A -> Prop) (m : prog X A) (k : A -> prog X B) :
  emits no_sleep Q m -> (forall a, cancellable (k a)) -> cancellable (bind m k).
Proof.
  intros Hm Hk w Hw. unfold bind.
  destruct (Hm w) as (evs1 & Ht1 & HP1 & Hh1 & Hs1 & _).
  rewrite Hw in Hh1, Hs1. apply quiet_is_calm in HP1.
  destruct (m w) as [[a|e|code] w1]; simpl in *.
  - destruct (Hk a w1 Hh1) as (evs2 & Ht2 & Hh2 & Hs2 & Hc2).
    exists (evs2 ++ evs1).
    rewrite Ht2, Ht1, Hs2, Hs1, existsb_app, <- app_assoc.
    repeat split; try done.
    + destruct (should_terminate w), (existsb signal_of evs1),
        (existsb signal_of evs2); done.
    + by apply calm_tail_app.
  - exists evs1. repeat split; try done.
    destruct evs1; [done|]. by apply Forall_cons in HP1 as [_ ?].
  - exists evs1. repeat split; try done.
    destruct evs1; [done|]. by apply Forall_cons in HP1 as [_ ?].
Qed.

(** After a computation that may have been interrupted, one that does
    nothing once the flag is set. *)
Lemma cancellable_bind {A B} (m : prog X A) (k : A -> prog X B) :
  cancellable m ->
  (forall a, cancellable (k a)) -> (forall a, idle_when_flagged (k a)) ->
  cancellable (bind m k).
Proof.
  intros Hm Hk Hidle w Hw. unfold bind.
  destruct (Hm w Hw) as (evs1 & Ht1 & Hh1 & Hs1 & Hc1).
  destruct (m w) as [[a|e|code] w1]; simpl in *.
  2,3: by exists evs1.
  destruct (should_terminate w1) eqn:Hflag.
  - rewrite (Hidle a w1 Hflag). exists evs1. by rewrite Hflag.
  - symmetry in Hs1. apply orb_false_iff in Hs1 as [Hs0 Hs1].
    destruct (Hk a w1 Hh1) as (evs2 & Ht2 & Hh2 & Hs2 & Hc2).
    exists (evs2 ++ evs1).
    rewrite Ht2, Ht1, Hs2, Hflag, Hs0, existsb_app, Hs1, orb_false_r, <- app_assoc.
    repeat split; try done.
    apply calm_tail_app; [done|]. by apply silent_is_calm.
Qed.

Lemma cancellable_ret {A} (a : A) : cancellable (ret a).
Proof. intros w Hw. exists []. simpl. rewrite orb_false_r. by repeat split. Qed.

Lemma cancellable_sleep d : cancellable (perform (TimeSleep d)).
Proof.
  intros w Hw. rewrite perform_run.
  exists [Ev (TimeSleep d) (answer (TimeSleep d) w) (signalled (TimeSleep d) w)].
  simpl. rewrite Hw, orb_false_r. by repeat split.
Qed.

Lemma idle_ret {A} (a : A) : idle_when_flagged (ret a).
Proof. by intros w _. Qed.

Lemma idle_sleep_loop fuel cap total slept :
  idle_when_flagged (sleep_loop fuel cap total slept).
Proof.
  intros w Hw. destruct fuel; [done|].
  cbn [sleep_loop]. unfold bind, killer_should_terminate. rewrite Hw.
  by rewrite andb_false_r.
Qed.

Lemma sleep_loop_cancellable fuel cap total slept :
  cancellable (sleep_loop fuel cap total slept).
Proof.
  revert slept. induction fuel as [|fuel IH]; intros slept;
    [apply cancellable_ret|].
  cbn [sleep_loop].
  eapply (cancellable_bind_quiet (fun _ => True)).
  { intros w. exists []. simpl. rewrite andb_false_r, orb_false_r. by repeat split. }
  intros killed. destruct (_ && _); [|apply cancellable_ret].
  apply cancellable_bind; [apply cancellable_sleep | intros; apply IH |].
  intros _. apply idle_sleep_loop.
Qed.

Lemma plain_no_sleep e : plain e -> no_sleep e.
Proof. destruct e as [T c a s]; by destruct c. Qed.

Lemma dump_no_sleep p st a s : no_sleep (Ev (JsonDump p st) a s).
Proof. done. Qed.

Ltac quiet_bind :=
  eapply (cancellable_bind_quiet (fun _ => True)); [|intros ?].
Ltac quiet :=
  first
    [ apply log_emits | apply append_activity_line_emits
    | apply perform_commit_emits | apply next_scheduled_time_emits
    | apply (write_state_emits no_sleep (fun _ _ => True)) with (times := [])
    | apply (roll_over_emits no_sleep (fun _ _ => True))
    | apply emits_lift | apply emits_or_raise | apply emits_flag
    | apply emits_ret | apply emits_perform ];
  try done; try (intros; by apply plain_no_sleep).

Lemma sleep_in_chunks_cancellable cap total : cancellable (sleep_in_chunks cap total).
Proof. apply sleep_loop_cancellable. Qed.

Lemma idle_sleep_cancellable config now : cancellable (idle_sleep config now).
Proof.
  unfold idle_sleep.
  quiet_bind; [quiet|]. quiet_bind; [quiet|]. quiet_bind; [quiet|].
  apply sleep_in_chunks_cancellable.
Qed.

Lemma event_sleep_cancellable now nxt : cancellable (event_sleep now nxt).
Proof.
  unfold event_sleep. destruct (0 <? _); [|apply cancellable_ret].
  quiet_bind; [quiet|]. apply sleep_in_chunks_cancellable.
Qed.

Lemma fire_cancellable config v nxt : cancellable (fire config v nxt).
Proof.
  unfold fire.
  quiet_bind; [quiet|]. quiet_bind; [quiet|]. quiet_bind; [quiet|].
  quiet_bind; [quiet|].
  apply cancellable_bind;
    [apply cancellable_sleep | intros; apply cancellable_ret | intros; apply idle_ret].
Qed.

Lemma iteration_cancellable config v : cancellable (iteration config v).
Proof.
  unfold iteration, proceed, datetime_now.
  quiet_bind; [quiet|]. quiet_bind; [quiet|].
  quiet_bind; [destruct (differs_from _ _); quiet|].
  quiet_bind; [quiet|].
  destruct a2 as [nxt|].
  - apply cancellable_bind; [apply event_sleep_cancellable| |].
    + intros [[]|]; [|apply cancellable_ret].
      quiet_bind; [quiet|].
      destruct a2; [apply cancellable_ret|].
      apply cancellable_bind;
        [apply fire_cancellable | intros; apply cancellable_ret | intros; apply idle_ret].
    + intros [[]|]; [|apply idle_ret].
      intros w Hw. unfold bind, killer_should_terminate. by rewrite Hw.
  - apply cancellable_bind;
      [apply idle_sleep_cancellable | intros; apply cancellable_ret | intros; apply idle_ret].
Qed.
End CancellationFacts.

Section LoopProperties.
Context {X : Type} {E : External X}.

Lemma state_record_is_record date times :
  is_state_record (state_record date times) times.
Proof.
  eexists _, date. split; [done|]. split.
  - apply lookup_insert_eq.
  - rewrite lookup_insert_ne by done. apply lookup_insert_eq.
Qed.

Lemma setitem_is_record st times times' st' :
  is_state_record st times ->
  py_setitem st "scheduled_times" (JArr (JStr <$> times')) = Returned st' ->
  is_state_record st' times'.
Proof.
  intros (m & date & -> & Hd & Ht) [= <-].
  eexists _, date. split; [done|]. split.
  - by rewrite lookup_insert_ne.
  - apply lookup_insert_eq.
Qed.

Lemma resumed_is_record st date times st' :
  py_get st "date" = Returned (JStr date) ->
  py_setitem st "scheduled_times" (JArr (JStr <$> times)) = Returned st' ->
  is_state_record st' times.
Proof.
  destruct st as [| | | | | |m]; try done. simpl. intros [= Hd] [= <-].
  eexists _, date. split; [done|]. split.
  - rewrite lookup_insert_ne by done.
    destruct (m !! "date"); simpl in Hd; by subst.
  - apply lookup_insert_eq.
Qed.

Lemma startup_run config (w : world X) :
  startup config w
  = initialize config (mkWorld (ext w) true false (trace w)).
Proof. done. Qed.

(** C3 (amended).  Every write of the state file, at start-up and in
    the loop, stores one record that holds the date string under the key
    ["date"] and the list of the remaining timestamps under the key
    ["scheduled_times"]; start-up leaves the loop variables in agreement
    with such a record and an iteration keeps them so. *)
Theorem persisted_schema config :
  (forall w : world X,
      let r := startup config w in
      Forall dumps_state_record (events_since w (snd r)) /\
      forall v, fst r = Ok v -> well_formed v) /\
  (forall v (w : world X),
      well_formed v ->
      let r := iteration config v w in
      Forall dumps_state_record (events_since w (snd r)) /\
      forall v', fst r = Ok (Some (Next v')) -> well_formed v').
Proof.
  assert (Hplain : forall e, plain e -> dumps_state_record e).
  { intros [T c a s]; by destruct c. }
  assert (Hdump : forall st times a s, is_state_record st times ->
            dumps_state_record (Ev (JsonDump state_file_path st) a s)).
  { intros st times a s Hst. split; [done|]. by exists times. }
  assert (Hsleep : forall d (a : unit) s, 0 < d <= SLEEP_IDLE_CAP ->
            dumps_state_record (Ev (TimeSleep d) a s)) by done.
  split.
  - intros w r. subst r. rewrite startup_run.
    destruct (initialize_emits dumps_state_record is_state_record
                Hplain Hdump state_record_is_record resumed_is_record config
                (mkWorld (ext w) true false (trace w)))
      as (evs & Ht & HP & _ & _ & HQ).
    simpl in Ht. split; [|done].
    by rewrite (events_since_app w _ evs).
  - intros v w Hv r. subst r.
    destruct (iteration_emits dumps_state_record is_state_record SLEEP_IDLE_CAP
                Hplain Hdump Hsleep state_record_is_record setitem_is_record
                config v ltac:(lia) Hv w)
      as (evs & Ht & HP & _ & _ & HQ).
    split; [by rewrite (events_since_app w _ evs)|].
    intros v' Hr. apply (HQ _ Hr).
Qed.

(** C9.  The loop sleeps in bounded steps and looks at the flag before
    each of them: once the handler is installed, in every iteration the
    sleeps last at most 60 seconds; a sleep during which a termination
    signal arrives is the last call of the iteration, so that nothing is
    committed after it; the flag is then set and the loop ends at its
    next test without a further call.  While waiting for tomorrow the
    steps are at most 60 seconds, while waiting for a commit at most 30
    seconds, and both waits end. *)
Theorem sleeps_are_bounded_and_cancellable config v (w : world X) :
  handler_installed w = true ->
  (let r := iteration config v w in
   let new := events_since w (snd r) in
   fst r <> Ok None /\
   Forall (sleeps_at_most SLEEP_IDLE_CAP) new /\
   Forall calm (tail new) /\
   (existsb signal_of new = true -> should_terminate (snd r) = true) /\
   (should_terminate (snd r) = true ->
    forall fuel v', main_loop (S fuel) config v' (snd r) = (Ok (Some tt), snd r))) /\
  (forall now (w' : world X),
      let r := idle_sleep config now w' in
      fst r <> Ok None /\
      Forall (sleeps_at_most SLEEP_IDLE_CAP) (events_since w' (snd r))) /\
  (forall now nxt (w' : world X),
      let r := event_sleep now nxt w' in
      fst r <> Ok None /\
      Forall (sleeps_at_most SLEEP_EVENT_CAP) (events_since w' (snd r))).
Proof.
  intros Hw.
  assert (Hplain : forall cap e, plain e -> sleeps_at_most cap e).
  { intros cap [T c a s]; by destruct c. }
  assert (Hdump : forall cap st (times : list string) a s, True ->
            sleeps_at_most cap (Ev (JsonDump state_file_path st) a s)) by done.
  assert (Hsleep : forall cap d (a : unit) s, 0 < d <= cap ->
            sleeps_at_most cap (Ev (TimeSleep d) a s)) by done.
  split; [|split].
  - intros r new. subst r new.
    destruct (iteration_emits (sleeps_at_most SLEEP_IDLE_CAP) (fun _ _ => True)
                SLEEP_IDLE_CAP (Hplain _) (Hdump _) (Hsleep _)
                ltac:(done) ltac:(done) config v ltac:(lia) I w)
      as (evs & Ht & HP & _ & _ & HQ).
    destruct (iteration_cancellable config v w Hw) as (evs' & Ht' & _ & Hs & Hc).
    rewrite (events_since_app w _ evs) by done.
    rewrite Ht in Ht'. apply app_inv_tail in Ht' as <-.
    split; [intros Hr; by specialize (HQ _ Hr)|].
    split; [done|]. split; [done|]. split.
    + intros Hsig. rewrite Hs, Hsig. apply orb_true_r.
    + intros Hflag fuel v'. cbn [main_loop].
      unfold bind, killer_should_terminate. by rewrite Hflag.
  - intros now w' r. subst r.
    destruct (idle_sleep_emits (sleeps_at_most SLEEP_IDLE_CAP) SLEEP_IDLE_CAP
                (Hplain _) (Hsleep _) config now ltac:(lia) w')
      as (evs & Ht & HP & _ & _ & HQ).
    split; [|by rewrite (events_since_app w' _ evs)].
    intros Hr. by specialize (HQ _ Hr).
  - intros now nxt w' r. subst r.
    destruct (event_sleep_emits (sleeps_at_most SLEEP_EVENT_CAP) SLEEP_EVENT_CAP
                (Hplain _) (Hsleep _) now nxt ltac:(lia) w')
      as (evs & Ht & HP & _ & _ & HQ).
    split; [|by rewrite (events_since_app w' _ evs)].
    intros Hr. by specialize (HQ _ Hr).
Qed.
End LoopProperties.

(** ** The state file, the clock and the commit step *)

Section StateProperties.
Context {X : Type} {E : External X}.

Lemma bind_assoc {A B C} (m : prog X A) (f : A -> prog X B) (k : B -> prog X C) w :
  bind (bind m f) k w = bind m (fun a => bind (f a) k) w.
Proof. unfold bind. by destruct (m w) as [[a|e|c] w']. Qed.

Lemma bind_ok_inv {A B} (m : prog X A) (k : A -> prog X B) w b w' :
  bind m k w = (Ok b, w') -> exists a w1, m w = (Ok a, w1) /\ k a w1 = (Ok b, w').
Proof.
  unfold bind. destruct (m w) as [[a|e|c] w1]; try done. by exists a, w1.
Qed.

(** C8.  Loading the state never raises: it returns the empty state
    when the file is missing and when reading or parsing it raises, and
    the parsed value otherwise. *)
Theorem read_state_fails_soft (w : world X) :
  let w1 := after (IsFile state_file_path) w in
  (exists st, fst (read_state w) = Ok st) /\
  (answer (IsFile state_file_path) w = false ->
   fst (read_state w) = Ok empty_dict) /\
  (forall e, answer (JsonLoad state_file_path) w1 = Raised e ->
             fst (read_state w) = Ok empty_dict) /\
  (forall st, answer (IsFile state_file_path) w = true ->
              answer (JsonLoad state_file_path) w1 = Returned st ->
              fst (read_state w) = Ok st).
Proof.
  intros w1. unfold read_state.
  rewrite bind_perform. fold w1.
  destruct (answer (IsFile state_file_path) w) eqn:Hfile; cbn [negb].
  - unfold try_except, perform_raising. rewrite bind_perform.
    destruct (answer (JsonLoad state_file_path) w1) as [st|e] eqn:Hload; simpl.
    + split; [by exists st|]. split; [done|]. split; [done|]. by intros ? _ [= <-].
    + split; [by exists empty_dict|]. by repeat split.
  - split; [by exists empty_dict|]. by repeat split.
Qed.

Lemma purge_raises items now s :
  JStr s ∈ items -> fromisoformat s = None ->
  exists e, purge items now = Raised e.
Proof.
  intros Hin Hs. induction items as [|item items IH]; [by apply elem_of_nil in Hin|].
  apply elem_of_cons in Hin as [<-|Hin].
  - cbn [purge]. rewrite Hs. eexists; reflexivity.
  - destruct (IH Hin) as [e He]. cbn [purge]. rewrite He.
    destruct item as [| | | |t| |]; try (eexists; reflexivity).
    destruct (fromisoformat t); eexists; reflexivity.
Qed.

(** C10.  When the checks of [main] pass and the state file holds
    today's date and a list with a string that is no ISO timestamp, the
    purge at start-up raises; nothing in [main] catches it, the handler
    around [main] logs it as fatal, and the process exits with status 1. *)
Theorem resume_purge_is_fatal fuel config (w w0 w2 : world X)
    (m : gmap string json) items s :
  prelude w = (Ok config, w0) ->
  read_state (mkWorld (ext w0) true false (trace w0)) = (Ok (JObj m), w2) ->
  m !! "date" = Some (JStr (strftime_date (answer DatetimeNow w2))) ->
  m !! "scheduled_times" = Some (JArr items) ->
  JStr s ∈ items -> fromisoformat s = None ->
  exists e w3,
    startup config w0 = (Raise e, w3) /\
    fst (script fuel false w) = Exit 1 /\
    exit_status (fst (script fuel false w)) = 1 /\
    exists t a sg, head (trace (snd (script fuel false w)))
                   = Some (Ev (Print t (MsgFatal e)) a sg).
Proof.
  intros Hpre Hread Hdate Htimes Hin Hs.
  set (w3 := after DatetimeNow w2).
  destruct (purge_raises items (answer DatetimeNow w3) s Hin Hs) as [e He].
  assert (Hstart : startup config w0 = (Raise e, after DatetimeNow w3)).
  { rewrite startup_run. unfold initialize, bind at 1. rewrite Hread.
    simpl py_get. rewrite Hdate, Htimes. cbn [default lift].
    rewrite !bind_ret. unfold today_str, datetime_now.
    rewrite bind_assoc, bind_perform, bind_ret. fold w3.
    unfold differs_from, id. rewrite String.eqb_refl. cbn [negb].
    rewrite bind_perform. rewrite He. done. }
  exists e, (after DatetimeNow w3). split; [done|].
  assert (Hscript : script fuel false w
                    = (log (MsgFatal e);; sys_exit 1) (after DatetimeNow w3)).
  { unfold script, try_except, main, daemon. unfold bind at 1. rewrite Hpre.
    unfold bind at 1. by rewrite Hstart. }
  rewrite Hscript. unfold log, datetime_now.
  rewrite bind_assoc, bind_perform, bind_perform.
  simpl. split; [done|]. split; [done|]. eexists _, _, _. reflexivity.
Qed.

Lemma write_state_run st (w : world X) :
  fst (write_state st w) = Ok tt /\
  exists evs a sg,
    trace (snd (write_state st w))
    = evs ++ Ev (JsonDump state_file_path st) a sg :: trace w.
Proof.
  unfold write_state, try_except, perform_raising. rewrite bind_perform.
  destruct (answer (JsonDump state_file_path st) w) as [[]|e] eqn:Ha; simpl.
  - split; [done|]. eexists [], _, _. reflexivity.
  - unfold log, datetime_now. rewrite bind_perform, perform_run. simpl.
    split; [by destruct (answer (Print _ _) _)|].
    eexists [_; _], _, _. reflexivity.
Qed.

Lemma log_run msg (w : world X) :
  fst (log msg w) = Ok tt /\
  exists t a sg sg',
    trace (snd (log msg w)) = [Ev (Print t msg) a sg; Ev DatetimeNow t sg'] ++ trace w.
Proof.
  unfold log, datetime_now. rewrite bind_perform, perform_run. simpl.
  split; [by destruct (answer (Print _ _) _)|].
  eexists _, _, _, _. reflexivity.
Qed.

Lemma generate_extends sh eh mn mx (w : world X) :
  exists evs,
    trace (snd (generate_schedule_for_today sh eh mn mx w)) = evs ++ trace w.
Proof.
  destruct (generate_schedule_emits (fun _ => True) ltac:(done) sh eh mn mx w)
    as (evs & Ht & _). by exists evs.
Qed.

(** The record [{"date": date, "scheduled_times": times}] in terms of
    its keys. *)
Lemma state_record_fresh date times : fresh_record (state_record date times) date times.
Proof.
  eexists. split; [reflexivity|]. split; [apply lookup_insert_eq|].
  split; [rewrite lookup_insert_ne by done; apply lookup_insert_eq|].
  intros k [x Hx].
  destruct (decide (k = "date")) as [|Hk1]; [by left|right].
  rewrite lookup_insert_ne in Hx by done.
  destruct (decide (k = "scheduled_times")) as [|Hk2]; [done|].
  rewrite lookup_insert_ne in Hx by done. by rewrite lookup_empty in Hx.
Qed.

(** On a valid configuration and with lawful answers a schedule is
    drawn, and each of its times lies ahead in the window of the day on
    which it is drawn. *)
Lemma refresh_schedule_returns config (w : world X) :
  valid_window (work_start_hour config) (work_end_hour config)
               (min_commits config) (max_commits config) ->
  Forall lawful (events_since w (snd (refresh_schedule config w))) ->
  exists times,
    fst (refresh_schedule config w) = Ok times /\
    Forall (ahead_today (answer DatetimeNow w) (work_start_hour config)
                        (work_end_hour config)) times.
Proof.
  unfold refresh_schedule.
  set (sh := work_start_hour config). set (eh := work_end_hour config).
  intros Hw Hl.
  pose proof Hw as (Hsh & Hlt & Heh & Hmn & Hmx).
  destruct (generate_schedule_spec sh eh _ _ w Hw Hl)
    as (Hnow & dts & offsets & Hr & Hrel & _ & Hrange & _ & _).
  set (now := answer DatetimeNow w) in *.
  assert (Hvs : valid (window_start now sh)) by (apply window_start_valid; [done|lia]).
  assert (Hve : valid (window_start now eh)) by (apply window_start_valid; [done|lia]).
  pose proof (stamp_window_start now sh) as Hss.
  pose proof (stamp_window_start now eh) as Hse.
  exists (isoformat <$> dts). split; [done|].
  apply Forall_forall. intros t (dt & -> & Hin)%list_elem_of_fmap.
  destruct (proj1 (list_elem_of_lookup _ _) Hin) as [i Hi].
  destruct (Forall2_lookup_l _ _ _ _ _ Hrel Hi) as (o & Ho & Hv & _ & Hst).
  apply list_elem_of_lookup_2, list_elem_of_filter in Ho as [Hlater Ho].
  rewrite Forall_forall in Hrange. specialize (Hrange o Ho).
  exists dt. split; [by apply fromisoformat_isoformat|].
  unfold later_than in Hlater. unfold le, lt.
  rewrite leb_stamp, !ltb_stamp by done.
  unfold US_PER_SECOND in *. lia.
Qed.

(** The block of the loop that stores a fresh schedule: its calls come
    after those of the generator, and it returns whenever the generator
    does, with the record of the generated times under the date of
    [now], which it has passed to [json.dump]. *)
Lemma roll_over_spec config now (w1 : world X) :
  let g := refresh_schedule config w1 in
  let r := roll_over config now w1 in
  (exists later, events_since w1 (snd r) = later ++ events_since w1 (snd g)) /\
  forall times,
    fst g = Ok times ->
    fst r = Ok (mkVars (state_record (strftime_date now) times) times) /\
    exists a sg, Ev (JsonDump state_file_path (state_record (strftime_date now) times)) a sg
                 ∈ events_since w1 (snd r).
Proof.
  unfold roll_over, refresh_schedule. cbv zeta. unfold bind.
  destruct (generate_extends (work_start_hour config) (work_end_hour config)
              (min_commits config) (max_commits config) w1) as (evs0 & Ht0).
  destruct (generate_schedule_for_today _ _ _ _ w1) as [[sched|e|c] w2];
    [|by split; [exists []|]..].
  simpl in Ht0.
  destruct (write_state_run (state_record (strftime_date now) sched) w2)
    as (Hok & evs1 & a & sg & Ht1).
  destruct (write_state _ w2) as [[[]|e|c] w3]; try done. simpl in Ht1.
  destruct (log_run (MsgNewSchedule (strftime_date now) (length sched)) w3)
    as (Hok' & t & a' & sg1 & sg2 & Ht2).
  destruct (log _ w3) as [[[]|e|c] w4]; try done. simpl in Ht2.
  cbn [fst snd ret].
  assert (Hev : events_since w1 w4
                = ([Ev (Print t (MsgNewSchedule (strftime_date now) (length sched))) a' sg1;
                    Ev DatetimeNow t sg2] ++ evs1
                   ++ [Ev (JsonDump state_file_path
                             (state_record (strftime_date now) sched)) a sg]) ++ evs0).
  { apply events_since_app. rewrite Ht2, Ht1, Ht0. by rewrite <- !app_assoc. }
  rewrite Hev, (events_since_app w1 w2 evs0 Ht0).
  split; [by eexists|].
  intros times [= <-]. split; [done|]. exists a, sg. set_solver.
Qed.

Lemma today_str_run (w : world X) :
  today_str None w = (Ok (strftime_date (answer DatetimeNow w)), after DatetimeNow w).
Proof.
  unfold today_str, datetime_now. by rewrite bind_perform.
Qed.

(** The same for the block of start-up; its date is the one the clock
    shows once the schedule is drawn. *)
Lemma reschedule_spec config (w1 : world X) :
  let g := refresh_schedule config w1 in
  let r := reschedule config w1 in
  let today := strftime_date (answer DatetimeNow (snd g)) in
  (exists later, events_since w1 (snd r) = later ++ events_since w1 (snd g)) /\
  forall times,
    fst g = Ok times ->
    fst r = Ok (mkVars (state_record today times) times) /\
    exists a sg, Ev (JsonDump state_file_path (state_record today times)) a sg
                 ∈ events_since w1 (snd r).
Proof.
  unfold reschedule, refresh_schedule. cbv zeta. unfold bind.
  destruct (generate_extends (work_start_hour config) (work_end_hour config)
              (min_commits config) (max_commits config) w1) as (evs0 & Ht0).
  destruct (generate_schedule_for_today _ _ _ _ w1) as [[sched|e|c] w2];
    [|by split; [exists []|]..].
  simpl in Ht0. rewrite today_str_run. cbn [snd].
  set (today := strftime_date (answer DatetimeNow w2)).
  destruct (write_state_run (state_record today sched) (after DatetimeNow w2))
    as (Hok & evs1 & a & sg & Ht1).
  destruct (write_state _ (after DatetimeNow w2)) as [[[]|e|c] w3]; try done.
  simpl in Ht1.
  destruct (log_run (MsgNewSchedule today (length sched)) w3)
    as (Hok' & t & a' & sg1 & sg2 & Ht2).
  destruct (log _ w3) as [[[]|e|c] w4]; try done. simpl in Ht2.
  cbn [fst snd ret].
  assert (Hev : events_since w1 w4
                = ([Ev (Print t (MsgNewSchedule today (length sched))) a' sg1;
                    Ev DatetimeNow t sg2] ++ evs1
                   ++ [Ev (JsonDump state_file_path (state_record today sched)) a sg;
                       Ev DatetimeNow (answer DatetimeNow w2) (signalled DatetimeNow w2)])
                  ++ evs0).
  { apply events_since_app. rewrite Ht2, Ht1, Ht0. by rewrite <- !app_assoc. }
  rewrite Hev, (events_since_app w1 w2 evs0 Ht0).
  split; [by eexists|].
  intros times [= <-]. split; [done|]. exists a, sg. set_solver.
Qed.

(** An iteration that finds a stale state goes on with what [roll_over]
    returns, whatever the state was. *)
Lemma iteration_stale config v (w : world X) :
  stale (answer DatetimeNow w) v ->
  iteration config v w
  = (let* v' := roll_over config (answer DatetimeNow w) in
     proceed config (answer DatetimeNow w) v') (after DatetimeNow w).
Proof.
  intros (d & Hd & Hdiff).
  unfold iteration, datetime_now. rewrite bind_perform.
  rewrite Hd. cbn [lift]. rewrite bind_ret. by rewrite Hdiff.
Qed.

(** Start-up on a stored state dated another day runs [reschedule]. *)
Lemma initialize_stale config (w0 w1 : world X) st d :
  read_state w0 = (Ok st, w1) ->
  py_get st "date" = Returned d ->
  differs_from d (strftime_date (answer DatetimeNow w1)) = true ->
  initialize config w0 = reschedule config (after DatetimeNow w1).
Proof.
  intros Hread Hd Hdiff.
  unfold initialize. unfold bind at 1. rewrite Hread.
  rewrite Hd. cbn [lift]. rewrite bind_ret.
  destruct st; try done. cbn [py_get lift]. rewrite bind_ret.
  unfold today_str, datetime_now.
  rewrite bind_assoc, bind_perform, bind_ret. by rewrite Hdiff.
Qed.

(** C4.  On a valid configuration and with lawful answers of the clock
    and of the random draws, an iteration that finds a state dated
    another day draws a schedule and goes on with new loop variables
    only: their pending times are exactly the drawn ones, each of them
    ahead in today's window; their state is a dict with the two keys
    ["date"], the day of the iteration's [now], and ["scheduled_times"],
    the drawn times, and with no other key; this dict is passed to
    [json.dump]; and the outcome of the iteration is the same for every
    stale state, so that nothing of the old state or of its pending
    times enters the new one.  At start-up a stored state dated another
    day is replaced in the same way, under the date the clock shows
    once the schedule is drawn. *)
Theorem day_rollover config v (w : world X) :
  let now := answer DatetimeNow w in
  let w1 := after DatetimeNow w in
  let sh := work_start_hour config in
  let eh := work_end_hour config in
  stale now v ->
  valid_window sh eh (min_commits config) (max_commits config) ->
  Forall lawful (events_since w1 (snd (roll_over config now w1))) ->
  (exists times st' w2,
      fst (refresh_schedule config w1) = Ok times /\
      Forall (ahead_today (answer DatetimeNow w1) sh eh) times /\
      roll_over config now w1 = (Ok (mkVars st' times), w2) /\
      fresh_record st' (strftime_date now) times /\
      (exists a sg, Ev (JsonDump state_file_path st') a sg ∈ events_since w1 w2) /\
      iteration config v w = proceed config now (mkVars st' times) w2 /\
      forall v0, stale now v0 -> iteration config v0 w = iteration config v w) /\
  (forall (w0 w3 : world X) st d,
      read_state w0 = (Ok st, w3) ->
      py_get st "date" = Returned d ->
      differs_from d (strftime_date (answer DatetimeNow w3)) = true ->
      let w4 := after DatetimeNow w3 in
      Forall lawful (events_since w4 (snd (reschedule config w4))) ->
      exists times st' w5,
        fst (refresh_schedule config w4) = Ok times /\
        Forall (ahead_today (answer DatetimeNow w4) sh eh) times /\
        initialize config w0 = (Ok (mkVars st' times), w5) /\
        fresh_record st'
          (strftime_date (answer DatetimeNow (snd (refresh_schedule config w4)))) times /\
        exists a sg, Ev (JsonDump state_file_path st') a sg ∈ events_since w4 w5).
Proof.
  intros now w1 sh eh Hstale Hw Hl. split.
  - destruct (roll_over_spec config now w1) as ((later & Hev) & Hret).
    rewrite Hev in Hl. apply Forall_app in Hl as [_ Hl].
    destruct (refresh_schedule_returns config w1 Hw Hl) as (times & Hg & Hahead).
    destruct (Hret times Hg) as (Hr & a & sg & Hdump).
    exists times, (state_record (strftime_date now) times),
           (snd (roll_over config now w1)).
    assert (Hrun : roll_over config now w1
                   = (Ok (mkVars (state_record (strftime_date now) times) times),
                      snd (roll_over config now w1))).
    { rewrite <- Hr. apply surjective_pairing. }
    assert (Hit : forall v0, stale now v0 ->
              iteration config v0 w
              = proceed config now (mkVars (state_record (strftime_date now) times) times)
                        (snd (roll_over config now w1))).
    { intros v0 H0. rewrite (iteration_stale config v0 w H0).
      fold now w1. unfold bind at 1. by rewrite Hrun. }
    split; [done|]. split; [done|]. split; [done|].
    split; [apply state_record_fresh|]. split; [by exists a, sg|].
    split; [by apply Hit|].
    intros v0 H0. by rewrite !Hit.
  - intros w0 w3 st d Hread Hd Hdiff w4 Hl4.
    destruct (reschedule_spec config w4) as ((later & Hev) & Hret).
    rewrite Hev in Hl4. apply Forall_app in Hl4 as [_ Hl4].
    destruct (refresh_schedule_returns config w4 Hw Hl4) as (times & Hg & Hahead).
    destruct (Hret times Hg) as (Hr & a & sg & Hdump).
    eexists times, _, (snd (reschedule config w4)).
    split; [done|]. split; [done|].
    split; [|split; [apply state_record_fresh|by exists a, sg]].
    rewrite (initialize_stale config w0 w3 st d Hread Hd Hdiff). fold w4.
    rewrite <- Hr. apply surjective_pairing.
Qed.
End StateProperties.

Section NextDue.
Context {X : Type} {E : External X}.

Lemma first_future_is_earliest now before s rest dt :
  fromisoformat s = Some dt ->
  Forall (not_due now) before ->
  ascending (before ++ s :: rest) ->
  forall s' dt', s' ∈ before ++ s :: rest -> fromisoformat s' = Some dt' ->
                 lt now dt' -> le dt dt'.
Proof.
  intros Hs Hbefore Hasc s' dt' Hin Hs' Hlt.
  apply elem_of_app in Hin as [Hin|Hin].
  - rewrite Forall_forall in Hbefore. by destruct (Hbefore s' Hin dt' Hs').
  - apply StronglySorted_app_1_r in Hasc.
    apply StronglySorted_inv in Hasc as [_ Hall].
    apply elem_of_cons in Hin as [->|Hin].
    + assert (dt' = dt) as -> by congruence.
      apply fromisoformat_valid in Hs. by apply leb_stamp.
    + rewrite Forall_forall in Hall. by apply (Hall s' Hin).
Qed.

(** C6 (amended).  While the clock reads [now], the next due timestamp
    is the first entry, in the order of the list, that is a timestamp
    strictly after [now]: the entries before it, which are no timestamps
    or are not in the future, are passed over; when no entry is in the
    future the result is empty; and when the list is in ascending order
    the result is the earliest of its future entries. *)
Theorem next_due_is_first_future l now (w : world X) :
  let r := next_scheduled_time l w in
  Forall (reads now) (events_since w (snd r)) ->
  exists res,
    fst r = Ok res /\
    match res with
    | Some dt =>
        exists before s rest,
          l = before ++ s :: rest /\ fromisoformat s = Some dt /\ lt now dt /\
          Forall (not_due now) before /\
          (ascending l ->
           forall s' dt', s' ∈ l -> fromisoformat s' = Some dt' -> lt now dt' ->
                          le dt dt')
    | None => Forall (not_due now) l
    end.
Proof.
  revert w. induction l as [|s l IH]; intros w r Hreads.
  { exists None. split; [done|]. constructor. }
  subst r. cbn [next_scheduled_time] in *.
  destruct (fromisoformat s) as [dt|] eqn:Hs.
  - unfold datetime_now in *. rewrite bind_perform in *.
    set (w1 := after DatetimeNow w) in *.
    destruct (gtb dt (answer DatetimeNow w)) eqn:Hgt.
    + cbn [ret fst snd] in *.
      rewrite (events_since_app w w1 [Ev DatetimeNow (answer DatetimeNow w)
                                        (signalled DatetimeNow w)]) in Hreads by done.
      apply Forall_cons in Hreads as [Hnow _]. simpl in Hnow.
      exists (Some dt). split; [done|].
      exists [], s, l. rewrite <- Hnow. repeat split; try done.
      intros Hasc. eapply (first_future_is_earliest _ []); [done|done|done].
    + destruct (next_scheduled_time_emits (fun _ => True) ltac:(done) l w1)
        as (evs & Ht & _).
      rewrite (events_since_app w _ (evs ++ [Ev DatetimeNow (answer DatetimeNow w)
                                               (signalled DatetimeNow w)])) in Hreads
        by (rewrite Ht; by rewrite <- app_assoc).
      apply Forall_app in Hreads as [Hevs Hnow].
      apply Forall_cons in Hnow as [Hnow _]. simpl in Hnow.
      rewrite <- (events_since_app w1 _ evs Ht) in Hevs.
      destruct (IH w1 Hevs) as (res & Hres & Hspec).
      exists res. split; [done|].
      assert (Hskip : not_due now s).
      { intros dt0 Hs0 Hlt. assert (dt0 = dt) as -> by congruence.
        unfold lt, gtb in *. congruence. }
      destruct res as [dt'|].
      * destruct Hspec as (before & s' & rest & -> & Hs' & Hlt & Hbefore & _).
        exists (s :: before), s', rest. repeat split; try done.
        -- by constructor.
        -- intros Hasc. eapply (first_future_is_earliest _ (s :: before)); try done.
           by constructor.
      * by constructor.
  - destruct (IH w Hreads) as (res & Hres & Hspec).
    exists res. split; [done|].
    assert (Hskip : not_due now s) by (intros dt0 Hs0; congruence).
    destruct res as [dt'|].
    + destruct Hspec as (before & s' & rest & -> & Hs' & Hlt & Hbefore & _).
      exists (s :: before), s', rest. repeat split; try done.
      * by constructor.
      * intros Hasc. eapply (first_future_is_earliest _ (s :: before)); try done.
        by constructor.
    + by constructor.
Qed.
End NextDue.

Section Consumption.
Context {X : Type} {E : External X}.
Local Abbreviation returns_unless_raised := (returns_unless_raised (X:=X)).
Local Abbreviation anything := (fun _ => True).

Lemma rur_ret {A} (Q : A -> Prop) a : Q a -> returns_unless_raised Q (ret a).
Proof. intros Ha w. exists []. split; [done|]. left. by exists a. Qed.

Lemma rur_perform {T} (Q : T -> Prop) (c : call T) :
  (forall a, Q a) -> returns_unless_raised Q (perform c).
Proof.
  intros HQ w. rewrite perform_run. eexists [_]. split; [done|].
  left. by eexists.
Qed.

Lemma rur_bind {A B} (Q1 : A -> Prop) (Q : B -> Prop) m (k : A -> prog X B) :
  returns_unless_raised Q1 m ->
  (forall a, returns_unless_raised Q (k a)) ->
  returns_unless_raised Q (bind m k).
Proof.
  intros Hm Hk w. unfold bind.
  destruct (Hm w) as (evs1 & Ht1 & Hr1).
  destruct (m w) as [[a|e|c] w1]; simpl in *.
  - destruct (Hk a w1) as (evs2 & Ht2 & Hr2).
    exists (evs2 ++ evs1). rewrite Ht2, Ht1, <- app_assoc. split; [done|].
    destruct Hr2 as [Hr2|Hr2]; [by left|]. right. apply Exists_app. by left.
  - exists evs1. split; [done|]. destruct Hr1 as [(? & ? & _)|?]; [done|by right].
  - exists evs1. split; [done|]. destruct Hr1 as [(? & ? & _)|?]; [done|by right].
Qed.

Lemma rur_lift {T} (c : call (result T)) :
  (forall e s, call_raised (Ev c (Raised e) s)) ->
  returns_unless_raised anything (perform_raising c).
Proof.
  intros Hc w. unfold perform_raising. rewrite bind_perform, lift_run.
  exists [Ev c (answer c w) (signalled c w)]. split; [done|].
  destruct (answer c w) as [a|e] eqn:Ha; simpl.
  - left. by exists a.
  - right. apply Exists_cons_hd. apply Hc.
Qed.

Lemma rur_log msg : returns_unless_raised anything (log msg).
Proof.
  unfold log, datetime_now.
  eapply rur_bind; [by apply (rur_perform anything)|].
  intros t. by apply rur_perform.
Qed.

Lemma rur_run_git_command args cwd allow_fail :
  returns_unless_raised anything (run_git_command args cwd allow_fail).
Proof.
  intros w. unfold run_git_command. rewrite bind_perform.
  set (c := SubprocessRun ("git" :: args) cwd).
  destruct (answer c w) as [proc|e] eqn:Ha.
  - destruct (rur_bind anything anything
                (if negb (returncode proc =? 0) && negb allow_fail
                 then log (MsgGitFailed args (stderr proc)) else ret tt)
                (fun _ => ret proc)
                ltac:(destruct (_ && _); [apply rur_log | by apply rur_ret])
                ltac:(intros; by apply rur_ret) (after c w))
      as (evs & Ht & Hr).
    exists (evs ++ [Ev c (answer c w) (signalled c w)]).
    rewrite Ht, <- app_assoc. split; [done|].
    destruct Hr as [Hr|Hr]; [by left|]. right. apply Exists_app. by left.
  - assert (Hbad : call_raised (Ev c (answer c w) (signalled c w))) by by rewrite Ha.
    destruct e.
    6: { unfold log, datetime_now, sys_exit.
         rewrite bind_assoc, bind_perform, bind_perform. cbn [fst snd].
         eexists [_; _; _]. split; [reflexivity|].
         right. do 2 apply Exists_cons_tl. by apply Exists_cons_hd. }
    all: exists [Ev c (answer c w) (signalled c w)]; split; [done|];
      right; by apply Exists_cons_hd.
Qed.

Ltac rur_bind := eapply (rur_bind anything); [|intros ?].

Lemma rur_append_activity_line repo file :
  returns_unless_raised anything (append_activity_line repo file).
Proof.
  unfold append_activity_line, datetime_now.
  rur_bind; [by apply rur_lift|].
  rur_bind; [by apply rur_perform|].
  rur_bind; [by apply rur_perform|].
  rur_bind; [by apply rur_perform|].
  rur_bind; [destruct (negb _); [by apply rur_lift | by apply rur_ret]|].
  by apply rur_lift.
Qed.

Lemma rur_perform_commit repo file template push :
  returns_unless_raised anything (perform_commit repo file template push).
Proof.
  unfold perform_commit, datetime_now.
  rur_bind; [apply rur_run_git_command|].
  rur_bind; [by apply rur_perform|].
  rur_bind; [apply rur_run_git_command|].
  destruct (negb _).
  - destruct (contains _ _); apply rur_log.
  - rur_bind; [apply rur_log|].
    destruct push; [|by apply rur_ret].
    rur_bind; [apply rur_run_git_command|].
    destruct (negb _); apply rur_log.
Qed.

Lemma rur_write_state st : returns_unless_raised anything (write_state st).
Proof.
  intros w. destruct (write_state_run st w) as (Hok & evs & a & sg & Ht).
  exists (evs ++ [Ev (JsonDump state_file_path st) a sg]).
  rewrite Ht, <- app_assoc. split; [done|]. left. by exists tt.
Qed.

Lemma rur_bind_ret {A B} (Q : B -> Prop) (a : A) (k : A -> prog X B) :
  returns_unless_raised Q (k a) -> returns_unless_raised Q (bind (ret a) k).
Proof. intros H w. apply (H w). Qed.

Lemma rur_fire config v nxt m :
  state v = JObj m ->
  let times := consume (scheduled_times v) nxt in
  let st := JObj (<["scheduled_times" := JArr (JStr <$> times)]> m) in
  returns_unless_raised (fun v' => v' = mkVars st times) (fire config v nxt).
Proof.
  intros Hst times st. unfold fire. rewrite Hst. cbn [py_setitem lift].
  rur_bind; [apply rur_append_activity_line|].
  rur_bind; [apply rur_perform_commit|].
  apply rur_bind_ret.
  rur_bind; [apply rur_write_state|].
  rur_bind; [by apply rur_perform|].
  by apply rur_ret.
Qed.

Lemma failures_logged_app evs1 evs2 :
  failures_logged evs1 -> failures_logged evs2 -> failures_logged (evs2 ++ evs1).
Proof.
  intros H1 H2 args proc [H|H]%Exists_app; apply Exists_app; auto.
Qed.

Lemma failures_logged_other evs :
  Forall (fun e => forall args proc, ~ git_failed args proc e) evs ->
  failures_logged evs.
Proof.
  intros H args proc (e & Hin & He)%Exists_exists.
  rewrite Forall_forall in H. by destruct (H e Hin args proc).
Qed.

Lemma reports_ret {A} (a : A) : reports (X:=X) (ret a).
Proof. intros w. exists []. split; [done|]. by apply failures_logged_other. Qed.

Lemma reports_raise {A} e : reports (X:=X) (A:=A) (raise e).
Proof. intros w. exists []. split; [done|]. by apply failures_logged_other. Qed.

Lemma reports_lift {A} (r : result A) : reports (X:=X) (lift r).
Proof. destruct r; [apply reports_ret | apply reports_raise]. Qed.

Lemma reports_perform {T} (c : call T) :
  (forall a s args proc, ~ git_failed args proc (Ev c a s)) ->
  reports (X:=X) (perform c).
Proof.
  intros Hc w. rewrite perform_run. eexists [_]. split; [done|].
  apply failures_logged_other. by apply Forall_singleton.
Qed.

Lemma reports_bind {A B} (m : prog X A) (k : A -> prog X B) :
  reports m -> (forall a, reports (k a)) -> reports (bind m k).
Proof.
  intros Hm Hk w. unfold bind.
  destruct (Hm w) as (evs1 & Ht1 & H1).
  destruct (m w) as [[a|e|c] w1]; simpl in *; try by exists evs1.
  destruct (Hk a w1) as (evs2 & Ht2 & H2).
  exists (evs2 ++ evs1). rewrite Ht2, Ht1, <- app_assoc. split; [done|].
  by apply failures_logged_app.
Qed.

Lemma reports_try_except {A} (m : prog X A) (h : exn -> prog X A) :
  reports m -> (forall e, reports (h e)) -> reports (try_except m h).
Proof.
  intros Hm Hh w. unfold try_except.
  destruct (Hm w) as (evs1 & Ht1 & H1).
  destruct (m w) as [[a|e|c] w1]; simpl in *; try by exists evs1.
  destruct (Hh e w1) as (evs2 & Ht2 & H2).
  exists (evs2 ++ evs1). rewrite Ht2, Ht1, <- app_assoc. split; [done|].
  by apply failures_logged_app.
Qed.

(** [log msg] prints [msg] and runs no command. *)
Lemma log_prints msg (w : world X) :
  exists evs,
    trace (snd (log msg w)) = evs ++ trace w /\
    failures_logged evs /\ Exists (printed msg) evs.
Proof.
  destruct (log_run msg w) as (_ & t & a & sg & sg' & Ht).
  eexists. split; [exact Ht|]. split.
  - apply failures_logged_other.
    repeat (apply Forall_cons_2; [intros ? ?; simpl; tauto|]). apply Forall_nil_2.
  - by apply Exists_cons_hd.
Qed.

Lemma reports_log msg : reports (X:=X) (log msg).
Proof. intros w. destruct (log_prints msg w) as (evs & ? & ? & _). by exists evs. Qed.

(** A [git] command run by [run_git_command] and what follows it:
    when the command ends with a non-zero exit status, its message is
    printed by [run_git_command] itself unless [allow_fail] is set, and
    by what follows otherwise. *)
Lemma reports_git {B} args cwd allow_fail (k : completed -> prog X B) :
  (allow_fail = false ->
   forall proc, failure_message args proc = MsgGitFailed args (stderr proc)) ->
  (forall proc w, exists evs,
      trace (snd (k proc w)) = evs ++ trace w /\ failures_logged evs /\
      (allow_fail = true -> returncode proc <> 0 ->
       Exists (printed (failure_message args proc)) evs)) ->
  reports (bind (run_git_command args cwd allow_fail) k).
Proof.
  intros Hmsg Hk w. unfold run_git_command.
  rewrite bind_assoc, bind_perform.
  set (c := SubprocessRun ("git" :: args) cwd).
  set (w1 := after c w).
  destruct (answer c w) as [proc|e] eqn:Ha.
  - rewrite bind_assoc.
    assert (Hstep : exists evs0 w2,
               trace w2 = evs0 ++ trace w1 /\ failures_logged evs0 /\
               (allow_fail = false -> returncode proc <> 0 ->
                Exists (printed (failure_message args proc)) evs0) /\
               bind (if negb (returncode proc =? 0) && negb allow_fail
                     then log (MsgGitFailed args (stderr proc)) else ret tt)
                    (fun _ => bind (ret proc) k) w1 = k proc w2).
    { destruct (negb (returncode proc =? 0) && negb allow_fail) eqn:Hb.
      - apply andb_true_iff in Hb as [_ Hb]. apply negb_true_iff in Hb.
        destruct (log_prints (MsgGitFailed args (stderr proc)) w1)
          as (evs0 & Ht0 & Hfl0 & Hp0).
        destruct (log_run (MsgGitFailed args (stderr proc)) w1) as (Hok & _).
        exists evs0, (snd (log (MsgGitFailed args (stderr proc)) w1)).
        split; [done|]. split; [done|]. split.
        + intros _ _. by rewrite Hmsg.
        + unfold bind at 1.
          destruct (log _ w1) as [[[]|?|?] w2]; done.
      - exists [], w1. split; [done|]. split; [by apply failures_logged_other|].
        split; [|done]. intros -> Hrc.
        rewrite andb_true_r in Hb. apply negb_false_iff, Z.eqb_eq in Hb. done. }
    destruct Hstep as (evs0 & w2 & Ht0 & Hfl0 & Hp0 & ->).
    destruct (Hk proc w2) as (evs & Ht & Hfl & Hp).
    exists (evs ++ evs0 ++ [Ev c (Returned proc) (signalled c w)]).
    split; [rewrite Ht, Ht0; subst w1; rewrite trace_after, Ha;
            by rewrite <- !app_assoc|].
    intros args' proc' Hex.
    apply Exists_app in Hex as [Hex|Hex]; [apply Exists_app; left; by apply Hfl|].
    apply Exists_app in Hex as [Hex|Hex];
      [apply Exists_app; right; apply Exists_app; left; by apply Hfl0|].
    apply Exists_cons in Hex as [Hex|Hex]; [|by apply Exists_nil in Hex].
    destruct Hex as ([= <-] & <- & Hrc).
    destruct allow_fail.
    + apply Exists_app. left. by apply Hp.
    + apply Exists_app. right. apply Exists_app. left. by apply Hp0.
  - assert (Hquiet : Forall (fun e => forall args proc, ~ git_failed args proc e)
                              [Ev c (Raised e) (signalled c w)])
      by (apply Forall_singleton; intros ? ?; simpl; tauto).
    assert (Htr : trace w1 = [Ev c (Raised e) (signalled c w)] ++ trace w)
      by (subst w1; by rewrite trace_after, Ha).
    destruct e; cbv beta iota;
      try (rewrite bind_raise; eexists; split; [exact Htr|];
           by apply failures_logged_other).
    rewrite bind_assoc. unfold bind at 1.
    destruct (log_prints MsgGitNotFound w1) as (evs0 & Ht0 & Hfl0 & _).
    destruct (log MsgGitNotFound w1) as [[[]|?|?] w2]; simpl in *;
      (exists (evs0 ++ [Ev c (Raised FileNotFoundError) (signalled c w)]);
       split; [by rewrite Ht0, Htr, <- app_assoc|];
       apply failures_logged_app; [by apply failures_logged_other | done]).
Qed.

Lemma reports_run_git_command args cwd allow_fail :
  (forall proc, failure_message args proc = MsgGitFailed args (stderr proc)) ->
  allow_fail = false ->
  reports (run_git_command args cwd allow_fail).
Proof.
  intros Hmsg -> w.
  destruct (reports_git args cwd false ret ltac:(done)
              ltac:(intros proc w'; exists []; split; [done|];
                    split; [by apply failures_logged_other | done]) w)
    as (evs & Ht & Hfl).
  exists evs. split; [|done]. rewrite <- Ht. f_equal.
  unfold bind. by destruct (run_git_command _ _ _ w) as [[?|?|?] ?].
Qed.

Lemma failure_message_commit rest proc :
  failure_message ("commit" :: rest) proc
  = if contains "nothing to commit" (lower (stderr proc))
    then MsgNoChanges else MsgCommitFailed.
Proof. reflexivity. Qed.

Lemma reports_append_activity_line repo file :
  reports (append_activity_line repo file).
Proof.
  unfold append_activity_line, perform_raising, datetime_now.
  repeat first
    [ apply reports_bind; [|intros ?]
    | apply reports_lift
    | apply reports_ret
    | (apply reports_perform; intros ? ? ? ?; simpl; tauto)
    | match goal with |- reports (if ?b then _ else _) => destruct b end ].
Qed.

Lemma reports_perform_commit repo file template push :
  reports (perform_commit repo file template push).
Proof.
  unfold perform_commit, datetime_now.
  apply reports_bind; [by apply reports_run_git_command|intros _].
  apply reports_bind; [(apply reports_perform; intros ? ? ? ?; simpl; tauto)|intros now].
  apply reports_git; [done|]. intros committed w.
  destruct (negb (returncode committed =? 0)) eqn:Hrc.
  - destruct (contains "nothing to commit" (lower (stderr committed))) eqn:Hc.
    + destruct (log_prints MsgNoChanges w) as (evs & Ht & Hfl & Hp). exists evs.
      split; [done|]. split; [done|]. intros _ _.
      by rewrite failure_message_commit, Hc.
    + destruct (log_prints MsgCommitFailed w) as (evs & Ht & Hfl & Hp). exists evs.
      split; [done|]. split; [done|]. intros _ _.
      by rewrite failure_message_commit, Hc.
  - apply negb_false_iff, Z.eqb_eq in Hrc.
    assert (Hrest : reports (log MsgCommitCreated;;
                             if push
                             then let* pushed := run_git_command ["push"] repo true in
                                  if negb (returncode pushed =? 0)
                                  then log (MsgPushFailed (stderr pushed))
                                  else log MsgPushed
                             else ret tt)).
    { apply reports_bind; [apply reports_log|intros _].
      destruct push; [|apply reports_ret].
      apply reports_git; [done|]. intros pushed w'.
      destruct (log_prints (if negb (returncode pushed =? 0)
                            then MsgPushFailed (stderr pushed) else MsgPushed) w')
        as (evs & Ht & Hfl & Hp).
      exists evs. destruct (negb (returncode pushed =? 0)) eqn:Hp'.
      - split; [done|]. split; [done|]. by intros _ _.
      - split; [done|]. split; [done|]. intros _ Hne.
        apply negb_false_iff, Z.eqb_eq in Hp'. done. }
    destruct (Hrest w) as (evs & Ht & Hfl). exists evs.
    split; [done|]. split; [done|]. by intros _ ?.
Qed.

Lemma reports_write_state st : reports (write_state st).
Proof.
  unfold write_state, perform_raising.
  apply reports_try_except; [|intros; apply reports_log].
  apply reports_bind; [(apply reports_perform; intros ? ? ? ?; simpl; tauto) | intros; apply reports_lift].
Qed.

Lemma reports_fire config v nxt : reports (fire config v nxt).
Proof.
  unfold fire.
  apply reports_bind; [apply reports_append_activity_line|intros _].
  apply reports_bind; [apply reports_perform_commit|intros _].
  apply reports_bind; [apply reports_lift|intros st].
  apply reports_bind; [apply reports_write_state|intros _].
  apply reports_bind; [(apply reports_perform; intros ? ? ? ?; simpl; tauto) | intros; apply reports_ret].
Qed.

Lemma fire_dumps config v nxt m (w w' : world X) v' :
  state v = JObj m ->
  fire config v nxt w = (Ok v', w') ->
  exists a sg,
    Ev (JsonDump state_file_path
          (JObj (<["scheduled_times" := JArr (JStr <$> consume (scheduled_times v) nxt)]> m)))
       a sg ∈ events_since w w'.
Proof.
  intros Hst. unfold fire. rewrite Hst. cbn [py_setitem lift].
  set (st := JObj _).
  unfold bind at 1.
  destruct (append_activity_line_emits (fun _ => True) ltac:(done)
              (repo_path config) (commit_file config) w) as (evs1 & Ht1 & _).
  destruct (append_activity_line _ _ w) as [[[]|e|c] w1]; try done.
  unfold bind at 1.
  destruct (perform_commit_emits (fun _ => True) ltac:(done)
              (repo_path config) (commit_file config)
              (commit_message_template config) (git_push config) w1)
    as (evs2 & Ht2 & _).
  destruct (perform_commit _ _ _ _ w1) as [[[]|e|c] w2]; try done.
  rewrite bind_ret. unfold bind at 1.
  destruct (write_state_run st w2) as (_ & evs3 & a & sg & Ht3).
  destruct (write_state st w2) as [[[]|e|c] w3]; try done.
  rewrite bind_perform. simpl in *. intros [= <- <-].
  exists a, sg.
  rewrite (events_since_app w _
             (Ev (TimeSleep PAUSE) (answer (TimeSleep PAUSE) w3)
                 (signalled (TimeSleep PAUSE) w3)
                :: evs3 ++ Ev (JsonDump state_file_path st) a sg :: evs2 ++ evs1)).
  - set_solver.
  - simpl. rewrite Ht3, Ht2, Ht1. f_equal.
    by rewrite <- app_assoc, <- app_comm_cons, <- app_assoc.
Qed.

(** What is left after [consume]: a sublist without the text of [nxt],
    and the greatest one. *)
Lemma consume_greatest l nxt k :
  k `sublist_of` l -> isoformat nxt ∉ k -> k `sublist_of` consume l nxt.
Proof.
  unfold consume. induction 1 as [|x k l _ IH|x k l _ IH]; intros Hk.
  - done.
  - apply not_elem_of_cons in Hk as [Hx Hk].
    rewrite filter_cons_True by done. constructor. by apply IH.
  - rewrite filter_cons. destruct (decide (x <> isoformat nxt)).
    + constructor. by apply IH.
    + by apply IH.
Qed.

Lemma consume_single l nxt before rest :
  NoDup l -> l = before ++ isoformat nxt :: rest -> consume l nxt = before ++ rest.
Proof.
  intros Hnd ->. unfold consume.
  apply NoDup_app in Hnd as (_ & Hcross & Hrest).
  apply NoDup_cons in Hrest as [Hnot _].
  assert (Hkeep : forall k : list string,
             isoformat nxt ∉ k -> filter (fun t => t <> isoformat nxt) k = k).
  { induction k as [|x k IH]; [done|].
    intros [Hx Hk]%not_elem_of_cons.
    rewrite filter_cons_True by done. by rewrite IH. }
  rewrite filter_app, filter_cons_False by (intros ?; done).
  rewrite !Hkeep; [done|done|].
  intros Hb. apply (Hcross _ Hb). by left.
Qed.

(** The variables a commit returns. *)
Lemma fire_returned config v nxt m (w w' : world X) v' :
  state v = JObj m ->
  fire config v nxt w = (Ok v', w') ->
  v' = mkVars (JObj (<["scheduled_times" := JArr (JStr <$> consume (scheduled_times v) nxt)]> m))
              (consume (scheduled_times v) nxt).
Proof.
  intros Hst. unfold fire. rewrite Hst. cbn [py_setitem lift].
  intros H.
  apply bind_ok_inv in H as ([] & w1 & _ & H).
  apply bind_ok_inv in H as ([] & w2 & _ & H).
  rewrite bind_ret in H.
  apply bind_ok_inv in H as ([] & w3 & _ & H).
  apply bind_ok_inv in H as ([] & w4 & _ & H).
  by injection H as <- _.
Qed.

(** C5 (amended).  A commit that returns leaves as pending times the
    list it found without the entries equal to the ISO text of the
    fired time: no such entry is left, the list is a sublist of the old
    one, and every sublist of the old one without that text is a sublist
    of it, so that every other entry stays, as often as it occurs and in
    its place.  When the old list has no duplicates and holds that text,
    exactly that one entry is deleted.  The state keeps its other keys,
    holds the new list under ["scheduled_times"] and is passed to
    [json.dump]. *)
Theorem consume_removes_by_value config v nxt m (w w' : world X) v' :
  state v = JObj m ->
  fire config v nxt w = (Ok v', w') ->
  let l := scheduled_times v in
  let l' := scheduled_times v' in
  (isoformat nxt ∉ l') /\
  (l' `sublist_of` l) /\
  (forall k, k `sublist_of` l -> isoformat nxt ∉ k -> k `sublist_of` l') /\
  (forall t, t ∈ l' <-> t ∈ l /\ t <> isoformat nxt) /\
  (NoDup l -> forall before rest,
     l = before ++ isoformat nxt :: rest -> l' = before ++ rest) /\
  (exists m' a sg,
     state v' = JObj m' /\
     m' !! "scheduled_times" = Some (JArr (JStr <$> l')) /\
     (forall k, k <> "scheduled_times" -> m' !! k = m !! k) /\
     Ev (JsonDump state_file_path (JObj m')) a sg ∈ events_since w w').
Proof.
  intros Hst Hfire l l'.
  pose proof (fire_returned _ _ _ _ _ _ _ Hst Hfire) as Hv.
  destruct (fire_dumps _ _ _ _ _ _ _ Hst Hfire) as (a & sg & Hdump).
  subst l l'. rewrite Hv. cbn [scheduled_times state].
  split; [|split; [|split; [|split; [|split]]]].
  - unfold consume. intros [? _]%list_elem_of_filter. done.
  - apply sublist_filter.
  - intros k. apply consume_greatest.
  - intros t. unfold consume. rewrite list_elem_of_filter. tauto.
  - intros Hnd before rest. by apply consume_single.
  - eexists _, a, sg. split; [done|]. split; [apply lookup_insert_eq|].
    split; [|done]. intros k Hk. by rewrite lookup_insert_ne.
Qed.

(** C2 (amended).  When appending the activity line raises no
    exception and [git] can be started, the commit step is not fatal,
    whatever the exit statuses of [git add], [git commit] and [git push]
    ("nothing to commit" among them): every command that ended with a
    non-zero exit status has its message printed, the step returns, the
    consumed timestamp is removed from the pending times, and the
    updated state is passed to [json.dump]. *)
Theorem fire_survives_failed_commands config v nxt m (w : world X) :
  state v = JObj m ->
  let r := fire config v nxt w in
  let new := events_since w (snd r) in
  Forall (fun e => ~ call_raised e) new ->
  let times := consume (scheduled_times v) nxt in
  let st := JObj (<["scheduled_times" := JArr (JStr <$> times)]> m) in
  failures_logged new /\
  fst r = Ok (mkVars st times) /\
  exists a sg, Ev (JsonDump state_file_path st) a sg ∈ new.
Proof.
  intros Hst r new Hgood times st.
  split.
  { destruct (reports_fire config v nxt w) as (evs & Ht & Hfl).
    subst new r. by rewrite (events_since_app w _ evs Ht). }
  destruct (rur_fire config v nxt m Hst w) as (evs & Ht & Hr).
  subst new r. destruct (fire config v nxt w) as [o w'] eqn:Hfire.
  cbn [fst snd] in *.
  destruct Hr as [(v' & -> & ->)|Hbad].
  - split; [done|]. by eapply fire_dumps.
  - exfalso. rewrite (events_since_app w _ evs Ht) in Hgood. apply Exists_exists in Hbad as (e & Hin & Hbad).
    rewrite Forall_forall in Hgood. by apply (Hgood e).
Qed.
End Consumption.

(** ** The properties on concrete runs *)

Import Sim Scenario.

Ltac by_computation := apply (bool_decide_unpack _); vm_compute; exact I.

(** *** The generator *)

(** At 09:00, with a window from 10:00 to 22:00 and one to three
    commits, the generator returns three timestamps. *)
Lemma generator_bounds_witness :
  let w := boot (quiet_day (at_time 9 0 0) 1 3 [7200; 60; 3600]) in
  let r := generate_schedule_for_today 10 22 1 3 w in
  let now := answer DatetimeNow w in
  valid_window 10 22 1 3 /\
  Forall lawful (events_since w (snd r)) /\
  exists day_start day_end times,
    replace_hour now 10 = Some day_start /\
    replace_hour now 22 = Some day_end /\
    fst r = Ok times /\
    (forall t, t ∈ times ->
       exists dt, t = isoformat dt /\ fromisoformat t = Some dt /\
                  le day_start dt /\ lt dt day_end /\ lt now dt) /\
    Z.of_nat (length times) <= 3 /\
    (lt now day_start -> (1 <= length times)%nat).
Proof.
  cbv zeta.
  assert (Hw : valid_window 10 22 1 3) by (unfold valid_window; lia).
  assert (Hl : Forall lawful
                 (events_since (boot (quiet_day (at_time 9 0 0) 1 3 [7200; 60; 3600]))
                    (snd (generate_schedule_for_today 10 22 1 3
                            (boot (quiet_day (at_time 9 0 0) 1 3 [7200; 60; 3600]))))))
    by by_computation.
  exact (conj Hw (conj Hl (generator_bounds 10 22 1 3 _ Hw Hl))).
Defined.

(** C1, as stated, fails: at 15:00, seven hours before the end of a
    window from 10:00 to 22:00, with exactly one commit asked for and the
    offset 0 drawn, the generator returns no timestamp. *)
Lemma generator_may_return_nothing :
  let w := boot (quiet_day (at_time 15 0 0) 1 1 [0]) in
  let r := generate_schedule_for_today 10 22 1 1 w in
  valid_window 10 22 1 1 /\
  Forall lawful (events_since w (snd r)) /\
  answer DatetimeNow w = at_time 15 0 0 /\
  replace_hour (at_time 15 0 0) 22 = Some (at_time 22 0 0) /\
  sub_us (at_time 22 0 0) (at_time 15 0 0) = 7 * 3600 * US_PER_SECOND /\
  fst r = Ok [].
Proof.
  cbv zeta. split; [unfold valid_window; lia|].
  split; [by_computation|]. repeat split; vm_compute; reflexivity.
Qed.

Lemma schedule_sorted_distinct_witness :
  let w := boot (quiet_day (at_time 9 0 0) 1 3 [7200; 60; 3600]) in
  let r := generate_schedule_for_today 10 22 1 3 w in
  valid_window 10 22 1 3 /\
  Forall lawful (events_since w (snd r)) /\
  exists dts,
    fst r = Ok (isoformat <$> dts) /\
    Forall (fun dt => fromisoformat (isoformat dt) = Some dt) dts /\
    StronglySorted lt dts /\
    NoDup (isoformat <$> dts).
Proof.
  cbv zeta.
  assert (Hw : valid_window 10 22 1 3) by (unfold valid_window; lia).
  assert (Hl : Forall lawful
                 (events_since (boot (quiet_day (at_time 9 0 0) 1 3 [7200; 60; 3600]))
                    (snd (generate_schedule_for_today 10 22 1 3
                            (boot (quiet_day (at_time 9 0 0) 1 3 [7200; 60; 3600]))))))
    by by_computation.
  exact (conj Hw (conj Hl (schedule_sorted_distinct 10 22 1 3 _ Hw Hl))).
Defined.

(** *** The next due timestamp *)

Lemma next_due_is_first_future_witness :
  let l := ["2024-01-01T08:00:00"; "soon"; "2024-01-01T12:00:00";
            "2024-01-01T15:00:00"] in
  let now := at_time 11 0 0 in
  let w := running (quiet_day now 1 1 []) in
  let r := next_scheduled_time l w in
  Forall (reads now) (events_since w (snd r)) /\
  exists res,
    fst r = Ok res /\
    match res with
    | Some dt =>
        exists before s rest,
          l = before ++ s :: rest /\ fromisoformat s = Some dt /\ lt now dt /\
          Forall (not_due now) before /\
          (ascending l ->
           forall s' dt', s' ∈ l -> fromisoformat s' = Some dt' -> lt now dt' ->
                          le dt dt')
    | None => Forall (not_due now) l
    end.
Proof.
  cbv zeta.
  assert (Hr : Forall (reads (at_time 11 0 0))
                 (events_since (running (quiet_day (at_time 11 0 0) 1 1 []))
                    (snd (next_scheduled_time
                            ["2024-01-01T08:00:00"; "soon"; "2024-01-01T12:00:00";
                             "2024-01-01T15:00:00"]
                            (running (quiet_day (at_time 11 0 0) 1 1 []))))))
    by by_computation.
  exact (conj Hr (next_due_is_first_future _ _ _ Hr)).
Defined.

(** C6, as stated, fails on a list that is not in ascending order: at
    11:00 the entry of 15:00, which comes first, is returned, although the
    entry of 12:00 is in the future and earlier. *)
Lemma next_due_is_not_the_earliest :
  let l := ["2024-01-01T15:00:00"; "2024-01-01T12:00:00"] in
  let w := running (quiet_day (at_time 11 0 0) 1 1 []) in
  fst (next_scheduled_time l w) = Ok (Some (at_time 15 0 0)) /\
  Forall (reads (at_time 11 0 0)) (events_since w (snd (next_scheduled_time l w))) /\
  fromisoformat "2024-01-01T12:00:00" = Some (at_time 12 0 0) /\
  lt (at_time 11 0 0) (at_time 12 0 0) /\
  lt (at_time 12 0 0) (at_time 15 0 0).
Proof.
  cbv zeta. split; [vm_compute; reflexivity|].
  split; [by_computation|]. repeat split; vm_compute; reflexivity.
Qed.

(** *** The state file *)

(** C3, as stated, fails: the record that start-up writes has the keys
    ["date"] and ["scheduled_times"], and no key ["pending_times"]. *)
Lemma state_has_no_pending_times_key :
  let w := boot (quiet_day (at_time 9 0 0) 1 1 [0]) in
  let r := startup (farm_config 1 1) w in
  let written := state_file (ext (snd r)) in
  stored_keys written = ["scheduled_times"; "date"] /\
  stored_times written = Some [JStr "2024-01-01T10:00:00"] /\
  match written with
  | Some (Returned st) =>
      py_get st "pending_times" = Returned JNull /\
      py_get st "date" = Returned (JStr "2024-01-01")
  | _ => False
  end.
Proof. cbv zeta. vm_compute. repeat split; reflexivity. Qed.

(** The loop wakes at 09:00 of 2024-01-01 with a state of the day
    before that still holds a pending time of 21:00: it draws two times,
    10:01 and 12:00, and goes on with these alone, under the date
    2024-01-01.  A process that starts at 09:00 with such a state file
    draws 10:00 and stores it under the same date. *)
Lemma day_rollover_witness :
  let config := farm_config 1 2 in
  let v := mkVars (stored_state "2023-12-31" ["2023-12-31T21:00:00"])
                  ["2023-12-31T21:00:00"] in
  let w := running (quiet_day (at_time 9 0 0) 1 2 [60; 7200]) in
  let now := answer DatetimeNow w in
  let w1 := after DatetimeNow w in
  let w0 := running (resumed_day (at_time 9 0 0)
                       (stored_state "2023-12-31" ["2023-12-31T21:00:00"])) in
  stale now v /\
  valid_window 10 22 1 2 /\
  Forall lawful (events_since w1 (snd (roll_over config now w1))) /\
  fst (refresh_schedule config w1) = Ok ["2024-01-01T10:01:00"; "2024-01-01T12:00:00"] /\
  strftime_date now = "2024-01-01" /\
  ((exists times st' w2,
       fst (refresh_schedule config w1) = Ok times /\
       Forall (ahead_today (answer DatetimeNow w1) 10 22) times /\
       roll_over config now w1 = (Ok (mkVars st' times), w2) /\
       fresh_record st' (strftime_date now) times /\
       (exists a sg, Ev (JsonDump state_file_path st') a sg ∈ events_since w1 w2) /\
       iteration config v w = proceed config now (mkVars st' times) w2 /\
       forall v0, stale now v0 -> iteration config v0 w = iteration config v w) /\
   (forall (w0 w3 : world sim) st d,
       read_state w0 = (Ok st, w3) ->
       py_get st "date" = Returned d ->
       differs_from d (strftime_date (answer DatetimeNow w3)) = true ->
       let w4 := after DatetimeNow w3 in
       Forall lawful (events_since w4 (snd (reschedule config w4))) ->
       exists times st' w5,
         fst (refresh_schedule config w4) = Ok times /\
         Forall (ahead_today (answer DatetimeNow w4) 10 22) times /\
         initialize config w0 = (Ok (mkVars st' times), w5) /\
         fresh_record st'
           (strftime_date (answer DatetimeNow (snd (refresh_schedule config w4)))) times /\
         exists a sg, Ev (JsonDump state_file_path st') a sg ∈ events_since w4 w5)) /\
  (exists st' w5,
      initialize config w0 = (Ok (mkVars st' ["2024-01-01T10:00:00"]), w5) /\
      fresh_record st' "2024-01-01" ["2024-01-01T10:00:00"] /\
      exists a sg, Ev (JsonDump state_file_path st') a sg
                   ∈ events_since (after DatetimeNow (snd (read_state w0))) w5).
Proof.
  cbv zeta.
  set (config := farm_config 1 2).
  set (stored := stored_state "2023-12-31" ["2023-12-31T21:00:00"]).
  set (v := mkVars stored ["2023-12-31T21:00:00"]).
  set (w := running (quiet_day (at_time 9 0 0) 1 2 [60; 7200])).
  set (w0 := running (resumed_day (at_time 9 0 0) stored)).
  assert (Hs : stale (answer DatetimeNow w) v).
  { exists (JStr "2023-12-31"). split; vm_compute; reflexivity. }
  assert (Hw : valid_window (work_start_hour config) (work_end_hour config)
                 (min_commits config) (max_commits config))
    by (unfold valid_window; simpl; lia).
  assert (Hl : Forall lawful
                 (events_since (after DatetimeNow w)
                    (snd (roll_over config (answer DatetimeNow w) (after DatetimeNow w)))))
    by by_computation.
  pose proof (day_rollover config v w Hs Hw Hl) as H.
  split; [exact Hs|]. split; [exact Hw|]. split; [exact Hl|].
  split; [vm_compute; reflexivity|]. split; [vm_compute; reflexivity|].
  split; [exact H|].
  destruct H as [_ H].
  assert (Hread : read_state w0 = (Ok stored, snd (read_state w0)))
    by (vm_compute; reflexivity).
  assert (Hd : py_get stored "date" = Returned (JStr "2023-12-31"))
    by (vm_compute; reflexivity).
  assert (Hdiff : differs_from (JStr "2023-12-31")
                    (strftime_date (answer DatetimeNow (snd (read_state w0)))) = true)
    by (vm_compute; reflexivity).
  assert (Hl' : Forall lawful
                  (events_since (after DatetimeNow (snd (read_state w0)))
                     (snd (reschedule config (after DatetimeNow (snd (read_state w0)))))))
    by by_computation.
  destruct (H w0 _ stored _ Hread Hd Hdiff Hl')
    as (times & st' & w5 & Hg & _ & Hinit & Hrec & a & sg & Hdump).
  assert (Htimes : times = ["2024-01-01T10:00:00"]).
  { assert (Hg' : fst (refresh_schedule config (after DatetimeNow (snd (read_state w0))))
                  = Ok ["2024-01-01T10:00:00"]) by (vm_compute; reflexivity).
    rewrite Hg' in Hg. by injection Hg. }
  subst times.
  assert (Hdate : strftime_date
                    (answer DatetimeNow
                       (snd (refresh_schedule config (after DatetimeNow (snd (read_state w0))))))
                  = "2024-01-01") by (vm_compute; reflexivity).
  rewrite Hdate in Hrec.
  exists st', w5. split; [exact Hinit|]. split; [exact Hrec|].
  by exists a, sg.
Defined.


(** A state file of today with an entry that is no timestamp. *)
Lemma resume_purge_is_fatal_witness :
  let items := [JStr "2024-01-01T12:00:00"; JStr "noon"] in
  let m : gmap string json :=
    <["date" := JStr "2024-01-01"]> (<["scheduled_times" := JArr items]> ∅) in
  let config := farm_config 1 1 in
  let w := boot (resumed_day (at_time 9 0 0) (JObj m)) in
  let w0 := snd (prelude w) in
  let w2 := snd (read_state (mkWorld (ext w0) true false (trace w0))) in
  prelude w = (Ok config, w0) /\
  read_state (mkWorld (ext w0) true false (trace w0)) = (Ok (JObj m), w2) /\
  m !! "date" = Some (JStr (strftime_date (answer DatetimeNow w2))) /\
  m !! "scheduled_times" = Some (JArr items) /\
  JStr "noon" ∈ items /\
  fromisoformat "noon" = None /\
  exists e w3,
    startup config w0 = (Raise e, w3) /\
    fst (script 1 false w) = Exit 1 /\
    exit_status (fst (script 1 false w)) = 1 /\
    exists t a sg, head (trace (snd (script 1 false w)))
                   = Some (Ev (Print t (MsgFatal e)) a sg).
Proof.
  cbv zeta.
  set (items := [JStr "2024-01-01T12:00:00"; JStr "noon"]).
  set (m := <["date" := JStr "2024-01-01"]> (<["scheduled_times" := JArr items]> ∅)).
  set (w := boot (resumed_day (at_time 9 0 0) (JObj m))).
  set (w0 := snd (prelude w)).
  set (w2 := snd (read_state (mkWorld (ext w0) true false (trace w0)))).
  assert (H1 : prelude w = (Ok (farm_config 1 1), w0)) by (vm_compute; reflexivity).
  assert (H2 : read_state (mkWorld (ext w0) true false (trace w0)) = (Ok (JObj m), w2))
    by (vm_compute; reflexivity).
  assert (H3 : m !! "date" = Some (JStr (strftime_date (answer DatetimeNow w2))))
    by (vm_compute; reflexivity).
  assert (H4 : m !! "scheduled_times" = Some (JArr items)) by (vm_compute; reflexivity).
  assert (H5 : JStr "noon" ∈ items) by (apply list_elem_of_further, list_elem_of_here).
  assert (H6 : fromisoformat "noon" = None) by (vm_compute; reflexivity).
  exact (conj H1 (conj H2 (conj H3 (conj H4 (conj H5 (conj H6
           (resume_purge_is_fatal 1 _ w w0 w2 m items "noon" H1 H2 H3 H4 H5 H6))))))).
Defined.

(** *** The commit step *)

(** [git commit] fails (exit status 1): the failure is printed, the
    commit step returns, the timestamp of 10:00 is removed and the state
    is written. *)
Lemma fire_survives_failed_commands_witness :
  let config := farm_config 1 1 in
  let pending := ["2024-01-01T10:00:00"; "2024-01-01T11:00:00"] in
  let m : gmap string json :=
    <["date" := JStr "2024-01-01"]>
      (<["scheduled_times" := JArr (JStr <$> pending)]> ∅) in
  let v := mkVars (JObj m) pending in
  let nxt := at_time 10 0 0 in
  let w := running (failing_git (at_time 10 0 0) (JObj m)) in
  let r := fire config v nxt w in
  let new := events_since w (snd r) in
  let times := consume (scheduled_times v) nxt in
  let st := JObj (<["scheduled_times" := JArr (JStr <$> times)]> m) in
  state v = JObj m /\
  Forall (fun e => ~ call_raised e) new /\
  times = ["2024-01-01T11:00:00"] /\
  failures_logged new /\
  fst r = Ok (mkVars st times) /\
  exists a sg, Ev (JsonDump state_file_path st) a sg ∈ new.
Proof.
  cbv zeta.
  set (pending := ["2024-01-01T10:00:00"; "2024-01-01T11:00:00"]).
  set (m := <["date" := JStr "2024-01-01"]>
              (<["scheduled_times" := JArr (JStr <$> pending)]> ∅)).
  set (w := running (failing_git (at_time 10 0 0) (JObj m))).
  assert (H1 : state (mkVars (JObj m) pending) = JObj m) by reflexivity.
  assert (H2 : Forall (fun e => ~ call_raised e)
                 (events_since w (snd (fire (farm_config 1 1) (mkVars (JObj m) pending)
                                          (at_time 10 0 0) w))))
    by by_computation.
  assert (H3 : consume pending (at_time 10 0 0) = ["2024-01-01T11:00:00"])
    by (vm_compute; reflexivity).
  exact (conj H1 (conj H2 (conj H3
           (fire_survives_failed_commands (farm_config 1 1) (mkVars (JObj m) pending)
              (at_time 10 0 0) m w H1 H2)))).
Defined.

(** C2, as stated, fails: in a repository where nothing can be written,
    appending the activity line of the commit of 10:00 raises [OSError];
    the loop does not go on: the process logs a fatal error and exits
    with status 1, and the state file still holds the timestamp. *)
Lemma failed_append_ends_the_loop :
  let w := boot (read_only_repo (at_time 9 59 30)) in
  let r := script 2 false w in
  fst r = Exit 1 /\
  exit_status (fst r) = 1 /\
  Exists call_raised (trace (snd r)) /\
  existsb appended (trace (snd r)) = false /\
  stored_times (state_file (ext (snd r))) = Some [JStr "2024-01-01T10:00:00"] /\
  match head (trace (snd r)) with
  | Some (Ev (Print _ (MsgFatal OSError)) _ _) => True
  | _ => False
  end.
Proof.
  cbv zeta. split; [vm_compute; reflexivity|]. split; [vm_compute; reflexivity|].
  split; [by_computation|]. split; [vm_compute; reflexivity|].
  split; [vm_compute; reflexivity|]. vm_compute. exact I.
Qed.

(** The commit of 10:00 with a list that holds 11:00 twice: both copies
    of 11:00 stay, the entry of 10:00 goes, and the state written keeps
    its date. *)
Lemma consume_removes_by_value_witness :
  let config := farm_config 1 1 in
  let pending := ["2024-01-01T10:00:00"; "2024-01-01T11:00:00"; "2024-01-01T11:00:00"] in
  let m : gmap string json :=
    <["date" := JStr "2024-01-01"]>
      (<["scheduled_times" := JArr (JStr <$> pending)]> ∅) in
  let v := mkVars (JObj m) pending in
  let nxt := at_time 10 0 0 in
  let w := running (resumed_day (at_time 10 0 0) (JObj m)) in
  let left := ["2024-01-01T11:00:00"; "2024-01-01T11:00:00"] in
  let v' := mkVars (JObj (<["scheduled_times" := JArr (JStr <$> left)]> m)) left in
  let w' := snd (fire config v nxt w) in
  let l := scheduled_times v in
  let l' := scheduled_times v' in
  state v = JObj m /\
  fire config v nxt w = (Ok v', w') /\
  (isoformat nxt ∉ l') /\
  (l' `sublist_of` l) /\
  (forall k, k `sublist_of` l -> isoformat nxt ∉ k -> k `sublist_of` l') /\
  (forall t, t ∈ l' <-> t ∈ l /\ t <> isoformat nxt) /\
  (NoDup l -> forall before rest,
     l = before ++ isoformat nxt :: rest -> l' = before ++ rest) /\
  (exists m' a sg,
     state v' = JObj m' /\
     m' !! "scheduled_times" = Some (JArr (JStr <$> l')) /\
     (forall k, k <> "scheduled_times" -> m' !! k = m !! k) /\
     Ev (JsonDump state_file_path (JObj m')) a sg ∈ events_since w w').
Proof.
  cbv zeta.
  set (pending := ["2024-01-01T10:00:00"; "2024-01-01T11:00:00"; "2024-01-01T11:00:00"]).
  set (m := <["date" := JStr "2024-01-01"]>
              (<["scheduled_times" := JArr (JStr <$> pending)]> ∅)).
  set (v := mkVars (JObj m) pending).
  set (w := running (resumed_day (at_time 10 0 0) (JObj m))).
  set (left := ["2024-01-01T11:00:00"; "2024-01-01T11:00:00"]).
  set (v' := mkVars (JObj (<["scheduled_times" := JArr (JStr <$> left)]> m)) left).
  assert (H1 : state v = JObj m) by reflexivity.
  assert (H2 : fire (farm_config 1 1) v (at_time 10 0 0) w
               = (Ok v', snd (fire (farm_config 1 1) v (at_time 10 0 0) w))).
  { assert (Hf : fst (fire (farm_config 1 1) v (at_time 10 0 0) w) = Ok v')
      by (vm_compute; reflexivity).
    rewrite <- Hf. apply surjective_pairing. }
  exact (conj H1 (conj H2
           (consume_removes_by_value (farm_config 1 1) v (at_time 10 0 0) m w _ v' H1 H2))).
Defined.

(** C5, as stated, fails.  A stored entry spelt with a space is a valid
    timestamp: the loop sleeps until 10:00 and commits, and the entry is
    still pending and still in the state file afterwards.  And of an
    entry stored twice, both copies are removed. *)
Lemma consumption_is_by_iso_text :
  let config := farm_config 1 1 in
  let w := boot (resumed_day (at_time 9 59 40)
                   (stored_state "2024-01-01" ["2024-01-01 10:00:00"])) in
  let r := (let* v := startup config in iteration config v) w in
  match fst r with
  | Ok (Some (Next v')) => scheduled_times v' = ["2024-01-01 10:00:00"]
  | _ => False
  end /\
  existsb appended (trace (snd r)) = true /\
  stored_times (state_file (ext (snd r))) = Some [JStr "2024-01-01 10:00:00"] /\
  fromisoformat "2024-01-01 10:00:00" = Some (at_time 10 0 0) /\
  consume ["2024-01-01T10:00:00"; "2024-01-01T10:00:00"; "2024-01-01T11:00:00"]
          (at_time 10 0 0)
  = ["2024-01-01T11:00:00"].
Proof.
  cbv zeta. split; [vm_compute; reflexivity|].
  repeat split; vm_compute; reflexivity.
Qed.

(** *** Cancellation *)

(** A commit is due at 10:02; at 10:00 the loop starts to sleep, and a
    SIGTERM arrives during the second step: the iteration stops there,
    after two sleeps of 30 seconds and without a commit. *)
Lemma sleeps_are_bounded_and_cancellable_witness :
  let config := farm_config 1 1 in
  let stored := stored_state "2024-01-01" ["2024-01-01T10:02:00"] in
  let v := mkVars stored ["2024-01-01T10:02:00"] in
  let w := running (interrupted (at_time 10 0 0) stored) in
  handler_installed w = true /\
  fst (iteration config v w) = Ok (Some Stop) /\
  existsb appended (trace (snd (iteration config v w))) = false /\
  head (trace (snd (iteration config v w)))
  = Some (Ev (TimeSleep SLEEP_EVENT_CAP) tt true) /\
  ((let r := iteration config v w in
    let new := events_since w (snd r) in
    fst r <> Ok None /\
    Forall (sleeps_at_most SLEEP_IDLE_CAP) new /\
    Forall calm (tail new) /\
    (existsb signal_of new = true -> should_terminate (snd r) = true) /\
    (should_terminate (snd r) = true ->
     forall fuel v', main_loop (S fuel) config v' (snd r) = (Ok (Some tt), snd r))) /\
   (forall now (w' : world sim),
       let r := idle_sleep config now w' in
       fst r <> Ok None /\
       Forall (sleeps_at_most SLEEP_IDLE_CAP) (events_since w' (snd r))) /\
   (forall now nxt (w' : world sim),
       let r := event_sleep now nxt w' in
       fst r <> Ok None /\
       Forall (sleeps_at_most SLEEP_EVENT_CAP) (events_since w' (snd r)))).
Proof.
  cbv zeta.
  set (stored := stored_state "2024-01-01" ["2024-01-01T10:02:00"]).
  set (w := running (interrupted (at_time 10 0 0) stored)).
  assert (H1 : handler_installed w = true) by reflexivity.
  refine (conj H1 (conj _ (conj _ (conj _
            (sleeps_are_bounded_and_cancellable (farm_config 1 1)
               (mkVars stored ["2024-01-01T10:02:00"]) w H1)))));
    vm_compute; reflexivity.
Defined.

(** ** Further properties of the program *)

(** Applies the rules of [emits] along the structure of a program. *)
Ltac emits_go :=
  repeat first
    [ apply emits_ret; done
    | apply emits_raise
    | apply emits_exit
    | apply emits_lift; done
    | apply emits_or_raise; done
    | apply emits_flag
    | apply emits_perform; [intros; simpl; auto; fail | done]
    | apply emits_try_except; [|intros ?]
    | apply (emits_bind _ (fun _ => True)); [|intros ? _]
    | progress cbv zeta
    | match goal with
      | |- emits _ _ (if ?b then _ else _) => destruct b
      | |- emits _ _ (match ?x with _ => _ end) => destruct x
      end ].

Section ConfigProperties.
Context {X : Type} {E : External X}.

Lemma log_exit_run {A} msg code (w : world X) :
  fst ((log msg;; sys_exit (A:=A) code) w) = Exit code /\
  exists t a sg,
    head (trace (snd ((log msg;; sys_exit (A:=A) code) w)))
    = Some (Ev (Print t msg) a sg).
Proof.
  unfold bind.
  destruct (log_run msg w) as (Hok & t & a & sg & sg' & Ht).
  destruct (log msg w) as [[[]|?|?] w1]; try done.
  simpl in *. split; [done|]. rewrite Ht. by eexists _, _, _.
Qed.

(** X1.  [read_config] returns exactly the valid configurations: it
    returns [cfg] if and only if [cfg] is what the environment, with
    [.env] loaded, gives, its [repo_path] is not empty and names a
    directory, its hours satisfy [0 <= start < end <= 23] and its
    numbers of commits satisfy [1 <= min <= max]. *)
Theorem read_config_accepts_exactly_valid (w : world X) cfg :
  (exists w', read_config w = (Ok cfg, w')) <->
  answer Environ w = Returned cfg /\
  repo_path cfg <> "" /\
  answer (IsDir (Dir (repo_path cfg))) (after Environ w) = true /\
  valid_window (work_start_hour cfg) (work_end_hour cfg)
               (min_commits cfg) (max_commits cfg).
Proof.
  unfold read_config, perform_raising.
  rewrite bind_assoc, bind_perform.
  split.
  - intros [w' Hrun]. revert Hrun.
    destruct (answer Environ w) as [c|e] eqn:Henv; [|done].
    cbn [lift]. rewrite bind_ret.
    destruct (String.eqb (repo_path c) "") eqn:Hrepo.
    { intros H. by destruct (log_exit_run (A:=config) MsgRepoPathNotSet 1 (after Environ w))
        as (Hx & _); rewrite H in Hx. }
    rewrite bind_perform.
    set (w1 := after Environ w).
    destruct (answer (IsDir (Dir (repo_path c))) w1) eqn:Hdir; cbn [negb].
    2: { intros H. by destruct (log_exit_run (A:=config)
                                  (MsgRepoPathMissing (repo_path c)) 1
                                  (after (IsDir (Dir (repo_path c))) w1))
           as (Hx & _); rewrite H in Hx. }
    repeat match goal with
           | |- (if ?b then _ else _) _ = _ -> _ =>
               let Hb := fresh "Hb" in
               destruct b eqn:Hb;
               [intros H;
                match type of H with
                | (log ?m;; sys_exit _) ?w0 = _ =>
                    by destruct (log_exit_run (A:=config) m 1 w0) as (Hx & _);
                       rewrite H in Hx
                end|]
           end.
    intros [= <- _].
    apply String.eqb_neq in Hrepo.
    unfold valid_window. rewrite Hdir. repeat split; try done; lia.
  - intros (Henv & Hrepo & Hdir & Hsh & Hlt & Heh & Hmn & Hmx).
    rewrite Henv. cbn [lift]. rewrite bind_ret.
    apply String.eqb_neq in Hrepo. rewrite Hrepo.
    rewrite bind_perform, Hdir. cbn [negb].
    repeat match goal with
           | |- context [if ?b then _ else _] =>
               let Hb := fresh "Hb" in
               destruct b eqn:Hb; [exfalso; lia|]
           end.
    by eexists.
Qed.

(** X2.  When the environment gives a configuration that fails one of
    these checks, [read_config] ends the process with status 1, and the
    last thing it does before is to print a message; with an empty
    [repo_path] the message says so and no directory is looked up. *)
Theorem read_config_rejects_invalid (w : world X) cfg :
  answer Environ w = Returned cfg ->
  repo_path cfg = "" \/
  answer (IsDir (Dir (repo_path cfg))) (after Environ w) = false \/
  ~ valid_window (work_start_hour cfg) (work_end_hour cfg)
                 (min_commits cfg) (max_commits cfg) ->
  let r := read_config w in
  fst r = Exit 1 /\
  (exists t msg a sg, head (trace (snd r)) = Some (Ev (Print t msg) a sg)) /\
  (repo_path cfg = "" ->
   exists t a sg t' sg',
     events_since w (snd r)
     = [Ev (Print t MsgRepoPathNotSet) a sg; Ev DatetimeNow t' sg';
        Ev Environ (Returned cfg) (signalled Environ w)]).
Proof.
  intros Henv Hbad r. subst r.
  unfold read_config, perform_raising.
  rewrite bind_assoc, bind_perform, Henv.
  cbn [lift]. rewrite bind_ret.
  set (w0 := after Environ w).
  destruct (String.eqb (repo_path cfg) "") eqn:Hrepo.
  { destruct (log_exit_run (A:=config) MsgRepoPathNotSet 1 w0) as (Hx & t & a & sg & Hh).
    split; [done|]. split; [by eexists _, _, _, _|]. intros _.
    unfold bind, sys_exit.
    destruct (log_run MsgRepoPathNotSet w0) as (Hok & t1 & a1 & sg1 & sg1' & Ht).
    destruct (log MsgRepoPathNotSet w0) as [[[]|?|?] w1]; try done.
    cbn [fst snd] in *. exists t1, a1, sg1, t1, sg1'.
    apply events_since_app. rewrite Ht. subst w0.
    by rewrite trace_after, Henv. }
  apply String.eqb_neq in Hrepo.
  rewrite bind_perform.
  destruct (answer (IsDir (Dir (repo_path cfg))) w0) eqn:Hdir; cbn [negb].
  2: { destruct (log_exit_run (A:=config) (MsgRepoPathMissing (repo_path cfg)) 1
                   (after (IsDir (Dir (repo_path cfg))) w0)) as (Hx & t & a & sg & Hh).
       split; [done|]. split; [by eexists _, _, _, _|done]. }
  repeat match goal with
         | |- context [(if ?b then _ else _) ?w1] =>
             let Hb := fresh "Hb" in
             destruct b eqn:Hb;
             [match goal with
              | |- context [(log ?m;; sys_exit _) ?w2] =>
                  destruct (log_exit_run (A:=config) m 1 w2) as (Hx & t & a & sg & Hh);
                  split; [done|]; split; [by eexists _, _, _, _|done]
              end|]
         end.
  exfalso. destruct Hbad as [?|[Hd|Hbad]]; [done|fold w0 in Hd; congruence|].
  apply Hbad. unfold valid_window. lia.
Qed.

(** X3.  [run_git_command] returns what [git] returned whatever the
    exit status; it prints the failure exactly when the status is not 0
    and [allow_fail] is off, and makes no further call otherwise; a
    missing [git] executable ends the process with status 1 after a
    message; any other exception of [subprocess.run] is passed on. *)
Theorem run_git_command_outcomes args cwd allow_fail (w : world X) :
  let c := SubprocessRun ("git" :: args) cwd in
  let r := run_git_command args cwd allow_fail w in
  (forall proc, answer c w = Returned proc ->
     fst r = Ok proc /\
     (returncode proc = 0 \/ allow_fail = true -> snd r = after c w) /\
     (returncode proc <> 0 -> allow_fail = false ->
      exists t a sg sg',
        trace (snd r)
        = [Ev (Print t (MsgGitFailed args (stderr proc))) a sg; Ev DatetimeNow t sg']
          ++ trace (after c w))) /\
  (answer c w = Raised FileNotFoundError ->
     fst r = Exit 1 /\
     exists t a sg, head (trace (snd r)) = Some (Ev (Print t MsgGitNotFound) a sg)) /\
  (forall e, e <> FileNotFoundError -> answer c w = Raised e ->
     r = (Raise e, after c w)).
Proof.
  intros c r. subst r. unfold run_git_command. rewrite bind_perform. fold c.
  split; [|split].
  - intros proc ->.
    destruct (Z.eqb_spec (returncode proc) 0) as [Hz|Hz]; cbn [negb andb].
    + rewrite !bind_ret. split; [done|]. split; [done|]. done.
    + destruct allow_fail; cbn [negb].
      * rewrite !bind_ret. split; [done|]. split; [done|]. done.
      * unfold bind.
        destruct (log_run (MsgGitFailed args (stderr proc)) (after c w))
          as (Hok & t & a & sg & sg' & Ht).
        destruct (log _ (after c w)) as [[[]|?|?] w1]; try done.
        cbn [fst snd ret] in *. split; [done|]. split; [intros [?|?]; [lia|discriminate]|].
        intros _ _. by exists t, a, sg, sg'.
  - intros ->. apply log_exit_run.
  - intros e He ->. by destruct e.
Qed.

(** X4.  A repository without a [.git] directory is fatal before
    anything is done: once the configuration has passed its checks,
    the process looks up [<repo>/.git], prints the message that names
    the repository and ends with status 1; it has run no [git] command
    and touched no file, with or without [--now]. *)
Theorem missing_repository_is_fatal fuel now (w w1 : world X) cfg :
  read_config w = (Ok cfg, w1) ->
  answer (IsDir (RepoFile (repo_path cfg) ".git")) w1 = false ->
  let r := script fuel now w in
  fst r = Exit 1 /\
  exists t a sg sg',
    events_since w1 (snd r)
    = [Ev (Print t (MsgNotAGitRepo (repo_path cfg))) a sg;
       Ev DatetimeNow t sg';
       Ev (IsDir (RepoFile (repo_path cfg) ".git")) false
          (signalled (IsDir (RepoFile (repo_path cfg) ".git")) w1)].
Proof.
  intros Hcfg Hdir r. subst r.
  set (c := IsDir (RepoFile (repo_path cfg) ".git")) in *.
  destruct (log_run (MsgNotAGitRepo (repo_path cfg)) (after c w1))
    as (Hok & t & a & sg & sg' & Ht).
  assert (Hmain : main fuel now w
                  = (Exit 1, snd (log (MsgNotAGitRepo (repo_path cfg)) (after c w1)))).
  { unfold main, prelude. unfold bind at 1. unfold bind at 1. rewrite Hcfg.
    unfold bind at 1. unfold ensure_git_repo. rewrite bind_perform. fold c.
    rewrite Hdir. cbn [negb]. unfold bind, sys_exit.
    by destruct (log _ (after c w1)) as [[[]|?|?] w2]. }
  unfold script, try_except. rewrite Hmain. cbn [fst snd].
  split; [done|]. exists t, a, sg, sg'.
  apply events_since_app. rewrite Ht, trace_after, Hdir. done.
Qed.

(** X6.  [write_state] never raises and never ends the process: it
    passes the state to [json.dump] on the path of [state.json] once;
    when that succeeds it does nothing else, and when it raises the
    exception is printed as a warning and dropped. *)
Theorem write_state_fails_soft st (w : world X) :
  let c := JsonDump state_file_path st in
  let r := write_state st w in
  fst r = Ok tt /\
  (answer c w = Returned tt -> snd r = after c w) /\
  (forall e, answer c w = Raised e ->
     exists t a sg sg',
       trace (snd r)
       = [Ev (Print t (MsgWriteStateFailed e)) a sg; Ev DatetimeNow t sg']
         ++ trace (after c w)).
Proof.
  intros c r. subst r.
  unfold write_state, try_except, perform_raising. rewrite bind_perform. fold c.
  destruct (answer c w) as [[]|e] eqn:Ha; cbn [lift ret raise fst snd].
  - split; [done|]. split; [done|]. intros e [=].
  - destruct (log_run (MsgWriteStateFailed e) (after c w))
      as (Hok & t & a & sg & sg' & Ht).
    split; [done|]. split; [done|]. intros e' [= <-]. by exists t, a, sg, sg'.
Qed.

(** X5.  [maybe_set_git_identity] touches nothing when the name or the
    e-mail address is empty; otherwise every command it runs is a
    [git config] in the repository. *)
Theorem git_identity_only_configures repo name email (w : world X) :
  let r := maybe_set_git_identity repo name email w in
  (name = "" \/ email = "" -> r = (Ok tt, w)) /\
  Forall (configures repo) (events_since w (snd r)).
Proof.
  intros r. subst r. split.
  - unfold maybe_set_git_identity.
    intros [-> | ->]; [done|].
    by rewrite orb_true_r.
  - assert (H : emits (configures repo) (fun _ => True)
                  (maybe_set_git_identity repo name email)).
    { unfold maybe_set_git_identity, run_git_command, log, datetime_now.
      emits_go. }
    destruct (H w) as (evs & Ht & HP & _).
    by rewrite (events_since_app w _ evs Ht).
Qed.
End ConfigProperties.

Section GeneratorProperties.
Context {X : Type} {E : External X}.

Lemma filter_all {A} (P : A -> Prop) `{!forall x, Decision (P x)} (l : list A) :
  Forall P l -> filter P l = l.
Proof.
  induction 1 as [|x l Hx _ IH]; [done|].
  by rewrite filter_cons_True, IH.
Qed.

(** X7.  Once the window of today is over the generator returns the
    empty schedule: it reads the clock and draws nothing, whatever the
    numbers of commits asked for. *)
Theorem generator_after_window sh eh mn mx (w : world X) :
  let now := answer DatetimeNow w in
  0 <= sh <= 23 -> 0 <= eh <= 23 ->
  lt (window_start now eh) now ->
  generate_schedule_for_today sh eh mn mx w = (Ok [], after DatetimeNow w).
Proof.
  intros now Hsh Heh Hlate.
  unfold generate_schedule_for_today, datetime_now.
  rewrite bind_perform. fold now. unfold replace_hour.
  rewrite (proj2 (in_range_true 0 sh 23)), (proj2 (in_range_true 0 eh 23)) by lia.
  cbn [or_raise]. rewrite !bind_ret.
  change (gtb now (mkDatetime (year now) (month now) (day now) eh 0 0 0))
    with (ltb (window_start now eh) now).
  by rewrite Hlate.
Qed.

(** X8.  Before the window opens nothing is dropped: the schedule
    holds as many timestamps as were drawn, that is between
    [min_commits] and [max_commits] of them, each bound capped by the
    number of seconds of the window. *)
Theorem generator_count_before_window sh eh mn mx (w : world X) :
  valid_window sh eh mn mx ->
  let r := generate_schedule_for_today sh eh mn mx w in
  let now := answer DatetimeNow w in
  let span := (eh - sh) * 3600 in
  Forall lawful (events_since w (snd r)) ->
  lt now (window_start now sh) ->
  exists times,
    fst r = Ok times /\
    Z.min mn span <= Z.of_nat (length times) <= Z.min mx span.
Proof.
  intros (Hsh & Hlt & Heh & Hmn & Hmx) r now span Hl Hearly.
  destruct (generate_schedule_run sh eh mn mx w Hsh Hlt Heh Hmn Hmx Hl)
    as (Hnow & _ & _ & Hcases).
  fold r now in Hcases.
  set (day_start := window_start now sh) in *.
  assert (Hds : valid day_start) by (apply window_start_valid; [done|lia]).
  assert (Hstamp : stamp now < stamp day_start) by by apply ltb_stamp.
  destruct Hcases as [[Hgt _] | (Hgt & c & sample & Hc & Hlen & Hnd & Hrange & Hr)].
  { exfalso. apply gtb_stamp in Hgt; [|done|apply window_start_valid; [done|lia]].
    unfold day_start in Hstamp. rewrite stamp_window_start in Hstamp, Hgt.
    unfold US_PER_SECOND in *. lia. }
  assert (Hperm : merge_sort Z.le sample ≡ₚ sample) by apply merge_sort_Permutation.
  destruct (future_times_spec day_start now (merge_sort Z.le sample) span)
    as (dts & Hft & Hrel); try done.
  { unfold day_start, window_start; simpl. unfold span. lia. }
  { by rewrite Hperm. }
  exists (isoformat <$> dts). rewrite Hr, Hft. split; [done|].
  apply Forall2_length in Hrel.
  assert (Hall : filter (later_than now day_start) (merge_sort Z.le sample)
                 = merge_sort Z.le sample).
  { apply filter_all. rewrite Hperm.
    eapply Forall_impl; [exact Hrange|]. intros o Ho. cbv beta in Ho. unfold later_than.
    unfold US_PER_SECOND. lia. }
  rewrite length_fmap, Hrel, Hall, Hperm. fold span in Hlen. lia.
Qed.
End GeneratorProperties.

Section SleepProperties.
Context {X : Type} {E : External X}.

Lemma total_slept_app evs1 evs2 :
  total_slept (evs2 ++ evs1) = total_slept evs2 + total_slept evs1.
Proof. unfold total_slept. induction evs2 as [|e evs2 IH]; simpl; lia. Qed.

(** The flag is never cleared by the sleeping loop. *)
Lemma sleep_loop_flag fuel cap total slept (w : world X) :
  0 < cap ->
  sleep_need cap (total - slept) <= Z.of_nat fuel ->
  should_terminate (snd (sleep_loop fuel cap total slept w)) = false ->
  should_terminate w = false.
Proof.
  intros Hcap Hfuel Hend.
  destruct (sleep_loop_emits (fun _ => True) cap ltac:(done) fuel cap total slept
              ltac:(lia) Hfuel w) as (evs & _ & _ & _ & Hs & _).
  rewrite Hs in Hend. by apply orb_false_iff in Hend as [? _].
Qed.

Lemma sleep_loop_done fuel cap total slept (w : world X) :
  total <= slept \/ should_terminate w = true ->
  sleep_loop (S fuel) cap total slept w = (Ok (Some tt), w).
Proof.
  intros H. cbn [sleep_loop]. unfold killer_should_terminate, bind.
  destruct H as [H | ->]; [|by rewrite andb_false_r].
  by rewrite (proj2 (Z.ltb_ge slept total)).
Qed.

Lemma sleep_loop_step fuel cap total slept (w : world X) :
  should_terminate w = false -> slept < total ->
  sleep_loop (S fuel) cap total slept w
  = sleep_loop fuel cap total (slept + Z.min cap (total - slept))
               (after (TimeSleep (Z.min cap (total - slept))) w).
Proof.
  intros Hflag Hlt. cbn [sleep_loop]. unfold killer_should_terminate.
  unfold bind at 1. rewrite Hflag, (proj2 (Z.ltb_lt slept total)) by done.
  cbn [negb andb]. by rewrite bind_perform.
Qed.

Lemma sleep_loop_total fuel cap total slept (w : world X) :
  0 < cap ->
  sleep_need cap (total - slept) <= Z.of_nat fuel ->
  let r := sleep_loop fuel cap total slept w in
  should_terminate (snd r) = false ->
  fst r = Ok (Some tt) /\
  exists evs, trace (snd r) = evs ++ trace w /\
              total_slept evs = Z.max 0 (total - slept).
Proof.
  intros Hcap. revert slept w.
  induction fuel as [|fuel IH]; intros slept w Hfuel r Hend.
  { unfold sleep_need in Hfuel. destruct (_ <=? 0) eqn:Hr; [lia|].
    apply Z.leb_gt in Hr.
    assert (0 <= (total - slept) / cap) by (apply Z.div_pos; lia). lia. }
  pose proof (sleep_loop_flag _ _ _ _ _ Hcap Hfuel Hend) as Hflag.
  subst r. destruct (Z.ltb_spec slept total) as [Hlt|Hge].
  2: { rewrite sleep_loop_done in * by auto. split; [done|]. exists [].
       split; [done|]. simpl. lia. }
  rewrite sleep_loop_step in * by done.
  set (step := Z.min cap (total - slept)) in *.
  set (w1 := after (TimeSleep step) w) in *.
  assert (Hneed : sleep_need cap (total - (slept + step)) <= Z.of_nat fuel).
  { unfold sleep_need in *.
    destruct (total - slept <=? 0) eqn:Hr; [apply Z.leb_le in Hr; lia|].
    unfold step.
    destruct (Z.min_spec cap (total - slept)) as [[Hm ->]|[Hm ->]].
    - replace (total - (slept + cap)) with (total - slept + (-1) * cap) by lia.
      assert ((total - slept + (-1) * cap) / cap = (total - slept) / cap - 1) as Hd.
      { rewrite Z.div_add by lia. lia. }
      destruct (total - slept + -1 * cap <=? 0) eqn:Hr'.
      + assert (1 <= (total - slept) / cap)
          by (apply Z.div_le_lower_bound; lia). lia.
      + rewrite Hd. lia.
    - replace (total - (slept + (total - slept))) with 0 by lia. simpl.
      assert (0 <= (total - slept) / cap) by (apply Z.div_pos; lia). lia. }
  destruct (IH (slept + step) w1 Hneed Hend) as (Hok & evs & Ht & Hsum).
  split; [done|].
  exists (evs ++ [Ev (TimeSleep step) (answer (TimeSleep step) w)
                    (signalled (TimeSleep step) w)]).
  split; [by rewrite Ht, <- app_assoc|].
  rewrite total_slept_app, Hsum. simpl. unfold step. lia.
Qed.

Lemma sleep_in_chunks_total cap total (w : world X) :
  0 < cap ->
  let r := sleep_in_chunks cap total w in
  should_terminate (snd r) = false ->
  fst r = Ok (Some tt) /\
  exists evs, trace (snd r) = evs ++ trace w /\ total_slept evs = Z.max 0 total.
Proof.
  intros Hcap r Hend.
  destruct (sleep_loop_total (sleep_fuel cap total) cap total 0 w Hcap) as (? & evs & ? & ?);
    [|done|].
  { unfold sleep_need, sleep_fuel. rewrite Z.sub_0_r.
    destruct (total <=? 0) eqn:Hr; [lia|]. apply Z.leb_gt in Hr.
    assert (0 <= total / cap) by (apply Z.div_pos; lia). lia. }
  split; [done|]. exists evs. split; [done|]. by rewrite Z.sub_0_r in *.
Qed.

(** X9.  A wait that no termination request cuts short lasts as long
    as it was meant to: the steps of the wait for a commit add up to the
    time between [now] and the commit, and the steps of the wait for
    tomorrow to the time until tomorrow's window opens, or to 30 seconds
    when the window opens sooner than that.  (Durations are exact
    numbers of microseconds.) *)
Theorem uninterrupted_waits_last_in_full cfg now nxt (w : world X) :
  (let r := event_sleep now nxt w in
   should_terminate (snd r) = false ->
   fst r = Ok (Some tt) /\
   total_slept (events_since w (snd r)) = Z.max 0 (sub_us nxt now)) /\
  (forall tomorrow next_day,
      add_days now 1 = Some tomorrow ->
      replace_hour tomorrow (work_start_hour cfg) = Some next_day ->
      let r := idle_sleep cfg now w in
      should_terminate (snd r) = false ->
      fst r = Ok (Some tt) /\
      total_slept (events_since w (snd r))
      = Z.max SLEEP_FLOOR (sub_us next_day now)).
Proof.
  split.
  - intros r Hend. subst r. unfold event_sleep in *.
    destruct (0 <? sub_us nxt now) eqn:Hpos.
    2: { apply Z.ltb_ge in Hpos. split; [done|].
         rewrite (events_since_app w _ []) by done. simpl. lia. }
    unfold bind in *.
    destruct (log_run (MsgNextCommit nxt (sub_us nxt now ÷ US_PER_SECOND)) w)
      as (Hok & t & a & sg & sg' & Ht).
    destruct (log _ w) as [[[]|?|?] w1]; try done. cbn [fst snd] in Ht.
    destruct (sleep_in_chunks_total SLEEP_EVENT_CAP (sub_us nxt now) w1
                ltac:(done) Hend) as (Hr & evs & Ht' & Hsum).
    split; [done|].
    rewrite (events_since_app w _
               (evs ++ [Ev (Print t (MsgNextCommit nxt (sub_us nxt now ÷ US_PER_SECOND)))
                           a sg; Ev DatetimeNow t sg']))
      by (by rewrite Ht', Ht, <- app_assoc).
    rewrite total_slept_app, Hsum. simpl. lia.
  - intros tomorrow next_day Htom Hnext r Hend. subst r.
    assert (Heq : idle_sleep cfg now w
                  = (log MsgNoCommitsLeft;;
                     sleep_in_chunks SLEEP_IDLE_CAP
                       (Z.max SLEEP_FLOOR (sub_us next_day now))) w).
    { unfold idle_sleep. rewrite Htom. cbn [or_raise]. rewrite bind_ret, Hnext.
      done. }
    rewrite Heq in *. clear Heq. unfold bind in *.
    destruct (log_run MsgNoCommitsLeft w) as (Hok & t & a & sg & sg' & Ht).
    destruct (log _ w) as [[[]|?|?] w1]; try done. cbn [fst snd] in Ht.
    destruct (sleep_in_chunks_total SLEEP_IDLE_CAP
                (Z.max SLEEP_FLOOR (sub_us next_day now)) w1 ltac:(done) Hend)
      as (Hr & evs & Ht' & Hsum).
    split; [done|].
    rewrite (events_since_app w _
               (evs ++ [Ev (Print t MsgNoCommitsLeft) a sg; Ev DatetimeNow t sg']))
      by (by rewrite Ht', Ht, <- app_assoc).
    rewrite total_slept_app, Hsum. simpl. unfold SLEEP_FLOOR, US_PER_SECOND. lia.
Qed.
End SleepProperties.

Section ResumeProperties.
Context {X : Type} {E : External X}.

Lemma purge_strings strs now :
  Forall (fun s => is_Some (fromisoformat s)) strs ->
  purge (JStr <$> strs) now = Returned (filter (due_after now) strs).
Proof.
  induction 1 as [|s strs [dt Hs] _ IH]; [done|].
  rewrite fmap_cons. cbn [purge]. cbv beta in Hs. rewrite Hs, IH.
  rewrite filter_cons. unfold gtb.
  destruct (decide (due_after now s)) as [Hd|Hd];
    unfold due_after, lt in Hd; rewrite Hs in Hd;
    [by rewrite Hd | by destruct (ltb now dt)].
Qed.

Lemma purge_non_string strs j rest now :
  Forall (fun s => is_Some (fromisoformat s)) strs ->
  (forall s, j <> JStr s) ->
  purge ((JStr <$> strs) ++ j :: rest) now = Raised TypeError.
Proof.
  intros Hall Hj. induction Hall as [|s strs [dt Hs] _ IH].
  - destruct j; try done. by destruct (Hj s).
  - rewrite fmap_cons. cbn [app purge]. cbv beta in Hs. by rewrite Hs, IH.
Qed.

(** X10.  The purge at start-up, on stored entries that are naive
    timestamps in the format of [fromisoformat] above: it returns, in
    their order, exactly the entries strictly after [now]; an entry
    that is not a string, met after such entries, is a [TypeError]. *)
Theorem purge_keeps_the_future strs now :
  Forall (fun s => is_Some (fromisoformat s)) strs ->
  purge (JStr <$> strs) now = Returned (filter (due_after now) strs) /\
  filter (due_after now) strs `sublist_of` strs /\
  (forall s, s ∈ filter (due_after now) strs <->
             s ∈ strs /\ exists dt, fromisoformat s = Some dt /\ lt now dt) /\
  (forall j rest, (forall s, j <> JStr s) ->
     purge ((JStr <$> strs) ++ j :: rest) now = Raised TypeError).
Proof.
  intros Hall. split; [by apply purge_strings|].
  split; [apply sublist_filter|]. split.
  - intros s. rewrite list_elem_of_filter. unfold due_after.
    destruct (fromisoformat s) as [dt|].
    + split; [intros [? ?]; eauto|]. by intros (? & dt' & [= <-] & ?).
    + split; [by intros [[] _]|]. by intros (_ & dt' & ? & _).
  - intros j rest. by apply purge_non_string.
Qed.

(** What remains of [initialize] once the stored record [JObj m] has
    been found to be of today. *)
Lemma initialize_resume cfg (w w1 : world X) (m : gmap string json) strs :
  read_state w = (Ok (JObj m), w1) ->
  m !! "date" = Some (JStr (strftime_date (answer DatetimeNow w1))) ->
  listed_times m = JStr <$> strs ->
  Forall (fun s => is_Some (fromisoformat s)) strs ->
  let w2 := after DatetimeNow w1 in
  let kept := filter (due_after (answer DatetimeNow w2)) strs in
  let st := JObj (<["scheduled_times" := JArr (JStr <$> kept)]> m) in
  initialize cfg w
  = (write_state st;;
     log (MsgResuming (JStr (strftime_date (answer DatetimeNow w1))) (length kept));;
     ret (mkVars st kept)) (after DatetimeNow w2).
Proof.
  intros Hread Hdate Htimes Hall w2 kept st.
  unfold initialize. unfold bind at 1. rewrite Hread.
  cbn [py_get lift]. rewrite Hdate. cbn [default from_option id].
  rewrite !bind_ret.
  replace (match default JNull (m !! "scheduled_times") with
           | JArr l => l
           | _ => []
           end) with (JStr <$> strs)
    by (rewrite <- Htimes; unfold listed_times;
        by destruct (m !! "scheduled_times") as [[]|]).
  unfold bind at 1. rewrite today_str_run. cbv beta iota.
  unfold differs_from. rewrite String.eqb_refl. cbn [negb].
  unfold datetime_now. rewrite bind_perform. fold w2.
  rewrite purge_strings by done. cbn [lift py_setitem]. by rewrite !bind_ret.
Qed.

(** X11.  A restart on the day of the stored record: start-up keeps
    the record, with its date and its other keys, and replaces only the
    pending times by those that are still in the future; it writes the
    record back and draws no new schedule.  A record of today that
    holds no list of times is resumed as an empty schedule. *)
Theorem restart_resumes_the_stored_schedule cfg (w w1 : world X)
    (m : gmap string json) strs :
  read_state w = (Ok (JObj m), w1) ->
  m !! "date" = Some (JStr (strftime_date (answer DatetimeNow w1))) ->
  listed_times m = JStr <$> strs ->
  Forall (fun s => is_Some (fromisoformat s)) strs ->
  let now := answer DatetimeNow (after DatetimeNow w1) in
  let kept := filter (due_after now) strs in
  let st := JObj (<["scheduled_times" := JArr (JStr <$> kept)]> m) in
  let r := initialize cfg w in
  fst r = Ok (mkVars st kept) /\
  (exists a sg, Ev (JsonDump state_file_path st) a sg ∈ events_since w1 (snd r)) /\
  Forall (fun e => ~ draws e) (events_since w1 (snd r)).
Proof.
  intros Hread Hdate Htimes Hall now kept st r. subst r.
  rewrite (initialize_resume cfg w w1 m strs Hread Hdate Htimes Hall).
  fold now kept st.
  set (w2 := after DatetimeNow w1). set (w3 := after DatetimeNow w2).
  set (tail := (write_state st;; log _;; ret _)).
  assert (Hem : emits (fun e => ~ draws e) (fun _ => True) tail).
  { unfold tail, write_state, perform_raising, log, datetime_now. emits_go. }
  destruct (Hem w3) as (evs & Ht & HP & _).
  assert (Hall3 : trace (snd (tail w3))
                  = (evs ++ [Ev DatetimeNow now (signalled DatetimeNow w2);
                             Ev DatetimeNow (answer DatetimeNow w1)
                                (signalled DatetimeNow w1)]) ++ trace w1)
    by (by rewrite Ht, <- app_assoc).
  rewrite (events_since_app w1 _ _ Hall3).
  split; [|split].
  - unfold tail. unfold bind.
    destruct (write_state_run st w3) as (Hok & _).
    destruct (write_state st w3) as [[[]|?|?] w4]; try done.
    destruct (log_run (MsgResuming (JStr (strftime_date (answer DatetimeNow w1)))
                         (length kept)) w4) as (Hok' & _).
    by destruct (log _ w4) as [[[]|?|?] w5].
  - destruct (write_state_run st w3) as (Hok & evs1 & a & sg & Ht1).
    exists a, sg. apply elem_of_app. left.
    assert (Hin : Ev (JsonDump state_file_path st) a sg ∈ events_since w3 (snd (tail w3))).
    { unfold tail. unfold bind.
      destruct (write_state st w3) as [[[]|?|?] w4]; try done. cbn [fst snd] in *.
      destruct (log_run (MsgResuming (JStr (strftime_date (answer DatetimeNow w1)))
                           (length kept)) w4) as (Hok' & t & a' & sg1 & sg2 & Ht2).
      destruct (log _ w4) as [[[]|?|?] w5]; try done. cbn [fst snd ret] in *.
      rewrite (events_since_app w3 w5
                 ([Ev (Print t (MsgResuming (JStr (strftime_date (answer DatetimeNow w1)))
                                  (length kept))) a' sg1; Ev DatetimeNow t sg2]
                    ++ evs1 ++ [Ev (JsonDump state_file_path st) a sg]))
        by (by rewrite Ht2, Ht1, <- !app_assoc).
      set_solver. }
    by rewrite (events_since_app w3 _ evs Ht) in Hin.
  - apply Forall_app. split; [done|].
    repeat (apply Forall_cons_2; [simpl; tauto|]). apply Forall_nil_2.
Qed.

(** X23.  A state file that holds valid JSON other than an object is
    fatal at start-up: [state.get] raises [AttributeError], which only
    the handler around [main] catches; the process prints the fatal
    error and ends with status 1, having drawn no schedule and written
    no state. *)
Theorem non_object_state_is_fatal fuel cfg (w w0 w2 : world X) st :
  prelude w = (Ok cfg, w0) ->
  read_state (mkWorld (ext w0) true false (trace w0)) = (Ok st, w2) ->
  (forall m, st <> JObj m) ->
  let r := script fuel false w in
  fst r = Exit 1 /\
  exists t a sg sg',
    events_since w2 (snd r)
    = [Ev (Print t (MsgFatal AttributeError)) a sg; Ev DatetimeNow t sg'].
Proof.
  intros Hpre Hread Hst r. subst r.
  assert (Hstart : startup cfg w0 = (Raise AttributeError, w2)).
  { rewrite startup_run. unfold initialize, bind at 1. rewrite Hread.
    destruct st; try done. by destruct (Hst members). }
  assert (Hscript : script fuel false w
                    = (log (MsgFatal AttributeError);; sys_exit 1) w2).
  { unfold script, try_except, main, daemon. unfold bind at 1. rewrite Hpre.
    unfold bind at 1. by rewrite Hstart. }
  rewrite Hscript.
  destruct (log_exit_run (A:=option unit) (MsgFatal AttributeError) 1 w2) as (Hx & _).
  split; [done|].
  destruct (log_run (MsgFatal AttributeError) w2) as (Hok & t & a & sg & sg' & Ht).
  exists t, a, sg, sg'. apply events_since_app.
  unfold bind, sys_exit. by destruct (log _ w2) as [[[]|?|?] w3].
Qed.
End ResumeProperties.

Section ExitProperties.
Context {X : Type} {E : External X}.

Lemma main_loop_emits fuel cfg v :
  emits (X:=X) (fun _ => True) (fun _ => True) (main_loop fuel cfg v).
Proof.
  revert v. induction fuel as [|fuel IH]; intros v; cbn [main_loop].
  { by apply emits_ret. }
  apply (emits_bind _ (fun _ => True)); [apply emits_flag|intros killed _].
  destruct killed; [by apply emits_ret|].
  apply (emits_bind _ (fun _ => True)).
  { eapply emits_weaken; [|done].
    apply (iteration_emits (fun _ => True) (fun _ _ => True) SLEEP_IDLE_CAP);
      try done; lia. }
  intros [[v'|]|] _; [apply IH | by apply emits_ret | by apply emits_ret].
Qed.

Lemma iteration_stop cfg v (w w1 : world X) :
  iteration cfg v w = (Ok (Some Stop), w1) -> should_terminate w1 = true.
Proof.
  unfold iteration, proceed.
  intros H.
  apply bind_ok_inv in H as (now & wa & _ & H).
  apply bind_ok_inv in H as (date & wb & _ & H).
  apply bind_ok_inv in H as (v' & wc & _ & H).
  apply bind_ok_inv in H as (nxt & wd & _ & H).
  destruct nxt as [nxt|].
  - apply bind_ok_inv in H as (slept & we & _ & H).
    destruct slept as [[]|]; [|done].
    unfold killer_should_terminate in H. unfold bind at 1 in H. cbv beta iota in H.
    destruct (should_terminate we) eqn:Hflag.
    + by injection H as <-.
    + apply bind_ok_inv in H as (v'' & wf & _ & H). done.
  - apply bind_ok_inv in H as (slept & we & _ & H).
    by destruct slept.
Qed.

Lemma main_loop_flag fuel cfg v (w w' : world X) :
  main_loop fuel cfg v w = (Ok (Some tt), w') -> should_terminate w' = true.
Proof.
  revert v w. induction fuel as [|fuel IH]; intros v w Hrun; [done|].
  cbn [main_loop] in Hrun. unfold killer_should_terminate in Hrun.
  unfold bind at 1 in Hrun. cbv beta iota in Hrun.
  destruct (should_terminate w) eqn:Hw; [by injection Hrun as <-|].
  unfold bind at 1 in Hrun.
  destruct (iteration cfg v w) as [[[[v'|]|]|?|?] w1] eqn:Hit; try done.
  - by apply (IH v' w1).
  - injection Hrun as <-. by apply (iteration_stop cfg v w).
Qed.

(** X13.  The main loop ends only on a termination request: when it
    returns, the flag is set; and when the loop was entered with the
    handler installed and the flag clear, a signal arrived during one of
    its calls. *)
Theorem loop_ends_only_on_request fuel cfg v (w w' : world X) :
  main_loop fuel cfg v w = (Ok (Some tt), w') ->
  should_terminate w' = true /\
  (handler_installed w = true -> should_terminate w = false ->
   existsb signal_of (events_since w w') = true).
Proof.
  intros Hrun.
  pose proof (main_loop_flag _ _ _ _ _ Hrun) as Hflag.
  split; [done|]. intros Hh Hw.
  destruct (main_loop_emits fuel cfg v w) as (evs & Ht & _ & _ & Hs & _).
  rewrite Hrun in *. cbn [fst snd] in *.
  rewrite (events_since_app w w' evs Ht).
  rewrite Hflag, Hh, Hw in Hs. by destruct (existsb signal_of evs).
Qed.

Lemma exits_ret {A} (a : A) : exits_one (X:=X) (ret a).
Proof. by intros w c. Qed.

Lemma exits_raise {A} e : exits_one (X:=X) (A:=A) (raise e).
Proof. by intros w c. Qed.

Lemma exits_sys_exit {A} : exits_one (X:=X) (A:=A) (sys_exit 1).
Proof. by intros w c [= <-]. Qed.

Lemma exits_perform {T} (c : call T) : exits_one (X:=X) (perform c).
Proof. intros w c'. by rewrite perform_run. Qed.

Lemma exits_lift {A} (r : result A) : exits_one (X:=X) (lift r).
Proof. by destruct r. Qed.

Lemma exits_or_raise {A} e (o : option A) : exits_one (X:=X) (or_raise e o).
Proof. by destruct o. Qed.

Lemma exits_flag : exits_one (X:=X) killer_should_terminate.
Proof. by intros w c. Qed.

Lemma exits_killer : exits_one (X:=X) GracefulKiller.
Proof. by intros w c. Qed.

Lemma exits_bind {A B} (m : prog X A) (k : A -> prog X B) :
  exits_one m -> (forall a, exits_one (k a)) -> exits_one (bind m k).
Proof.
  intros Hm Hk w c. unfold bind. specialize (Hm w).
  destruct (m w) as [[a|e|c'] w1]; [apply Hk|done|].
  intros [= <-]. by apply Hm.
Qed.

Lemma exits_try_except {A} (m : prog X A) (h : exn -> prog X A) :
  exits_one m -> (forall e, exits_one (h e)) -> exits_one (try_except m h).
Proof.
  intros Hm Hh w c. unfold try_except. specialize (Hm w).
  destruct (m w) as [[a|e|c'] w1]; [done|apply Hh|].
  intros [= <-]. by apply Hm.
Qed.

Ltac exits_go :=
  repeat first
    [ apply exits_ret | apply exits_raise | apply exits_sys_exit
    | apply exits_perform | apply exits_lift | apply exits_or_raise
    | apply exits_flag | apply exits_killer
    | apply exits_try_except; [|intros ?]
    | apply exits_bind; [|intros ?]
    | progress cbv zeta
    | match goal with
      | |- exits_one (if ?b then _ else _) => destruct b
      | |- exits_one (match ?x with _ => _ end) => destruct x
      end ].

Lemma exits_next_scheduled_time l : exits_one (X:=X) (next_scheduled_time l).
Proof.
  induction l as [|s l IH]; cbn [next_scheduled_time]; unfold datetime_now;
    exits_go; done.
Qed.

Lemma exits_sleep_loop fuel cap total slept :
  exits_one (X:=X) (sleep_loop fuel cap total slept).
Proof.
  revert slept. induction fuel as [|fuel IH]; intros slept; cbn [sleep_loop];
    exits_go; apply IH.
Qed.

Lemma exits_generate sh eh mn mx :
  exits_one (X:=X) (generate_schedule_for_today sh eh mn mx).
Proof.
  unfold generate_schedule_for_today, random_randint, random_sample_range,
    datetime_now.
  exits_go.
Qed.

Lemma exits_write_state st : exits_one (X:=X) (write_state st).
Proof. unfold write_state, perform_raising, log, datetime_now. exits_go. Qed.

Lemma exits_append_activity_line repo file :
  exits_one (X:=X) (append_activity_line repo file).
Proof. unfold append_activity_line, perform_raising, datetime_now. exits_go. Qed.

Lemma exits_perform_commit repo file template push :
  exits_one (X:=X) (perform_commit repo file template push).
Proof.
  unfold perform_commit, run_git_command, log, datetime_now. exits_go.
Qed.

Lemma exits_iteration cfg v : exits_one (X:=X) (iteration cfg v).
Proof.
  unfold iteration, proceed, roll_over, refresh_schedule, idle_sleep, event_sleep,
    sleep_in_chunks, fire, generate_schedule_for_today, random_randint,
    random_sample_range, log, datetime_now.
  repeat first
    [ apply exits_generate | apply exits_write_state
    | apply exits_next_scheduled_time | apply exits_sleep_loop
    | apply exits_append_activity_line | apply exits_perform_commit
    | progress exits_go ].
Qed.

Lemma exits_main_loop fuel cfg v : exits_one (X:=X) (main_loop fuel cfg v).
Proof.
  revert v. induction fuel as [|fuel IH]; intros v; cbn [main_loop].
  { apply exits_ret. }
  apply exits_bind; [apply exits_flag|intros killed].
  destruct killed; [apply exits_ret|].
  apply exits_bind; [apply exits_iteration|].
  intros [[v'|]|]; [apply IH|apply exits_ret..].
Qed.

Lemma exits_main fuel now : exits_one (X:=X) (main fuel now).
Proof.
  unfold main, prelude, daemon, startup, initialize, reschedule, refresh_schedule,
    read_config, ensure_git_repo, maybe_set_git_identity, run_git_command,
    read_state, today_str, generate_schedule_for_today, random_randint,
    random_sample_range, perform_raising, log, datetime_now.
  repeat first
    [ apply exits_generate | apply exits_write_state | apply exits_main_loop
    | apply exits_append_activity_line | apply exits_perform_commit
    | progress exits_go ].
Qed.

(** X14.  Once the command line is parsed, no exception leaves the
    script, and the program never exits of its own accord with another
    status than 1: an exception of [main] is printed as a fatal error
    and becomes [sys.exit(1)]; a [sys.exit] inside [main] has status 1
    and passes the handler untouched; and a return of [main] is the
    outcome of the script. *)
Theorem no_exception_escapes fuel now (w : world X) :
  let r := script fuel now w in
  (forall e, fst r <> Raise e) /\
  (forall c, fst r = Exit c -> c = 1) /\
  (forall a w', main fuel now w = (Ok a, w') -> r = (Ok a, w')) /\
  (forall c w', main fuel now w = (Exit c, w') -> r = (Exit 1, w')) /\
  (forall e w', main fuel now w = (Raise e, w') ->
     fst r = Exit 1 /\
     exists t a sg, head (trace (snd r)) = Some (Ev (Print t (MsgFatal e)) a sg)).
Proof.
  intros r. subst r. unfold script, try_except.
  pose proof (exits_main fuel now w) as Hexit.
  destruct (main fuel now w) as [[a|e|c] w1] eqn:Hmain; cbn [fst snd] in *.
  - split; [done|]. split; [done|]. split; [by intros ? ? [= <- <-]|]. by split.
  - destruct (log_exit_run (A:=option unit) (MsgFatal e) 1 w1) as (Hx & Hp).
    split; [by rewrite Hx|]. split; [rewrite Hx; by intros c [= <-]|].
    split; [done|]. split; [done|].
    intros e' w' [= <- <-]. by split.
  - rewrite (Hexit c eq_refl). split; [done|]. split; [by intros c' [= <-]|].
    split; [done|]. split; [by intros c' w' [= <- <-]|done].
Qed.

End ExitProperties.

Section LookupProperties.
Context {X : Type} {E : External X}.

(** On the ISO texts of valid datetimes, while the clock reads [now],
    the lookup returns the first of them that is after [now]. *)
Lemma next_scheduled_time_isoformat dts now (w : world X) :
  Forall valid dts ->
  let r := next_scheduled_time (isoformat <$> dts) w in
  Forall (reads now) (events_since w (snd r)) ->
  fst r = Ok (head (filter (lt now) dts)).
Proof.
  intros Hv. revert w. induction Hv as [|dt dts Hdt _ IH]; intros w r Hreads; [done|].
  subst r. rewrite fmap_cons in *. cbn [next_scheduled_time] in *.
  rewrite fromisoformat_isoformat in * by done.
  unfold datetime_now in *. rewrite bind_perform in *.
  set (w1 := after DatetimeNow w) in *.
  destruct (gtb dt (answer DatetimeNow w)) eqn:Hgt.
  - cbn [ret fst snd] in *.
    rewrite (events_since_app w w1 [Ev DatetimeNow (answer DatetimeNow w)
                                      (signalled DatetimeNow w)]) in Hreads by done.
    apply Forall_cons in Hreads as [Hnow _]. simpl in Hnow. rewrite Hnow in Hgt.
    by rewrite filter_cons_True.
  - destruct (next_scheduled_time_emits (fun _ => True) ltac:(done)
                (isoformat <$> dts) w1) as (evs & Ht & _).
    rewrite (events_since_app w _ (evs ++ [Ev DatetimeNow (answer DatetimeNow w)
                                             (signalled DatetimeNow w)])) in Hreads
      by (rewrite Ht; by rewrite <- app_assoc).
    apply Forall_app in Hreads as [Hevs Hnow].
    apply Forall_cons in Hnow as [Hnow _]. simpl in Hnow. rewrite Hnow in Hgt.
    rewrite <- (events_since_app w1 _ evs Ht) in Hevs.
    rewrite filter_cons_False by (unfold lt, gtb in *; congruence).
    by apply IH.
Qed.

Lemma head_filter_sorted (P : datetime -> Prop) `{!forall x, Decision (P x)}
    (dts : list datetime) dt :
  StronglySorted lt dts -> Forall valid dts ->
  head (filter P dts) = Some dt ->
  dt ∈ dts /\ P dt /\ forall dt', dt' ∈ dts -> P dt' -> le dt dt'.
Proof.
  induction 1 as [|d dts Hs IH Hall]; [done|].
  intros [Hd Hv]%Forall_cons. rewrite filter_cons.
  destruct (decide (P d)) as [HP|HP].
  - intros [= <-]. split; [by left|]. split; [done|].
    intros dt' [->|Hin]%elem_of_cons _.
    + by apply leb_stamp.
    + rewrite Forall_forall in Hall, Hv.
      apply leb_stamp; [done|by apply Hv|].
      specialize (Hall dt' Hin). apply ltb_stamp in Hall; [lia|done|by apply Hv].
  - intros Hh. destruct (IH Hv Hh) as (Hin & HPdt & Hmin).
    split; [by right|]. split; [done|].
    intros dt' [->|Hin']%elem_of_cons HP'; [done|by apply Hmin].
Qed.

(** X15.  A schedule as the generator returns it is served in order
    of time: whatever the clock reads afterwards, the lookup of the
    next due time returns the earliest of its timestamps that is still
    ahead, and nothing when none is. *)
Theorem fresh_schedule_is_served_in_order sh eh mn mx (w : world X) :
  valid_window sh eh mn mx ->
  let r := generate_schedule_for_today sh eh mn mx w in
  Forall lawful (events_since w (snd r)) ->
  exists dts,
    fst r = Ok (isoformat <$> dts) /\
    forall now (w' : world X),
      let r' := next_scheduled_time (isoformat <$> dts) w' in
      Forall (reads now) (events_since w' (snd r')) ->
      exists res,
        fst r' = Ok res /\
        match res with
        | Some dt =>
            dt ∈ dts /\ lt now dt /\
            forall dt', dt' ∈ dts -> lt now dt' -> le dt dt'
        | None => forall dt', dt' ∈ dts -> ~ lt now dt'
        end.
Proof.
  intros Hw r Hl.
  destruct (generate_schedule_spec sh eh mn mx w Hw Hl)
    as (Hnow & dts & offsets & Hr & Hrel & Hsorted & _).
  exists dts. split; [done|].
  assert (Hvalid : Forall valid dts).
  { clear -Hrel. induction Hrel as [|???? (? & _) _ IH]; by constructor. }
  assert (Hs : StronglySorted lt dts).
  { eapply stamps_sorted; [exact Hrel|].
    by apply StronglySorted_filter_lt. }
  intros now w' r' Hreads.
  exists (head (filter (lt now) dts)).
  split; [by apply next_scheduled_time_isoformat|].
  destruct (head (filter (lt now) dts)) as [dt|] eqn:Hh.
  - exact (head_filter_sorted (lt now) dts dt Hs Hvalid Hh).
  - apply head_None in Hh. intros dt' Hin Hlt.
    assert (dt' ∈ filter (lt now) dts) by (by apply list_elem_of_filter).
    rewrite Hh in *. by apply not_elem_of_nil in H.
Qed.
End LookupProperties.

Section CommitProperties.
Context {X : Type} {E : External X}.

(** X16.  A call of [append_activity_line] that returns has created
    the directory, written the header only when the file was reported
    absent, and appended one line as its last call: a dash, the time of
    the clock, and the phrase the random choice points at. *)
Theorem activity_line_is_appended_once repo file (w w' : world X) :
  append_activity_line repo file w = (Ok tt, w') ->
  let path := RepoFile repo file in
  exists (now : datetime) (i : nat) (present : bool) (s1 s2 s3 s4 s5 s6 : bool),
    events_since w w'
    = Ev (AppendText path
            ("- " +:+ strftime_datetime now +:+ " — "
                  +:+ default "" (phrases !! i) +:+ newline))
         (Returned tt) s6
      :: (if present then []
          else [Ev (WriteText path ("# Activity Log" +:+ newline +:+ newline))
                   (Returned tt) s5])
      ++ [Ev (PathExists path) present s4;
          Ev (RandChoice (length phrases)) i s3;
          Ev DatetimeNow now s2;
          Ev (MakeDirs (RepoFileDir repo file)) (Returned tt) s1].
Proof.
  intros Hrun path.
  unfold append_activity_line, perform_raising, datetime_now in Hrun.
  rewrite bind_assoc, bind_perform in Hrun.
  set (c1 := MakeDirs (RepoFileDir repo file)) in *.
  destruct (answer c1 w) as [[]|e] eqn:H1; [|done].
  cbn [lift] in Hrun. rewrite bind_ret, !bind_perform in Hrun.
  set (w1 := after c1 w) in *.
  set (now := answer DatetimeNow w1) in *.
  set (w2 := after DatetimeNow w1) in *.
  set (c3 := RandChoice (length phrases)) in *.
  set (i := answer c3 w2) in *.
  set (w3 := after c3 w2) in *.
  fold path in Hrun.
  set (c4 := PathExists path) in *.
  set (w4 := after c4 w3) in *.
  exists now, i, (answer c4 w3), (signalled c1 w), (signalled DatetimeNow w1),
    (signalled c3 w2), (signalled c4 w3).
  destruct (answer c4 w3) eqn:H4; cbn [negb] in Hrun.
  - rewrite bind_ret, bind_perform in Hrun.
    set (c6 := AppendText path _) in *.
    destruct (answer c6 w4) as [[]|e] eqn:H6; [|done].
    injection Hrun as <-.
    exists false, (signalled c6 w4).
    apply events_since_app. cbn [app]. rewrite trace_after, H6.
    subst w4. rewrite trace_after, H4.
    subst w3 w2 w1. by rewrite !trace_after, H1.
  - rewrite !bind_assoc, bind_perform in Hrun.
    set (c5 := WriteText path _) in *.
    destruct (answer c5 w4) as [[]|e] eqn:H5; [|done].
    cbn [lift] in Hrun. rewrite bind_ret, bind_perform in Hrun.
    set (w5 := after c5 w4) in *.
    set (c6 := AppendText path _) in *.
    destruct (answer c6 w5) as [[]|e] eqn:H6; [|done].
    injection Hrun as <-.
    exists (signalled c5 w4), (signalled c6 w5).
    apply events_since_app. cbn [app]. rewrite trace_after, H6.
    subst w5. rewrite trace_after, H5.
    subst w4. rewrite trace_after, H4.
    subst w3 w2 w1. by rewrite !trace_after, H1.
Qed.

Lemma run_git_command_returned args cwd allow_fail (w w' : world X) proc :
  run_git_command args cwd allow_fail w = (Ok proc, w') ->
  exists evs sg,
    trace w' = evs ++ Ev (SubprocessRun ("git" :: args) cwd) (Returned proc) sg :: trace w.
Proof.
  unfold run_git_command. rewrite bind_perform.
  set (c := SubprocessRun ("git" :: args) cwd).
  destruct (answer c w) as [p|e] eqn:Ha.
  - intros H. apply bind_ok_inv in H as ([] & w1 & Hlog & [= <- <-]).
    destruct (negb (returncode p =? 0) && negb allow_fail).
    + destruct (log_run (MsgGitFailed args (stderr p)) (after c w))
        as (_ & t & a & sg & sg' & Ht).
      rewrite Hlog in Ht. cbn [snd] in Ht.
      eexists _, _. rewrite Ht, trace_after, Ha. reflexivity.
    + injection Hlog as <-. exists [], (signalled c w).
      by rewrite trace_after, Ha.
  - destruct e; try done.
    intros H. by destruct (log_exit_run (A:=completed) MsgGitNotFound 1 (after c w))
      as (Hx & _); rewrite H in Hx.
Qed.

Lemma run_git_command_quiet P args cwd allow_fail :
  (forall a s, P (Ev (SubprocessRun ("git" :: args) cwd) a s)) ->
  (forall a s, P (Ev DatetimeNow a s)) ->
  (forall t m a s, P (Ev (Print t m) a s)) ->
  emits (X:=X) P (fun _ => True) (run_git_command args cwd allow_fail).
Proof.
  intros H1 H2 H3. unfold run_git_command, log, datetime_now. emits_go.
Qed.

(** X17.  [perform_commit] runs [git push] only when pushing is
    enabled and [git commit] has ended with the exit status 0: a failed
    commit, "nothing to commit" included, is never pushed. *)
Theorem push_only_after_a_commit repo file template push (w : world X) :
  let new := events_since w (snd (perform_commit repo file template push w)) in
  Exists pushes new -> push = true /\ Exists committed new.
Proof.
  intros new. subst new.
  generalize (eq_refl (perform_commit repo file template push w)).
  generalize (perform_commit repo file template push w) at 2 3 4 as r.
  intros r.
  assert (Hnow : forall a s, ~ pushes (Ev DatetimeNow a s)) by (intros; simpl; tauto).
  assert (Hprint : forall t m a s, ~ pushes (Ev (Print t m) a s))
    by (intros; simpl; tauto).
  assert (Hlog : forall m, emits (X:=X) (fun e => ~ pushes e) (fun _ => True) (log m)).
  { intros m. unfold log, datetime_now. emits_go. }
  assert (Hnone : forall evs, Forall (fun e => ~ pushes e) evs -> Exists pushes evs -> False).
  { intros evs HP (e0 & Hin & He0)%Exists_exists.
    rewrite Forall_forall in HP. by destruct (HP e0 Hin). }
  unfold perform_commit.
  unfold bind at 1.
  destruct (run_git_command_quiet (fun e => ~ pushes e) ["add"; file] repo false
              ltac:(intros; simpl; tauto) Hnow Hprint w) as (evs1 & Ht1 & HP1 & _).
  destruct (run_git_command ["add"; file] repo false w) as [[p1|e|c] w1] eqn:H1;
    cbn [fst snd] in *.
  2,3: intros <-; cbn [snd]; rewrite (events_since_app w _ evs1 Ht1); intros Hpush;
       by destruct (Hnone evs1).
  unfold datetime_now. rewrite bind_perform.
  set (now := answer DatetimeNow w1) in *.
  set (w2 := after DatetimeNow w1) in *.
  set (args := ["commit"; "-m"; template +:+ " (" +:+ isoformat_seconds now +:+ ")"]) in *.
  unfold bind at 1.
  destruct (run_git_command_quiet (fun e => ~ pushes e) args repo true
              ltac:(intros; simpl; tauto) Hnow Hprint w2) as (evs3 & Ht3 & HP3 & _).
  assert (Hbefore : trace (snd (run_git_command args repo true w2))
                    = (evs3 ++ Ev DatetimeNow now (signalled DatetimeNow w1) :: evs1)
                        ++ trace w).
  { rewrite Ht3. subst w2. rewrite trace_after, Ht1. by rewrite <- app_assoc. }
  assert (Hquiet : Forall (fun e => ~ pushes e)
                     (evs3 ++ Ev DatetimeNow now (signalled DatetimeNow w1) :: evs1)).
  { apply Forall_app. split; [done|]. apply Forall_cons_2; [apply Hnow|done]. }
  set (before := evs3 ++ _ :: evs1) in *.
  destruct (run_git_command args repo true w2) as [[proc|e|c] w3] eqn:H3;
    cbn [fst snd] in *.
  2,3: intros <-; cbn [snd]; rewrite (events_since_app w _ before Hbefore);
       intros Hpush; by destruct (Hnone before).
  assert (Hno : forall (m : prog X unit),
             emits (fun e => ~ pushes e) (fun _ => True) m ->
             Exists pushes (events_since w (snd (m w3))) -> False).
  { intros m Hm Hex. destruct (Hm w3) as (evs & Ht & HP & _).
    rewrite (events_since_app w _ (evs ++ before)) in Hex
      by (by rewrite Ht, Hbefore, <- app_assoc).
    apply (Hnone (evs ++ before)); [by apply Forall_app|done]. }
  destruct (Z.eqb_spec (returncode proc) 0) as [Hz|Hz]; cbn [negb].
  2: { intros <- Hpush. exfalso.
       destruct (contains _ _); eapply Hno; try exact Hpush; apply Hlog. }
  destruct push.
  2: { intros <- Hpush. exfalso. eapply Hno; [|exact Hpush].
       unfold log, datetime_now. emits_go. }
  intros <- _. split; [done|].
  destruct (run_git_command_returned _ _ _ _ _ _ H3) as (evs' & sg & Ht').
  set (m := (log MsgCommitCreated;; _)) in *.
  assert (Hext : exists evs, trace (snd (m w3)) = evs ++ trace w3).
  { assert (Hm : emits (fun _ => True) (fun _ => True) m).
    { unfold m, run_git_command, log, datetime_now. emits_go. }
    destruct (Hm w3) as (evs & Ht & _). by exists evs. }
  destruct Hext as (evs & Ht).
  rewrite (events_since_app w _ (evs ++ before))
    by (by rewrite Ht, Hbefore, <- app_assoc).
  apply Exists_app. right.
  assert (Heq : before = evs' ++ [Ev (SubprocessRun ("git" :: args) repo)
                                    (Returned proc) sg]
                         ++ Ev DatetimeNow now (signalled DatetimeNow w1) :: evs1).
  { apply (app_inv_tail (trace w)). rewrite <- Hbefore, Ht'.
    subst w2. rewrite trace_after, Ht1. by rewrite <- !app_assoc. }
  rewrite Heq. apply Exists_app. right. apply Exists_cons_hd. exact Hz.
Qed.

Lemma perform_raising_ok {T} (c : call (result T)) (w w' : world X) a :
  perform_raising c w = (Ok a, w') -> answer c w = Returned a /\ w' = after c w.
Proof.
  unfold perform_raising. rewrite bind_perform.
  destruct (answer c w) as [a'|e]; [|done]. by intros [= <- <-].
Qed.

(** A call of [run_git_command] that returns has run [git] and, after
    it, at most printed a line. *)
Lemma run_git_command_logs P args cwd allow_fail (w w' : world X) proc :
  (forall a s, P (Ev DatetimeNow a s)) ->
  (forall t m a s, P (Ev (Print t m) a s)) ->
  run_git_command args cwd allow_fail w = (Ok proc, w') ->
  exists evs sg,
    trace w' = evs ++ Ev (SubprocessRun ("git" :: args) cwd) (Returned proc) sg :: trace w /\
    Forall P evs.
Proof.
  intros Hnow Hprint. unfold run_git_command. rewrite bind_perform.
  set (c := SubprocessRun ("git" :: args) cwd).
  destruct (answer c w) as [p|e] eqn:Ha.
  - intros H. apply bind_ok_inv in H as ([] & w1 & Hlog & [= <- <-]).
    destruct (negb (returncode p =? 0) && negb allow_fail).
    + destruct (log_run (MsgGitFailed args (stderr p)) (after c w))
        as (_ & t & a & sg & sg' & Ht).
      rewrite Hlog in Ht. cbn [snd] in Ht.
      eexists _, _. rewrite Ht, trace_after, Ha. split; [reflexivity|].
      by repeat constructor.
    + injection Hlog as <-. exists [], (signalled c w).
      by rewrite trace_after, Ha.
  - destruct e; try done.
    intros H. by destruct (log_exit_run (A:=completed) MsgGitNotFound 1 (after c w))
      as (Hx & _); rewrite H in Hx.
Qed.

(** A call of [append_activity_line] that returns has appended a line
    to the activity file as its last call, and nothing before. *)
Lemma append_activity_line_last repo file (w w' : world X) :
  append_activity_line repo file w = (Ok tt, w') ->
  exists line s before,
    trace w' = Ev (AppendText (RepoFile repo file) line) (Returned tt) s :: before ++ trace w /\
    Forall (fun e => ~ cycle_call e) before.
Proof.
  unfold append_activity_line, datetime_now. cbv zeta. intros H.
  apply bind_ok_inv in H as ([] & w1 & [H1 ->]%perform_raising_ok & H).
  rewrite !bind_perform in H.
  set (w4 := after (PathExists _) _) in H.
  apply bind_ok_inv in H as ([] & w5 & H5 & [H6 ->]%perform_raising_ok).
  assert (Hw5 : exists evs, trace w5 = evs ++ trace w4 /\
                            Forall (fun e => ~ cycle_call e) evs).
  { destruct (negb _) in H5.
    - apply perform_raising_ok in H5 as [_ ->]. eexists [_]. split; [done|].
      apply Forall_cons_2; [simpl; tauto|done].
    - injection H5 as <-. by exists []. }
  destruct Hw5 as (evs & Ht5 & Hevs).
  eexists _, _, (evs ++ [_; _; _; _]).
  rewrite trace_after, H6, Ht5. subst w4. rewrite !trace_after.
  split; [by rewrite <- app_assoc|].
  apply Forall_app. split; [done|].
  repeat (apply Forall_cons_2; [simpl; tauto|]). done.
Qed.

(** X12.  With [--now] the program makes one commit and stops: it
    installs no signal handler, never sleeps, draws no schedule and
    neither reads nor writes the state file; when it returns, it has
    appended one line to the activity file of the repository, then run
    [git add] on that file, then [git commit] with a message, each of
    them once in the whole run and each without an exception, and the
    last thing it did was to print that the immediate commit is done. *)
Theorem immediate_mode_commits_once fuel (w : world X) :
  let r := main fuel true w in
  handler_installed (snd r) = handler_installed w /\
  Forall immediate (events_since w (snd r)) /\
  forall res, fst r = Ok res ->
    res = Some tt /\
    (exists t a sg,
        head (trace (snd r)) = Some (Ev (Print t MsgImmediateDone) a sg)) /\
    exists cfg w1 line msg p1 p2 s1 s2 s3 later mid before,
      prelude w = (Ok cfg, w1) /\
      events_since w (snd r)
      = later
          ++ Ev (SubprocessRun ["git"; "commit"; "-m"; msg] (repo_path cfg))
                (Returned p2) s3
          :: mid
          ++ Ev (SubprocessRun ["git"; "add"; commit_file cfg] (repo_path cfg))
                (Returned p1) s2
          :: Ev (AppendText (RepoFile (repo_path cfg) (commit_file cfg)) line)
                (Returned tt) s1
          :: before /\
      Forall (fun e => ~ cycle_call e) (later ++ mid ++ before).
Proof.
  intros r. subst r.
  assert (Hem : emits immediate (fun res => res = Some tt) (main fuel true)).
  { unfold main, prelude, read_config, ensure_git_repo, maybe_set_git_identity,
      append_activity_line, perform_commit, run_git_command, perform_raising,
      log, datetime_now.
    emits_go. }
  destruct (Hem w) as (evs & Ht & HP & Hh & _ & HQ).
  split; [done|]. split; [by rewrite (events_since_app w _ evs Ht)|].
  intros res Hres. split; [by apply HQ|].
  destruct (main fuel true w) as [o w'] eqn:Hmain. cbn [fst snd] in *. subst o.
  unfold main in Hmain.
  apply bind_ok_inv in Hmain as (cfg & w1 & Hpre & Hmain).
  apply bind_ok_inv in Hmain as ([] & w2 & Happ & Hmain).
  apply bind_ok_inv in Hmain as ([] & w3 & Hcommit & Hmain).
  apply bind_ok_inv in Hmain as ([] & w4 & Hlog & [= _ <-]).
  destruct (log_run MsgImmediateDone w3) as (_ & t & a & sg & sg' & Htr).
  rewrite Hlog in Htr. cbn [snd] in Htr.
  split; [rewrite Htr; by exists t, a, sg|].
  assert (Hnow : forall a s, ~ cycle_call (Ev DatetimeNow a s)) by (intros; simpl; tauto).
  assert (Hprint : forall t m a s, ~ cycle_call (Ev (Print t m) a s))
    by (intros; simpl; tauto).
  (* the checks before the commit *)
  assert (Hquiet : emits (X:=X) (fun e => ~ cycle_call e) (fun _ => True) prelude).
  { unfold prelude, read_config, ensure_git_repo, maybe_set_git_identity,
      run_git_command, perform_raising, log, datetime_now.
    emits_go. }
  destruct (Hquiet w) as (evs0 & Ht0 & HP0 & _).
  rewrite Hpre in Ht0. cbn [snd] in Ht0.
  (* the append *)
  destruct (append_activity_line_last _ _ _ _ Happ) as (line & s1 & evs1 & Ht1 & HP1).
  (* the commit *)
  unfold perform_commit in Hcommit.
  apply bind_ok_inv in Hcommit as (p1 & wa & Hadd & Hcommit).
  destruct (run_git_command_logs (fun e => ~ cycle_call e) _ _ _ _ _ _ Hnow Hprint Hadd)
    as (evs2 & s2 & Ht2 & HP2).
  unfold datetime_now in Hcommit. rewrite bind_perform in Hcommit.
  set (wb := after DatetimeNow wa) in Hcommit.
  set (msg := (_ +:+ " (" +:+ _ +:+ ")")) in Hcommit.
  apply bind_ok_inv in Hcommit as (p2 & wc & Hci & Hrest).
  destruct (run_git_command_logs (fun e => ~ cycle_call e) _ _ _ _ _ _ Hnow Hprint Hci)
    as (evs3 & s3 & Ht3 & HP3).
  assert (Hafter : exists evs4, trace w3 = evs4 ++ trace wc /\
                                Forall (fun e => ~ cycle_call e) evs4).
  { set (m := if negb (returncode p2 =? 0) then _ else _) in Hrest.
    assert (Hm : emits (X:=X) (fun e => ~ cycle_call e) (fun _ => True) m).
    { unfold m, run_git_command, log, datetime_now. emits_go. }
    destruct (Hm wc) as (evs4 & Ht4 & HP4 & _).
    rewrite Hrest in Ht4. by exists evs4. }
  destruct Hafter as (evs4 & Ht4 & HP4).
  exists cfg, w1, line, msg, p1, p2, s1, s2, s3,
    ([Ev (Print t MsgImmediateDone) a sg; Ev DatetimeNow t sg'] ++ evs4 ++ evs3),
    (Ev DatetimeNow (answer DatetimeNow wa) (signalled DatetimeNow wa) :: evs2),
    (evs1 ++ evs0).
  split; [done|]. split.
  - apply events_since_app. rewrite Htr, Ht4, Ht3. subst wb.
    rewrite trace_after, Ht2, Ht1, Ht0.
    rewrite <- ?app_assoc. cbn [app]. rewrite <- ?app_assoc. cbn [app].
    by rewrite <- ?app_assoc.
  - rewrite !Forall_app. repeat split; try done.
    + by repeat constructor.
    + by apply Forall_cons_2.
Qed.
End CommitProperties.

Section IdleProperties.
Context {X : Type} {E : External X}.

Lemma next_scheduled_time_waits l :
  emits (X:=X) waits (fun _ => True) (next_scheduled_time l).
Proof.
  induction l as [|s l IH]; cbn [next_scheduled_time]; unfold datetime_now.
  - by apply emits_ret.
  - destruct (fromisoformat s); [|done].
    apply (emits_bind _ (fun _ => True)); [emits_go|intros now _].
    destruct (gtb _ _); [by apply emits_ret|done].
Qed.

Lemma idle_sleep_waits cfg now :
  emits (X:=X) waits (fun r => r = Some tt) (idle_sleep cfg now).
Proof.
  unfold idle_sleep, log, datetime_now.
  destruct (add_days now 1) as [tomorrow|]; cbn [or_raise]; [|apply emits_raise].
  apply (emits_bind _ (fun _ => True)); [by apply emits_ret|intros ? _].
  destruct (replace_hour _ _) as [next_day|]; cbn [or_raise]; [|apply emits_raise].
  apply (emits_bind _ (fun _ => True)); [by apply emits_ret|intros ? _].
  apply (emits_bind _ (fun _ => True)); [emits_go|intros ? _].
  unfold sleep_in_chunks.
  apply (sleep_loop_emits waits SLEEP_IDLE_CAP); [done|done|].
  unfold sleep_need, sleep_fuel. rewrite Z.sub_0_r.
  destruct (_ <=? 0) eqn:Hr; [lia|]. apply Z.leb_gt in Hr.
  assert (0 <= Z.max SLEEP_FLOOR (sub_us a0 now) / SLEEP_IDLE_CAP)
    by (apply Z.div_pos; [lia|done]). lia.
Qed.

(** X18.  An iteration that finds the state dated today and no
    pending time due commits nothing: it touches neither the repository
    nor the state file, its calls are clock reads, log lines and sleeps,
    and the loop goes on with the same state and pending times. *)
Theorem nothing_due_nothing_done cfg v (w : world X) :
  let now := answer DatetimeNow w in
  py_get (state v) "date" = Returned (JStr (strftime_date now)) ->
  fst (next_scheduled_time (scheduled_times v) (after DatetimeNow w)) = Ok None ->
  let r := iteration cfg v w in
  Forall waits (events_since w (snd r)) /\
  forall c, fst r = Ok c -> c = Some (Next v).
Proof.
  intros now Hdate Hnone r. subst r.
  assert (Hrun : iteration cfg v w
                 = (let* nxt := next_scheduled_time (scheduled_times v) in
                    match nxt with
                    | None => let* slept := idle_sleep cfg now in
                              ret (option_map (fun _ => Next v) slept)
                    | Some nxt => ret None
                    end) (after DatetimeNow w)).
  { unfold iteration, datetime_now. rewrite bind_perform. fold now.
    rewrite Hdate. cbn [lift]. rewrite bind_ret.
    unfold differs_from. rewrite String.eqb_refl. cbn [negb]. rewrite bind_ret.
    unfold proceed, bind.
    destruct (next_scheduled_time _ _) as [[[nxt|]|?|?] w2]; done. }
  rewrite Hrun. clear Hrun.
  set (w1 := after DatetimeNow w) in *.
  unfold bind at 1 3.
  destruct (next_scheduled_time_waits (scheduled_times v) w1) as (evs1 & Ht1 & HP1 & _).
  destruct (next_scheduled_time (scheduled_times v) w1) as [[nxt|?|?] w2];
    cbn [fst snd] in *; try done.
  injection Hnone as ->.
  unfold bind.
  destruct (idle_sleep_waits cfg now w2) as (evs2 & Ht2 & HP2 & _ & _ & HQ).
  destruct (idle_sleep cfg now w2) as [[slept|?|?] w3]; cbn [fst snd ret] in *.
  1: rewrite (HQ slept eq_refl).
  all: rewrite (events_since_app w _
                  (evs2 ++ evs1 ++ [Ev DatetimeNow now (signalled DatetimeNow w)]))
         by (rewrite Ht2, Ht1; by rewrite <- !app_assoc).
  all: split; [repeat (apply Forall_app; split; [done|]);
               by apply Forall_singleton|].
  all: by intros c [= <-].
Qed.


End IdleProperties.

(** ** The [.env] file *)

Section Dotenv.

Lemma lstrip_all p a l : Forall (fun c => p c = true) a -> lstrip p (a ++ l) = lstrip p l.
Proof. induction 1 as [|c a Hc _ IH]; [done|]. simpl. by rewrite Hc. Qed.

Lemma lstrip_head p l c : head l = Some c -> p c = false -> lstrip p l = l.
Proof. destruct l as [|c' l]; [done|]. intros [= ->] Hc. simpl. by rewrite Hc. Qed.

Lemma lstrip_nil p a : Forall (fun c => p c = true) a -> lstrip p a = [].
Proof. intros Ha. rewrite <- (app_nil_r a). by rewrite lstrip_all. Qed.

Lemma head_rev {A} (l : list A) : head (rev l) = last l.
Proof.
  induction l as [|x l IH] using rev_ind; [done|].
  by rewrite rev_app_distr, last_snoc.
Qed.

(** Stripping removes the characters of the set around a text whose
    ends are not in the set, and nothing of the text. *)
Lemma strip_around p a l b :
  Forall (fun c => p c = true) a -> Forall (fun c => p c = true) b ->
  trimmed p l -> strip p (a ++ l ++ b) = l.
Proof.
  intros Ha Hb [(c & Hc & Hpc) (d & Hd & Hpd)].
  unfold strip, rstrip.
  rewrite lstrip_all by done.
  rewrite (lstrip_head p (l ++ b) c); [|by destruct l|done].
  rewrite rev_app_distr, lstrip_all by (by apply Forall_rev).
  rewrite (lstrip_head p (rev l) d); [by rewrite rev_involutive|by rewrite head_rev|done].
Qed.

Lemma split_equals_first k v :
  "="%char ∉ k -> split_equals (k ++ "="%char :: v) = Some (k, v).
Proof.
  induction k as [|c k IH]; intros Hk; [done|].
  apply not_elem_of_cons in Hk as [Hc Hk]. simpl.
  destruct (Ascii.eqb_spec c "="%char) as [->|_]; [done|].
  by rewrite IH.
Qed.

Lemma trimmed_weaken (p q : ascii -> bool) l :
  (forall c, q c = false -> p c = false) -> trimmed q l -> trimmed p l.
Proof.
  intros Hpq [(c & ? & ?) (d & ? & ?)].
  split; [exists c|exists d]; auto.
Qed.

(** X20.  What a line of [.env] assigns: blanks around the line,
    around the name and around the value are dropped, and so are double
    quotes, then single quotes, around the value; the name ends at the
    first ["="] and the rest of the line, further ["="] included, is
    the value. *)
Theorem dotenv_line_is_read_back pre key mid1 mid2 dq sq value sq' dq' post :
  let blank c := py_isspace c = true in
  let quote c := py_isspace c || Ascii.eqb double_quote c || Ascii.eqb single_quote c in
  Forall blank pre -> Forall blank mid1 -> Forall blank mid2 -> Forall blank post ->
  Forall (fun c => c = double_quote) dq -> Forall (fun c => c = double_quote) dq' ->
  Forall (fun c => c = single_quote) sq -> Forall (fun c => c = single_quote) sq' ->
  trimmed py_isspace key -> "="%char ∉ key -> head key <> Some "#"%char ->
  trimmed quote value ->
  dotenv_assignment
    (pre ++ key ++ mid1 ++ "="%char :: mid2 ++ dq ++ sq ++ value ++ sq' ++ dq' ++ post)
  = Some (key, value).
Proof.
  intros blank quote Hpre Hmid1 Hmid2 Hpost Hdq Hdq' Hsq Hsq' Hkey Heq Hhash Hvalue.
  set (rest := dq ++ sq ++ value ++ sq' ++ dq').
  assert (Hv1 : trimmed py_isspace value).
  { eapply trimmed_weaken; [|exact Hvalue]. intros c Hc. unfold quote in Hc.
    by destruct (py_isspace c). }
  assert (Hv2 : trimmed (Ascii.eqb double_quote) value).
  { eapply trimmed_weaken; [|exact Hvalue]. intros c Hc. unfold quote in Hc.
    destruct (py_isspace c), (Ascii.eqb double_quote c); done. }
  assert (Hv3 : trimmed (Ascii.eqb single_quote) value).
  { eapply trimmed_weaken; [|exact Hvalue]. intros c Hc. unfold quote in Hc.
    destruct (py_isspace c), (Ascii.eqb double_quote c), (Ascii.eqb single_quote c); done. }
  assert (Hnotblank : forall c, c = double_quote \/ c = single_quote -> py_isspace c = false)
    by (by intros c [-> | ->]).
  assert (Hrest : trimmed py_isspace rest).
  { destruct Hv1 as [(c & Hc & Hpc) (d & Hd & Hpd)]. unfold rest. split.
    - destruct dq as [|q dq]; [destruct sq as [|q sq]|].
      + exists c. split; [|done]. by destruct value.
      + exists q. apply Forall_cons in Hsq as [-> _]. by split.
      + exists q. apply Forall_cons in Hdq as [-> _]. by split.
    - destruct dq' as [|q dq' _] using rev_ind; [destruct sq' as [|q sq' _] using rev_ind|].
      + exists d. split; [|done]. rewrite !app_nil_r.
        destruct value as [|x value _] using rev_ind; [done|].
        by rewrite !app_assoc, last_snoc in *.
      + exists q. apply Forall_app in Hsq' as [_ [-> _]%Forall_cons].
        split; [|done]. rewrite app_nil_r. by rewrite !app_assoc, last_snoc.
      + exists q. apply Forall_app in Hdq' as [_ [-> _]%Forall_cons].
        split; [|done]. by rewrite !app_assoc, last_snoc. }
  set (body := key ++ mid1 ++ "="%char :: mid2 ++ rest).
  assert (Hbody : trimmed py_isspace body).
  { destruct Hkey as [(c & Hc & Hpc) _]. destruct Hrest as [_ (d & Hd & Hpd)].
    unfold body. split.
    - exists c. split; [|done]. by destruct key.
    - exists d. split; [|done].
      destruct rest as [|x rest' _] using rev_ind; [done|].
      rewrite last_snoc in Hd.
      replace (key ++ mid1 ++ "="%char :: mid2 ++ rest' ++ [x])
        with ((key ++ mid1 ++ "="%char :: mid2 ++ rest') ++ [x])
        by (by rewrite <- !app_assoc, <- app_comm_cons, <- !app_assoc).
      by rewrite last_snoc. }
  assert (Hk1 : strip py_isspace (key ++ mid1) = key)
    by (by apply (strip_around py_isspace [] key mid1)).
  assert (Hk2 : strip py_isspace (mid2 ++ rest) = rest).
  { replace (mid2 ++ rest) with (mid2 ++ rest ++ []) by (by rewrite app_nil_r).
    by apply strip_around. }
  assert (Hdq1 : Forall (fun c => Ascii.eqb double_quote c = true) dq)
    by (eapply Forall_impl; [exact Hdq|]; intros ? ->; apply Ascii.eqb_refl).
  assert (Hdq2 : Forall (fun c => Ascii.eqb double_quote c = true) dq')
    by (eapply Forall_impl; [exact Hdq'|]; intros ? ->; apply Ascii.eqb_refl).
  assert (Hsq1 : Forall (fun c => Ascii.eqb single_quote c = true) sq)
    by (eapply Forall_impl; [exact Hsq|]; intros ? ->; apply Ascii.eqb_refl).
  assert (Hsq2 : Forall (fun c => Ascii.eqb single_quote c = true) sq')
    by (eapply Forall_impl; [exact Hsq'|]; intros ? ->; apply Ascii.eqb_refl).
  assert (Hk3 : strip (Ascii.eqb double_quote) rest = sq ++ value ++ sq').
  { unfold rest.
    replace (dq ++ sq ++ value ++ sq' ++ dq') with (dq ++ (sq ++ value ++ sq') ++ dq')
      by (by rewrite <- !app_assoc).
    apply strip_around; [done|done|].
    destruct Hv2 as [(x & Hx & Hpx) (y & Hy & Hpy)]. split.
    + destruct sq as [|q sq]; [exists x; split; [by destruct value|done]|].
      exists q. apply Forall_cons in Hsq as [-> _]. by split.
    + destruct sq' as [|q sq' _] using rev_ind.
      * exists y. split; [|done]. rewrite app_nil_r.
        destruct value as [|z value _] using rev_ind; [done|].
        by rewrite !app_assoc, last_snoc in *.
      * exists q. apply Forall_app in Hsq' as [_ [-> _]%Forall_cons].
        split; [|done]. by rewrite !app_assoc, last_snoc. }
  assert (Hk4 : strip (Ascii.eqb single_quote) (sq ++ value ++ sq') = value)
    by (by apply strip_around).
  unfold dotenv_assignment.
  replace (pre ++ key ++ mid1 ++ "="%char :: mid2 ++ dq ++ sq ++ value ++ sq' ++ dq' ++ post)
    with (pre ++ body ++ post)
    by (unfold body, rest; by rewrite <- !app_assoc, <- app_comm_cons, <- !app_assoc).
  rewrite strip_around by done.
  assert (Hsplit : split_equals body = Some (key ++ mid1, mid2 ++ rest)).
  { unfold body. rewrite (app_assoc key mid1). apply split_equals_first.
    intros [Hin|Hin]%elem_of_app; [done|].
    rewrite Forall_forall in Hmid1. by specialize (Hmid1 _ Hin). }
  rewrite Hsplit. cbv zeta. rewrite Hk1, Hk2, Hk3, Hk4.
  destruct Hkey as [(c & Hc & Hpc) _].
  assert (Hb : head body = Some c) by (unfold body; by destruct key).
  destruct body as [|c' body']; [done|]. injection Hb as ->.
  destruct (Ascii.eqb_spec c "#"%char) as [->|_]; [done|].
  destruct Hv1 as [(x & Hx & _) _].
  destruct key; [done|]. by destruct value.
Qed.

Lemma load_lines_spec lines (environ : gmap string string) :
  environ ⊆ fst (load_lines lines environ) /\
  forall key value,
    fst (load_lines lines environ) !! key = Some value -> environ !! key = None ->
    exists before line rest k v,
      lines = before ++ line :: rest /\
      dotenv_assignment (list_ascii_of_string line) = Some (k, v) /\
      string_of_list_ascii k = key /\ string_of_list_ascii v = value /\
      Forall (fun l => ~ assigns key l) before.
Proof.
  revert environ. induction lines as [|line lines IH]; intros environ.
  { split; [done|]. intros key value H1 H2. simpl in H1. congruence. }
  cbn [load_lines]. unfold load_line.
  destruct (dotenv_assignment (list_ascii_of_string line)) as [[k0 v0]|] eqn:Hline.
  2: { destruct (IH environ) as [Hsub Hprov]. split; [done|].
       intros key value H1 H2.
       destruct (Hprov key value H1 H2) as (before & l & rest & k & v & -> & ? & ? & ? & ?).
       exists (line :: before), l, rest, k, v. repeat split; try done.
       constructor; [|done]. intros (k' & v' & Hk' & _). congruence. }
  cbv zeta.
  destruct (environ !! string_of_list_ascii k0) as [old|] eqn:Hold.
  { destruct (IH environ) as [Hsub Hprov]. split; [done|].
    intros key value H1 H2.
    destruct (Hprov key value H1 H2) as (before & l & rest & k & v & -> & ? & ? & ? & ?).
    exists (line :: before), l, rest, k, v. repeat split; try done.
    constructor; [|done]. intros (k' & v' & Hk' & Heq). congruence. }
  unfold setenv. destruct (has_nul _ || has_nul _).
  { split; [done|]. intros key value H1 H2. simpl in H1. congruence. }
  set (environ' := <[string_of_list_ascii k0 := string_of_list_ascii v0]> environ).
  destruct (IH environ') as [Hsub Hprov].
  assert (Hext : environ ⊆ environ') by (by apply insert_subseteq).
  split; [by etrans|].
  intros key value H1 H2.
  destruct (decide (string_of_list_ascii k0 = key)) as [Hk|Hk].
  - assert (environ' !! key = Some (string_of_list_ascii v0))
      by (subst key; apply lookup_insert_eq).
    assert (fst (load_lines lines environ') !! key = Some (string_of_list_ascii v0))
      by (eapply lookup_weaken; [done|exact Hsub]).
    exists [], line, lines, k0, v0.
    split; [done|]. split; [done|]. split; [done|]. split; [congruence|constructor].
  - assert (environ' !! key = None)
      by (unfold environ'; by rewrite lookup_insert_ne).
    destruct (Hprov key value H1 H) as (before & l & rest & k & v & -> & ? & ? & ? & ?).
    exists (line :: before), l, rest, k, v. repeat split; try done.
    constructor; [|done]. intros (k' & v' & Hk' & Heq). congruence.
Qed.

(** X21.  [load_env_from_dotenv] never changes a variable that the
    environment already has, and does nothing when there is no [.env]
    file; a variable it adds has the name and the value of the first
    line of the file that assigns to this name. *)
Theorem dotenv_never_overrides isfile lines failure (environ : gmap string string) :
  let r := load_env_from_dotenv isfile lines failure environ in
  environ ⊆ fst r /\
  (isfile = false -> r = (environ, None)) /\
  forall key value,
    fst r !! key = Some value -> environ !! key = None ->
    exists before line rest k v,
      lines = before ++ line :: rest /\
      dotenv_assignment (list_ascii_of_string line) = Some (k, v) /\
      string_of_list_ascii k = key /\ string_of_list_ascii v = value /\
      Forall (fun l => ~ assigns key l) before.
Proof.
  intros r. subst r. unfold load_env_from_dotenv.
  destruct isfile; cbn [negb].
  - destruct (load_lines_spec lines environ) as [Hsub Hprov].
    destruct (load_lines lines environ) as [environ' [e|]]; cbn [fst] in *;
      (split; [done|]); (split; [done|]); exact Hprov.
  - split; [done|]. split; [done|]. intros key value H1 H2. simpl in H1. congruence.
Qed.
End Dotenv.

(** ** The further properties on concrete runs *)

(** The checks pass on the configuration of the farm. *)
Lemma read_config_accepts_exactly_valid_witness :
  let w := boot (quiet_day (at_time 9 0 0) 1 3 []) in
  let cfg := farm_config 1 3 in
  (answer Environ w = Returned cfg /\
   repo_path cfg <> "" /\
   answer (IsDir (Dir (repo_path cfg))) (after Environ w) = true /\
   valid_window (work_start_hour cfg) (work_end_hour cfg)
                (min_commits cfg) (max_commits cfg)) /\
  exists w', read_config w = (Ok cfg, w').
Proof.
  cbv zeta.
  assert (H : answer Environ (boot (quiet_day (at_time 9 0 0) 1 3 []))
              = Returned (farm_config 1 3) /\
              repo_path (farm_config 1 3) <> "" /\
              answer (IsDir (Dir (repo_path (farm_config 1 3))))
                     (after Environ (boot (quiet_day (at_time 9 0 0) 1 3 []))) = true /\
              valid_window (work_start_hour (farm_config 1 3))
                           (work_end_hour (farm_config 1 3))
                           (min_commits (farm_config 1 3)) (max_commits (farm_config 1 3))).
  { split; [reflexivity|]. split; [done|]. split; [reflexivity|].
    unfold valid_window; simpl; lia. }
  exact (conj H (proj2 (read_config_accepts_exactly_valid _ _) H)).
Defined.

(** A window that ends before it starts. *)
Lemma read_config_rejects_invalid_witness :
  let cfg := mkConfig "/srv/farm" 22 10 1 3 DEFAULT_COMMIT_FILE "chore" true "" "" in
  let w := boot (mkSim (at_time 9 0 0) None true git_ok 1 [] None (Returned cfg)) in
  let r := read_config w in
  answer Environ w = Returned cfg /\
  (repo_path cfg = "" \/
   answer (IsDir (Dir (repo_path cfg))) (after Environ w) = false \/
   ~ valid_window (work_start_hour cfg) (work_end_hour cfg)
                  (min_commits cfg) (max_commits cfg)) /\
  (fst r = Exit 1 /\
   (exists t msg a sg, head (trace (snd r)) = Some (Ev (Print t msg) a sg)) /\
   (repo_path cfg = "" ->
    exists t a sg t' sg',
      events_since w (snd r)
      = [Ev (Print t MsgRepoPathNotSet) a sg; Ev DatetimeNow t' sg';
         Ev Environ (Returned cfg) (signalled Environ w)])).
Proof.
  cbv zeta.
  set (cfg := mkConfig "/srv/farm" 22 10 1 3 DEFAULT_COMMIT_FILE "chore" true "" "").
  set (w := boot (mkSim (at_time 9 0 0) None true git_ok 1 [] None (Returned cfg))).
  assert (H1 : answer Environ w = Returned cfg) by reflexivity.
  assert (H2 : repo_path cfg = "" \/
               answer (IsDir (Dir (repo_path cfg))) (after Environ w) = false \/
               ~ valid_window (work_start_hour cfg) (work_end_hour cfg)
                              (min_commits cfg) (max_commits cfg)).
  { right. right. unfold valid_window. simpl. lia. }
  exact (conj H1 (conj H2 (read_config_rejects_invalid w cfg H1 H2))).
Defined.

(** At 22:30 the window from 10:00 to 22:00 is over. *)
Lemma generator_after_window_witness :
  let w := boot (quiet_day (at_time 22 30 0) 1 3 [7200; 60; 3600]) in
  let now := answer DatetimeNow w in
  0 <= 10 <= 23 /\ 0 <= 22 <= 23 /\
  lt (window_start now 22) now /\
  generate_schedule_for_today 10 22 1 3 w = (Ok [], after DatetimeNow w).
Proof.
  cbv zeta.
  set (w := boot (quiet_day (at_time 22 30 0) 1 3 [7200; 60; 3600])).
  assert (H1 : 0 <= 10 <= 23) by lia.
  assert (H2 : 0 <= 22 <= 23) by lia.
  assert (H3 : lt (window_start (answer DatetimeNow w) 22) (answer DatetimeNow w))
    by (vm_compute; reflexivity).
  exact (conj H1 (conj H2 (conj H3 (generator_after_window 10 22 1 3 w H1 H2 H3)))).
Defined.

(** At 09:00, with three commits drawn, the schedule has three entries. *)
Lemma generator_count_before_window_witness :
  let w := boot (quiet_day (at_time 9 0 0) 1 3 [7200; 60; 3600]) in
  let r := generate_schedule_for_today 10 22 1 3 w in
  let now := answer DatetimeNow w in
  valid_window 10 22 1 3 /\
  Forall lawful (events_since w (snd r)) /\
  lt now (window_start now 10) /\
  exists times,
    fst r = Ok times /\
    Z.min 1 ((22 - 10) * 3600) <= Z.of_nat (length times) <= Z.min 3 ((22 - 10) * 3600).
Proof.
  cbv zeta.
  set (w := boot (quiet_day (at_time 9 0 0) 1 3 [7200; 60; 3600])).
  assert (H1 : valid_window 10 22 1 3) by (unfold valid_window; lia).
  assert (H2 : Forall lawful
                 (events_since w (snd (generate_schedule_for_today 10 22 1 3 w))))
    by by_computation.
  assert (H3 : lt (answer DatetimeNow w) (window_start (answer DatetimeNow w) 10))
    by (vm_compute; reflexivity).
  exact (conj H1 (conj H2 (conj H3
           (generator_count_before_window 10 22 1 3 w H1 H2 H3)))).
Defined.

(** A restart at 09:00 on a record of today with one time in the past
    and one ahead. *)
Lemma restart_resumes_the_stored_schedule_witness :
  let strs := ["2024-01-01T08:00:00"; "2024-01-01T12:00:00"] in
  let m : gmap string json :=
    <["date" := JStr "2024-01-01"]>
      (<["scheduled_times" := JArr (JStr <$> strs)]> ∅) in
  let cfg := farm_config 1 1 in
  let w := boot (resumed_day (at_time 9 0 0) (JObj m)) in
  let w1 := snd (read_state w) in
  let now := answer DatetimeNow (after DatetimeNow w1) in
  let kept := filter (due_after now) strs in
  let st := JObj (<["scheduled_times" := JArr (JStr <$> kept)]> m) in
  let r := initialize cfg w in
  read_state w = (Ok (JObj m), w1) /\
  m !! "date" = Some (JStr (strftime_date (answer DatetimeNow w1))) /\
  listed_times m = JStr <$> strs /\
  Forall (fun s => is_Some (fromisoformat s)) strs /\
  kept = ["2024-01-01T12:00:00"] /\
  fst r = Ok (mkVars st kept) /\
  (exists a sg, Ev (JsonDump state_file_path st) a sg ∈ events_since w1 (snd r)) /\
  Forall (fun e => ~ draws e) (events_since w1 (snd r)).
Proof.
  cbv zeta.
  set (strs := ["2024-01-01T08:00:00"; "2024-01-01T12:00:00"]).
  set (m := <["date" := JStr "2024-01-01"]>
              (<["scheduled_times" := JArr (JStr <$> strs)]> ∅)).
  set (w := boot (resumed_day (at_time 9 0 0) (JObj m))).
  set (w1 := snd (read_state w)).
  assert (H1 : read_state w = (Ok (JObj m), w1)) by (vm_compute; reflexivity).
  assert (H2 : m !! "date" = Some (JStr (strftime_date (answer DatetimeNow w1))))
    by (vm_compute; reflexivity).
  assert (H3 : listed_times m = JStr <$> strs) by (vm_compute; reflexivity).
  assert (H4 : Forall (fun s => is_Some (fromisoformat s)) strs)
    by (repeat constructor; eexists; vm_compute; reflexivity).
  assert (H5 : filter (due_after (answer DatetimeNow (after DatetimeNow w1))) strs
               = ["2024-01-01T12:00:00"]) by (vm_compute; reflexivity).
  exact (conj H1 (conj H2 (conj H3 (conj H4 (conj H5
           (restart_resumes_the_stored_schedule (farm_config 1 1) w w1 m strs
              H1 H2 H3 H4)))))).
Defined.

(** A SIGTERM during the second sleep of the wait for 10:02 ends the
    loop. *)
Lemma loop_ends_only_on_request_witness :
  let cfg := farm_config 1 1 in
  let stored := stored_state "2024-01-01" ["2024-01-01T10:02:00"] in
  let v := mkVars stored ["2024-01-01T10:02:00"] in
  let w := running (interrupted (at_time 10 0 0) stored) in
  let w' := snd (main_loop 3 cfg v w) in
  main_loop 3 cfg v w = (Ok (Some tt), w') /\
  should_terminate w' = true /\
  (handler_installed w = true -> should_terminate w = false ->
   existsb signal_of (events_since w w') = true).
Proof.
  cbv zeta.
  set (stored := stored_state "2024-01-01" ["2024-01-01T10:02:00"]).
  set (v := mkVars stored ["2024-01-01T10:02:00"]).
  set (w := running (interrupted (at_time 10 0 0) stored)).
  assert (H : main_loop 3 (farm_config 1 1) v w
              = (Ok (Some tt), snd (main_loop 3 (farm_config 1 1) v w)))
    by (vm_compute; reflexivity).
  exact (conj H (loop_ends_only_on_request 3 (farm_config 1 1) v w _ H)).
Defined.

(** The schedule drawn at 09:00 and looked up at any time afterwards. *)
Lemma fresh_schedule_is_served_in_order_witness :
  let w := boot (quiet_day (at_time 9 0 0) 1 3 [7200; 60; 3600]) in
  let r := generate_schedule_for_today 10 22 1 3 w in
  valid_window 10 22 1 3 /\
  Forall lawful (events_since w (snd r)) /\
  exists dts,
    fst r = Ok (isoformat <$> dts) /\
    forall now (w' : world sim),
      let r' := next_scheduled_time (isoformat <$> dts) w' in
      Forall (reads now) (events_since w' (snd r')) ->
      exists res,
        fst r' = Ok res /\
        match res with
        | Some dt =>
            dt ∈ dts /\ lt now dt /\
            forall dt', dt' ∈ dts -> lt now dt' -> le dt dt'
        | None => forall dt', dt' ∈ dts -> ~ lt now dt'
        end.
Proof.
  cbv zeta.
  set (w := boot (quiet_day (at_time 9 0 0) 1 3 [7200; 60; 3600])).
  assert (H1 : valid_window 10 22 1 3) by (unfold valid_window; lia).
  assert (H2 : Forall lawful
                 (events_since w (snd (generate_schedule_for_today 10 22 1 3 w))))
    by by_computation.
  exact (conj H1 (conj H2 (fresh_schedule_is_served_in_order 10 22 1 3 w H1 H2))).
Defined.

(** The activity line of a commit at 10:00 in a writable repository. *)
Lemma activity_line_is_appended_once_witness :
  let w := running (quiet_day (at_time 10 0 0) 1 1 []) in
  let w' := snd (append_activity_line "/srv/farm" DEFAULT_COMMIT_FILE w) in
  let path := RepoFile "/srv/farm" DEFAULT_COMMIT_FILE in
  append_activity_line "/srv/farm" DEFAULT_COMMIT_FILE w = (Ok tt, w') /\
  exists (now : datetime) (i : nat) (present : bool) (s1 s2 s3 s4 s5 s6 : bool),
    events_since w w'
    = Ev (AppendText path
            ("- " +:+ strftime_datetime now +:+ " — "
                  +:+ default "" (phrases !! i) +:+ newline))
         (Returned tt) s6
      :: (if present then []
          else [Ev (WriteText path ("# Activity Log" +:+ newline +:+ newline))
                   (Returned tt) s5])
      ++ [Ev (PathExists path) present s4;
          Ev (RandChoice (length phrases)) i s3;
          Ev DatetimeNow now s2;
          Ev (MakeDirs (RepoFileDir "/srv/farm" DEFAULT_COMMIT_FILE)) (Returned tt) s1].
Proof.
  cbv zeta.
  set (w := running (quiet_day (at_time 10 0 0) 1 1 [])).
  assert (H : append_activity_line "/srv/farm" DEFAULT_COMMIT_FILE w
              = (Ok tt, snd (append_activity_line "/srv/farm" DEFAULT_COMMIT_FILE w)))
    by (vm_compute; reflexivity).
  exact (conj H (activity_line_is_appended_once _ _ w _ H)).
Defined.

(** A commit that succeeds, with pushing enabled. *)
Lemma push_only_after_a_commit_witness :
  let w := running (quiet_day (at_time 10 0 0) 1 1 []) in
  let new := events_since w (snd (perform_commit "/srv/farm" DEFAULT_COMMIT_FILE
                                    "chore" true w)) in
  Exists pushes new /\ (true = true /\ Exists committed new).
Proof.
  cbv zeta.
  set (w := running (quiet_day (at_time 10 0 0) 1 1 [])).
  assert (H : Exists pushes
                (events_since w (snd (perform_commit "/srv/farm" DEFAULT_COMMIT_FILE
                                        "chore" true w)))).
  { vm_compute. do 2 apply Exists_cons_tl. apply Exists_cons_hd. exact I. }
  exact (conj H (push_only_after_a_commit "/srv/farm" DEFAULT_COMMIT_FILE "chore" true w H)).
Defined.

(** At 23:00, with the only pending time of the day long past. *)
Lemma nothing_due_nothing_done_witness :
  let cfg := farm_config 1 1 in
  let stored := stored_state "2024-01-01" ["2024-01-01T12:00:00"] in
  let v := mkVars stored ["2024-01-01T12:00:00"] in
  let w := running (resumed_day (at_time 23 0 0) stored) in
  let now := answer DatetimeNow w in
  let r := iteration cfg v w in
  py_get (state v) "date" = Returned (JStr (strftime_date now)) /\
  fst (next_scheduled_time (scheduled_times v) (after DatetimeNow w)) = Ok None /\
  Forall waits (events_since w (snd r)) /\
  forall c, fst r = Ok c -> c = Some (Next v).
Proof.
  cbv zeta.
  set (stored := stored_state "2024-01-01" ["2024-01-01T12:00:00"]).
  set (v := mkVars stored ["2024-01-01T12:00:00"]).
  set (w := running (resumed_day (at_time 23 0 0) stored)).
  assert (H1 : py_get (state v) "date"
               = Returned (JStr (strftime_date (answer DatetimeNow w))))
    by (vm_compute; reflexivity).
  assert (H2 : fst (next_scheduled_time (scheduled_times v) (after DatetimeNow w))
               = Ok None) by (vm_compute; reflexivity).
  exact (conj H1 (conj H2 (nothing_due_nothing_done (farm_config 1 1) v w H1 H2))).
Defined.


(** The line [  REPO_PATH = "/srv/farm"] with its newline. *)
Lemma dotenv_line_is_read_back_witness :
  let blank c := py_isspace c = true in
  let quote c := py_isspace c || Ascii.eqb double_quote c || Ascii.eqb single_quote c in
  let pre := list_ascii_of_string "  " in
  let key := list_ascii_of_string "REPO_PATH" in
  let mid := list_ascii_of_string " " in
  let dq := [double_quote] in
  let value := list_ascii_of_string "/srv/farm" in
  let post := list_ascii_of_string newline in
  Forall blank pre /\ Forall blank mid /\ Forall blank mid /\ Forall blank post /\
  Forall (fun c => c = double_quote) dq /\ Forall (fun c => c = double_quote) dq /\
  Forall (fun c => c = single_quote) [] /\ Forall (fun c => c = single_quote) [] /\
  trimmed py_isspace key /\ ("="%char ∉ key) /\ (head key <> Some "#"%char) /\
  trimmed quote value /\
  dotenv_assignment
    (pre ++ key ++ mid ++ "="%char :: mid ++ dq ++ [] ++ value ++ [] ++ dq ++ post)
  = Some (key, value).
Proof.
  cbv zeta.
  set (pre := list_ascii_of_string "  ").
  set (key := list_ascii_of_string "REPO_PATH").
  set (mid := list_ascii_of_string " ").
  set (value := list_ascii_of_string "/srv/farm").
  set (post := list_ascii_of_string newline).
  assert (H1 : Forall (fun c => py_isspace c = true) pre) by (by repeat constructor).
  assert (H2 : Forall (fun c => py_isspace c = true) mid) by (by repeat constructor).
  assert (H4 : Forall (fun c => py_isspace c = true) post) by (by repeat constructor).
  assert (H5 : Forall (fun c => c = double_quote) [double_quote]) by (by repeat constructor).
  assert (H7 : Forall (fun c => c = single_quote) []) by constructor.
  assert (H9 : trimmed py_isspace key) by (split; eexists; split; reflexivity).
  assert (H10 : "="%char ∉ key) by (apply (bool_decide_unpack _); vm_compute; exact I).
  assert (H11 : head key <> Some "#"%char) by discriminate.
  assert (H12 : trimmed (fun c => py_isspace c || Ascii.eqb double_quote c
                                 || Ascii.eqb single_quote c) value)
    by (split; eexists; split; reflexivity).
  repeat (split; [assumption|]).
  exact (dotenv_line_is_read_back pre key mid mid [double_quote] [] value []
           [double_quote] post H1 H2 H2 H4 H5 H5 H7 H7 H9 H10 H11 H12).
Defined.



(** A state file that holds the JSON text of an empty list. *)
Lemma non_object_state_is_fatal_witness :
  let cfg := farm_config 1 1 in
  let w := boot (resumed_day (at_time 9 0 0) (JArr [])) in
  let w0 := snd (prelude w) in
  let w2 := snd (read_state (mkWorld (ext w0) true false (trace w0))) in
  let r := script 1 false w in
  prelude w = (Ok cfg, w0) /\
  read_state (mkWorld (ext w0) true false (trace w0)) = (Ok (JArr []), w2) /\
  (forall m, JArr [] <> JObj m) /\
  fst r = Exit 1 /\
  exists t a sg sg',
    events_since w2 (snd r)
    = [Ev (Print t (MsgFatal AttributeError)) a sg; Ev DatetimeNow t sg'].
Proof.
  cbv zeta.
  set (w := boot (resumed_day (at_time 9 0 0) (JArr []))).
  set (w0 := snd (prelude w)).
  set (w2 := snd (read_state (mkWorld (ext w0) true false (trace w0)))).
  assert (H1 : prelude w = (Ok (farm_config 1 1), w0)) by (vm_compute; reflexivity).
  assert (H2 : read_state (mkWorld (ext w0) true false (trace w0)) = (Ok (JArr []), w2))
    by (vm_compute; reflexivity).
  assert (H3 : forall m, JArr [] <> JObj m) by discriminate.
  exact (conj H1 (conj H2 (conj H3
           (non_object_state_is_fatal 1 (farm_config 1 1) w w0 w2 (JArr []) H1 H2 H3)))).
Defined.

(** At 09:00 the purge drops an entry of 08:00 and keeps the entries of
    12:00 and of 12:30, the second with microseconds; a number among the
    entries is a [TypeError]. *)
Lemma purge_keeps_the_future_witness :
  let strs := ["2024-01-01T08:00:00"; "2024-01-01T12:00:00"; "2024-01-01T12:30:00.250000"] in
  let now := at_time 9 0 0 in
  Forall (fun s => is_Some (fromisoformat s)) strs /\
  filter (due_after now) strs = ["2024-01-01T12:00:00"; "2024-01-01T12:30:00.250000"] /\
  purge (JStr <$> strs) now = Returned (filter (due_after now) strs) /\
  filter (due_after now) strs `sublist_of` strs /\
  (forall s, s ∈ filter (due_after now) strs <->
             s ∈ strs /\ exists dt, fromisoformat s = Some dt /\ lt now dt) /\
  (forall j rest, (forall s, j <> JStr s) ->
     purge ((JStr <$> strs) ++ j :: rest) now = Raised TypeError).
Proof.
  cbv zeta.
  set (strs := ["2024-01-01T08:00:00"; "2024-01-01T12:00:00"; "2024-01-01T12:30:00.250000"]).
  assert (H : Forall (fun s => is_Some (fromisoformat s)) strs)
    by (repeat constructor; eexists; vm_compute; reflexivity).
  assert (Hk : filter (due_after (at_time 9 0 0)) strs
               = ["2024-01-01T12:00:00"; "2024-01-01T12:30:00.250000"])
    by (vm_compute; reflexivity).
  exact (conj H (conj Hk (purge_keeps_the_future strs (at_time 9 0 0) H))).
Defined.

(** A run with [--now] on a quiet day returns, with the append, the
    [git add] and the [git commit] it has made. *)
Lemma immediate_mode_commits_once_witness :
  let w := boot (quiet_day (at_time 9 0 0) 1 3 []) in
  let r := main 0 true w in
  fst r = Ok (Some tt) /\
  existsb appended (events_since w (snd r)) = true /\
  (handler_installed (snd r) = handler_installed w /\
   Forall immediate (events_since w (snd r)) /\
   forall res, fst r = Ok res ->
     res = Some tt /\
     (exists t a sg,
         head (trace (snd r)) = Some (Ev (Print t MsgImmediateDone) a sg)) /\
     exists cfg w1 line msg p1 p2 s1 s2 s3 later mid before,
       prelude w = (Ok cfg, w1) /\
       events_since w (snd r)
       = later
           ++ Ev (SubprocessRun ["git"; "commit"; "-m"; msg] (repo_path cfg))
                 (Returned p2) s3
           :: mid
           ++ Ev (SubprocessRun ["git"; "add"; commit_file cfg] (repo_path cfg))
                 (Returned p1) s2
           :: Ev (AppendText (RepoFile (repo_path cfg) (commit_file cfg)) line)
                 (Returned tt) s1
           :: before /\
       Forall (fun e => ~ cycle_call e) (later ++ mid ++ before)).
Proof.
  cbv zeta.
  split; [vm_compute; reflexivity|]. split; [vm_compute; reflexivity|].
  exact (immediate_mode_commits_once 0 (boot (quiet_day (at_time 9 0 0) 1 3 []))).
Defined.

(** A repository in which nothing can be written: the append of a run
    with [--now] raises [OSError], which the handler turns into the exit
    status 1 after the fatal line. *)
Lemma no_exception_escapes_witness :
  let w := boot (read_only_repo (at_time 9 0 0)) in
  let r := script 0 true w in
  fst (main 0 true w) = Raise OSError /\
  fst r = Exit 1 /\
  ((forall e, fst r <> Raise e) /\
   (forall c, fst r = Exit c -> c = 1) /\
   (forall a w', main 0 true w = (Ok a, w') -> r = (Ok a, w')) /\
   (forall c w', main 0 true w = (Exit c, w') -> r = (Exit 1, w')) /\
   (forall e w', main 0 true w = (Raise e, w') ->
      fst r = Exit 1 /\
      exists t a sg, head (trace (snd r)) = Some (Ev (Print t (MsgFatal e)) a sg))).
Proof.
  cbv zeta.
  split; [vm_compute; reflexivity|]. split; [vm_compute; reflexivity|].
  exact (no_exception_escapes 0 true (boot (read_only_repo (at_time 9 0 0)))).
Defined.

Import Replay.

(** A configured repository that holds no [.git] directory. *)
Lemma missing_repository_is_fatal_witness :
  let cfg := farm_config 1 3 in
  let w := replaying [REnviron (Returned cfg); RBool true;
                             RBool false; RTime (at_time 9 0 0)] in
  let w1 := snd (read_config w) in
  let r := script 1 false w in
  read_config w = (Ok cfg, w1) /\
  answer (IsDir (RepoFile (repo_path cfg) ".git")) w1 = false /\
  fst r = Exit 1 /\
  exists t a sg sg',
    events_since w1 (snd r)
    = [Ev (Print t (MsgNotAGitRepo (repo_path cfg))) a sg;
       Ev DatetimeNow t sg';
       Ev (IsDir (RepoFile (repo_path cfg) ".git")) false
          (signalled (IsDir (RepoFile (repo_path cfg) ".git")) w1)].
Proof.
  cbv zeta.
  set (w := replaying [REnviron (Returned (farm_config 1 3));
                              RBool true; RBool false;
                              RTime (at_time 9 0 0)]).
  assert (H1 : read_config w = (Ok (farm_config 1 3), snd (read_config w)))
    by (vm_compute; reflexivity).
  assert (H2 : answer (IsDir (RepoFile (repo_path (farm_config 1 3)) ".git"))
                 (snd (read_config w)) = false) by (vm_compute; reflexivity).
  exact (conj H1 (conj H2 (missing_repository_is_fatal 1 false w _ _ H1 H2))).
Defined.
